(** * Quick-commerce news scraper: a shallow embedding of [scraper.py]

    The development follows the class [QuickCommerceNewsScraper]: the
    time window, the date check, the content extractor, the two harvesters
    and the aggregator with its deduplication pass.  Definitions come
    first, in the order of the source file; the theorems follow. *)

From Stdlib Require Import ZArith List Ascii String Lia Bool DecimalString.
From stdpp Require Import base option list gmap strings countable.

Local Open Scope string_scope.
Local Open Scope Z_scope.

Set Warnings "-register-all,-clear-no-such-hyp".

(** ** Python strings

    A [str] is modelled as a [string] whose characters are the code
    points below 256. *)

Module PyStr.

Definition nl : string := String (ascii_of_nat 10) EmptyString.

(** [len(s) > 0], the truth value of a string. *)
Definition nonempty (s : string) : bool :=
match s with EmptyString => false | String _ _ => true end.

(** [sub in s] *)
Fixpoint contains (sub s : string) : bool :=
String.prefix sub s ||
match s with
| EmptyString => false
| String _ s' => contains sub s'
end.

(** [s.split(sep)] for a non-empty separator.  [skip] counts the
    characters of a separator just recognised that are still to be
    passed over; [cur] is the piece being read. *)
Fixpoint split_go (sep s : string) (skip : nat) (cur : string) : list string :=
match s with
| EmptyString => [cur]
| String c s' =>
    match skip with
    | S k => split_go sep s' k cur
    | O =>
        if String.prefix sep s
        then cur :: split_go sep s' (Nat.pred (String.length sep)) EmptyString
        else split_go sep s' O (cur ++ String c EmptyString)
    end
end.

Definition split (sep s : string) : list string := split_go sep s O EmptyString.

(** [str.isspace] on one character: the ASCII white space, the four
    separators 0x1c..0x1f, NEL and the no-break space. *)
Definition isspace (c : ascii) : bool :=
let n := nat_of_ascii c in
((9 <=? n) && (n <=? 13) || (28 <=? n) && (n <=? 32) || (n =? 133) || (n =? 160))%nat.

Fixpoint lstrip (s : string) : string :=
match s with
| EmptyString => EmptyString
| String c s' => if isspace c then lstrip s' else s
end.

Fixpoint rstrip (s : string) : string :=
match s with
| EmptyString => EmptyString
| String c s' =>
    let r := rstrip s' in
    if isspace c && negb (nonempty r) then EmptyString else String c r
end.

(** [s.strip()] *)
Definition strip (s : string) : string := rstrip (lstrip s).

(** [re.sub(r'\s+', ' ', s)]: every maximal run of white space becomes
    one blank.  [in_run] tells that the previous character was white. *)
Fixpoint collapse_spaces (in_run : bool) (s : string) : string :=
match s with
| EmptyString => EmptyString
| String c s' =>
    if isspace c
    then if in_run then collapse_spaces true s' else String " " (collapse_spaces true s')
    else String c (collapse_spaces false s')
end.

(** [c.lower()] for a code point below 256. *)
Definition lower_char (c : ascii) : ascii :=
let n := nat_of_ascii c in
if ((65 <=? n) && (n <=? 90) || (192 <=? n) && (n <=? 222) && negb (n =? 215))%nat
then ascii_of_nat (n + 32) else c.

(** [s.lower()] *)
Fixpoint lower (s : string) : string :=
match s with
| EmptyString => EmptyString
| String c s' => String (lower_char c) (lower s')
end.

(** [sep.join(parts)] *)
Definition join (sep : string) (parts : list string) : string := String.concat sep parts.

(** [str(n)] for a natural number. *)
Definition of_nat (n : nat) : string := NilZero.string_of_uint (Nat.to_uint n).

(** A non-negative integer printed on at least [width] digits, as [%02d]
    and [%04d] do. *)
Fixpoint pad_left (k : nat) (s : string) : string :=
match k with
| O => s
| S k' => String "0" (pad_left k' s)
end.

Definition zero_padded (width : nat) (z : Z) : string :=
let s := of_nat (Z.to_nat z) in
pad_left (width - String.length s) s.

(** [repr(s)] of a [str].  The quote is the single one, or the double
    one when the text holds a single quote and no double one; the quote
    chosen and the backslash are escaped, and so are the control
    characters of ASCII.  A text is held as the bytes of its UTF-8 form:
    what is not ASCII is left as it is, which is what Python does with a
    printable character. *)
Definition single_quote : ascii := ascii_of_nat 39.
Definition double_quote : ascii := ascii_of_nat 34.
Definition backslash : ascii := ascii_of_nat 92.

Definition hex_digit (n : nat) : ascii :=
nth n [ "0"; "1"; "2"; "3"; "4"; "5"; "6"; "7"; "8"; "9"; "a"; "b"; "c"; "d"; "e"; "f" ]%char
  "0"%char.

Definition has_char (c : ascii) (s : string) : bool :=
existsb (Ascii.eqb c) (list_ascii_of_string s).

Definition repr_char (quote c : ascii) : string :=
let n := nat_of_ascii c in
if Ascii.eqb c quote || Ascii.eqb c backslash then String backslash (String c EmptyString)
else if (n =? 9)%nat then String backslash "t"
else if (n =? 10)%nat then String backslash "n"
else if (n =? 13)%nat then String backslash "r"
else if (n <? 32)%nat || (n =? 127)%nat
then String backslash
       (String "x" (String (hex_digit (n / 16)) (String (hex_digit (n mod 16)) EmptyString)))
else String c EmptyString.

Fixpoint repr_body (quote : ascii) (s : string) : string :=
match s with
| EmptyString => EmptyString
| String c s' => repr_char quote c ++ repr_body quote s'
end.

Definition repr (s : string) : string :=
let quote :=
  if has_char single_quote s && negb (has_char double_quote s) then double_quote
  else single_quote in
String quote (repr_body quote s ++ String quote EmptyString).

(** The texts on which [repr] is exact: those of ASCII characters. *)
Definition is_ascii (s : string) : bool :=
forallb (fun c => (nat_of_ascii c <? 128)%nat) (list_ascii_of_string s).

End PyStr.

(** ** Exceptions

    An exception carries its class name and the text [str(e)] gives. *)

Record Exn : Type := mkExn { exn_class : string; exn_str : string }.

Inductive exc (A : Type) : Type :=
  | Ret (a : A)
  | Raise (e : Exn).
Arguments Ret {A} a.
Arguments Raise {A} e.

#[global] Instance exc_ret : MRet exc := fun A a => Ret a.
#[global] Instance exc_bind : MBind exc := fun A B k r =>
  match r with
  | Ret a => k a
  | Raise e => Raise e
  end.

(** [try: body  except: handler] without effects. *)
Definition exc_catch {A : Type} (body : exc A) (handler : Exn -> exc A) : exc A :=
match body with
| Ret a => Ret a
| Raise e => handler e
end.

(** ** The effects of a run

    What the process leaves behind: the log records, the number of HTTP
    requests sent so far and the pauses taken. *)

Inductive level : Type := INFO | WARNING | ERROR.

Record St : Type := mkSt {
  log : list (level * string);
  requests : nat;
  slept : list Z
}.

(** A computation over a state [S] that returns or raises; the state
    reached when an exception is raised is kept, as in Python. *)
Definition M (S A : Type) : Type := S -> exc A * S.

#[global] Instance M_ret {S : Type} : MRet (M S) := fun A a s => (Ret a, s).
#[global] Instance M_bind {S : Type} : MBind (M S) := fun A B k m s =>
  match m s with
  | (Ret a, s') => k a s'
  | (Raise e, s') => (Raise e, s')
  end.

Definition raise {S A : Type} (e : Exn) : M S A := fun s => (Raise e, s).

Definition lift_exc {S A : Type} (r : exc A) : M S A := fun s => (r, s).

(** [try: body  except Exception as e: handler e] *)
Definition try_except {S A : Type} (body : M S A) (handler : Exn -> M S A) : M S A :=
fun s =>
  match body s with
  | (Ret a, s') => (Ret a, s')
  | (Raise e, s') => handler e s'
  end.

(** [for x in xs: body x] *)
Fixpoint for_each {S A : Type} (xs : list A) (body : A -> M S unit) : M S unit :=
match xs with
| [] => mret tt
| x :: xs' => body x ;; for_each xs' body
end.

(** A function body with mutable locals [L]: the frame holds the
    process state and the locals, and both survive an exception. *)
Record Frame (L : Type) : Type := mkFrame { glob : St; loc : L }.
Arguments mkFrame {L} glob loc.
Arguments glob {L} f.
Arguments loc {L} f.

Definition lift {L A : Type} (m : M St A) : M (Frame L) A :=
fun f => let (r, s') := m (glob f) in (r, mkFrame s' (loc f)).

Definition get_locals {L : Type} : M (Frame L) L := fun f => (Ret (loc f), f).

Definition set_locals {L : Type} (l : L) : M (Frame L) unit :=
fun f => (Ret tt, mkFrame (glob f) l).

Definition with_locals {L A : Type} (init : L) (m : M (Frame L) A) : M St A :=
fun s => let (r, f) := m (mkFrame s init) in (r, glob f).

(** [logger.info], [logger.warning], [logger.error] *)
Definition logger (lvl : level) (msg : string) : M St unit :=
fun s => (Ret tt, mkSt (log s ++ [(lvl, msg)]) (requests s) (slept s)).

(** [time.sleep(secs)] *)
Definition sleep (secs : Z) : M St unit :=
fun s => (Ret tt, mkSt (log s) (requests s) (slept s ++ [secs])).

(** ** Dates and durations ([datetime], [timedelta]) *)

Module Time.

(** A [datetime]: the reading of its calendar and clock fields, in
    microseconds counted from 0001-01-01 00:00:00, and its [tzinfo], the
    offset from UTC in microseconds ([None] for a naive value). *)
Record datetime : Type := mkDatetime { wall : Z; tzinfo : option Z }.

Definition us_per_second : Z := 1000000.
Definition us_per_hour : Z := 3600 * us_per_second.
Definition us_per_day : Z := 24 * us_per_hour.

(** The reading of [datetime.max], 9999-12-31 23:59:59.999999. *)
Definition MAX_WALL : Z := 3652059 * us_per_day - 1.

(** [timedelta(hours=h)] and [timedelta(days=d)], in microseconds. *)
Definition timedelta_hours (h : Z) : Z := h * us_per_hour.
Definition timedelta_days (d : Z) : Z := d * us_per_day.

(** [d - td]: [OverflowError] outside [datetime.min .. datetime.max]. *)
Definition datetime_sub (d : datetime) (td : Z) : exc datetime :=
let t := wall d - td in
if (0 <=? t) && (t <=? MAX_WALL)
then Ret (mkDatetime t (tzinfo d))
else Raise (mkExn "OverflowError" "date value out of range").

(** [a - b] on two naive values, a [timedelta]. *)
Definition datetime_diff (a b : datetime) : Z := wall a - wall b.

(** [d.replace(tzinfo=None)]: the fields stay, the offset goes. *)
Definition replace_tzinfo_none (d : datetime) : datetime := mkDatetime (wall d) None.

(** [a >= b]: naive values compare by their fields, aware values by
    their instants; mixing the two is a [TypeError]. *)
Definition datetime_ge (a b : datetime) : exc bool :=
match tzinfo a, tzinfo b with
| None, None => Ret (wall b <=? wall a)
| Some oa, Some ob => Ret (wall b - ob <=? wall a - oa)
| _, _ => Raise (mkExn "TypeError" "can't compare offset-naive and offset-aware datetimes")
end.

(** The proleptic Gregorian date of day number [n] (0 is 0001-01-01),
    by the usual era arithmetic on a year that starts in March. *)
Definition civil_of_days (n : Z) : Z * Z * Z :=
let z := n + 306 in
let era := z / 146097 in
let doe := z mod 146097 in
let yoe := (doe - doe / 1460 + doe / 36524 - doe / 146096) / 365 in
let doy := doe - (365 * yoe + yoe / 4 - yoe / 100) in
let mp := (5 * doy + 2) / 153 in
let d := doy - (153 * mp + 2) / 5 + 1 in
let m := if mp <? 10 then mp + 3 else mp - 9 in
let y := yoe + era * 400 + (if m <=? 2 then 1 else 0) in
(y, m, d).

(** The inverse: the day number of a date. *)
Definition days_of_civil (y m d : Z) : Z :=
let y' := if m <=? 2 then y - 1 else y in
let era := y' / 400 in
let yoe := y' - era * 400 in
let doy := (153 * (if 2 <? m then m - 3 else m + 9) + 2) / 5 + d - 1 in
let doe := yoe * 365 + yoe / 4 - yoe / 100 + doy in
era * 146097 + doe - 306.

(** [d.strftime('%Y-%m-%d')], the year on four digits. *)
Definition strftime_ymd (d : datetime) : string :=
let '(y, m, dd) := civil_of_days (wall d / us_per_day) in
PyStr.zero_padded 4 y ++ "-" ++ PyStr.zero_padded 2 m ++ "-" ++ PyStr.zero_padded 2 dd.

End Time.

Import Time.

(** ** Parsed documents (the node tree of [BeautifulSoup]) *)

Module Soup.

Inductive node : Type :=
  | Text (s : string)
  | Tag (name : string) (attrs : list (string * string)) (children : list node).

(** The whole document is the tag named [[document]]. *)
Definition document (children : list node) : node := Tag "[document]" [] children.

(** All nodes below [n], in document order. *)
Fixpoint descendants (n : node) : list node :=
match n with
| Text _ => []
| Tag _ _ cs =>
    (fix go (l : list node) : list node :=
       match l with
       | [] => []
       | c :: l' => ((c :: descendants c) ++ go l')%list
       end) cs
end.

Definition tag_named (names : list string) (n : node) : bool :=
match n with
| Text _ => false
| Tag t _ _ => existsb (String.eqb t) names
end.

(** [n.find_all(names)] *)
Definition find_all (names : list string) (n : node) : list node :=
List.filter (tag_named names) (descendants n).

(** [n.find(name)], [None] when there is no such tag. *)
Definition find (name : string) (n : node) : option node :=
head (find_all [name] n).

(** [n.get_text()]: the text below [n], concatenated. *)
Fixpoint get_text (n : node) : string :=
match n with
| Text s => s
| Tag _ _ cs =>
    (fix go (l : list node) : string :=
       match l with
       | [] => EmptyString
       | c :: l' => get_text c ++ go l'
       end) cs
end.

(** [for element in soup(names): element.decompose()]: every tag with
    one of the names leaves the tree, with all that is below it. *)
Fixpoint decompose_all (names : list string) (n : node) : node :=
match n with
| Text s => Text s
| Tag t a cs =>
    Tag t a
      ((fix go (l : list node) : list node :=
          match l with
          | [] => []
          | c :: l' => if tag_named names c then go l' else decompose_all names c :: go l'
          end) cs)
end.

(** The CSS selectors the extractor uses: a tag name, [.class] and
    [[attr="value"]]. *)
Inductive selector : Type :=
  | SelTag (name : string)
  | SelClass (cls : string)
  | SelAttr (key value : string).

Definition attr (key : string) (attrs : list (string * string)) : option string :=
snd <$> List.find (fun kv => String.eqb (fst kv) key) attrs.

Definition matches (sel : selector) (n : node) : bool :=
match n with
| Text _ => false
| Tag t a _ =>
    match sel with
    | SelTag name => String.eqb t name
    | SelClass cls =>
        match attr "class" a with
        | Some v => existsb (String.eqb cls) (String.words v)
        | None => false
        end
    | SelAttr key value =>
        match attr key a with
        | Some v => String.eqb v value
        | None => false
        end
    end
end.

(** [soup.select_one(sel)] *)
Definition select_one (sel : selector) (soup : node) : option node :=
List.find (matches sel) (descendants soup).

End Soup.

Import Soup.

(** ** The world outside the process

    What the scraper reaches through [requests], [BeautifulSoup],
    [os.getenv], [datetime.now] and [email.utils]. *)

Record Response : Type := mkResponse {
  status_code : Z;
  reason : string;
  resp_url : string;
  content : string
}.

Record Request : Type := mkRequest {
  req_url : string;
  req_headers : list (string * string);
  req_params : list (string * string);
  req_timeout : Z;
  req_allow_redirects : bool
}.

(** A field of a JSON object of the search API: absent, [null] or a
    string. *)
Inductive jfield : Type :=
  | Absent
  | JNull
  | JStr (s : string).

(** The [source] member of an API article: absent, [null] or an object
    with a [name]. *)
Inductive jsource : Type :=
  | SrcAbsent
  | SrcNull
  | SrcObj (name : jfield).

Record api_article : Type := mkApiArticle {
  a_title : jfield;
  a_url : jfield;
  a_source : jsource;
  a_publishedAt : jfield;
  a_description : jfield;
  a_content : jfield
}.

(** The decoded response of the search API: an object whose [articles]
    member, when present, is a list of articles. *)
Record api_data : Type := mkApiData { articles : option (list api_article) }.

Record World : Type := mkWorld {
  (** [datetime.now()], a naive reading *)
  clock_now : Z;
  (** [os.getenv(name)] *)
  getenv : string -> option string;
  (** [session.get]: the answer to the n-th request of the run *)
  http_get : nat -> Request -> exc Response;
  (** [BeautifulSoup(content, 'html.parser')] *)
  html_parser : string -> exc node;
  (** [BeautifulSoup(content, 'xml')] *)
  xml_parser : string -> exc node;
  (** [response.json()] *)
  json_loads : string -> exc api_data;
  (** [email.utils.parsedate_to_datetime] *)
  parsedate_to_datetime : string -> exc datetime
}.

(** [self.session.get(url, ...)] *)
Definition session_get (w : World) (req : Request) : M St Response :=
fun s => (http_get w (requests s) req, mkSt (log s) (S (requests s)) (slept s)).

(** [response.raise_for_status()] *)
Definition raise_for_status (r : Response) : exc unit :=
if (400 <=? status_code r) && (status_code r <? 500)
then Raise (mkExn "HTTPError"
       (PyStr.of_nat (Z.to_nat (status_code r)) ++ " Client Error: " ++ reason r
        ++ " for url: " ++ resp_url r))
else if (500 <=? status_code r) && (status_code r <? 600)
then Raise (mkExn "HTTPError"
       (PyStr.of_nat (Z.to_nat (status_code r)) ++ " Server Error: " ++ reason r
        ++ " for url: " ++ resp_url r))
else Ret tt.

(** ** Values of an article

    An article is a [Dict[str, str]]; a field that the API gave as
    [null] is [None]. *)

Inductive pyval : Type :=
  | PNone
  | PStr (s : string).

#[global] Instance pyval_eq_dec : EqDecision pyval.
Proof. solve_decision. Defined.

Definition pyval_to_option (v : pyval) : option string :=
match v with PNone => None | PStr s => Some s end.

Definition pyval_of_option (o : option string) : pyval :=
match o with None => PNone | Some s => PStr s end.

#[global] Instance pyval_countable : Countable pyval.
Proof.
  apply (inj_countable' pyval_to_option pyval_of_option).
  intros []; reflexivity.
Defined.

(** Truth value: [None] and the empty string are false. *)
Definition truthy (v : pyval) : bool :=
match v with
| PNone => false
| PStr s => PyStr.nonempty s
end.

(** [a or b] *)
Definition py_or (a b : pyval) : pyval := if truthy a then a else b.

(** [d.get(key)] and [d.get(key, default)] on an API object. *)
Definition jget (f : jfield) : pyval :=
match f with
| Absent => PNone
| JNull => PNone
| JStr s => PStr s
end.

Definition jget_default (f : jfield) (default : pyval) : pyval :=
match f with
| Absent => default
| JNull => PNone
| JStr s => PStr s
end.

(** [article.get(key, default)] on an article. *)
Definition dict_get (article : gmap string pyval) (key : string) (default : pyval) : pyval :=
match article !! key with
| Some v => v
| None => default
end.

(** ** The scraper *)

Record timeframe_config : Type := mkConfig {
  hours : option Z;
  days : option Z;
  description : string
}.

(** [self.timeframe_options] *)
Definition timeframe_options : gmap string timeframe_config :=
list_to_map
  [ ("6h", mkConfig (Some 6) None "Last 6 hours");
    ("12h", mkConfig (Some 12) None "Last 12 hours");
    ("24h", mkConfig (Some 24) None "Last 24 hours");
    ("2d", mkConfig None (Some 2) "Last 2 days");
    ("3d", mkConfig None (Some 3) "Last 3 days");
    ("7d", mkConfig None (Some 7) "Last week");
    ("14d", mkConfig None (Some 14) "Last 2 weeks");
    ("30d", mkConfig None (Some 30) "Last month");
    ("60d", mkConfig None (Some 60) "Last 2 months");
    ("90d", mkConfig None (Some 90) "Last 3 months") ].

(** [self.keywords] *)
Definition keywords : list string :=
  [ "quick commerce"; "q-commerce"; "quick-commerce"; "qcommerce";
    "blinkit"; "zepto"; "swiggy instamart"; "instamart";
    "amazon now"; "flipkart minutes"; "bigbasket now";
    "dunzo"; "grofers"; "ultra fast delivery"; "10 minute delivery";
    "instant delivery"; "rapid delivery"; "dark store"; "dark stores" ].

(** The attributes of a scraper that change from one object to the
    next. *)
Record scraper : Type := mkScraper {
  timeframe : string;
  start_date : datetime;
  end_date : datetime
}.

(** [d[key]] on the option table. *)
Definition options_item (key : string) : exc timeframe_config :=
match timeframe_options !! key with
| Some cfg => Ret cfg
| None => Raise (mkExn "KeyError" (PyStr.repr key))
end.

(** [_calculate_timeframe]: returns the value left in [self.timeframe]
    and the pair [(start_date, end_date)]. *)
Definition _calculate_timeframe (w : World) (timeframe : string)
  : M St (string * (datetime * datetime)) :=
let end_date := mkDatetime (clock_now w) None in
timeframe ←
  (if decide (timeframe ∈ dom timeframe_options) then mret timeframe
   else logger WARNING ("Invalid timeframe '" ++ timeframe ++ "', defaulting to '7d'") ;;
        mret "7d");
timeframe_config ← lift_exc (options_item timeframe);
start_date ←
  lift_exc
    match hours timeframe_config with
    | Some h => datetime_sub end_date (timedelta_hours h)
    | None =>
        match days timeframe_config with
        | Some d => datetime_sub end_date (timedelta_days d)
        | None =>
            Raise (mkExn "UnboundLocalError"
                     "cannot access local variable 'start_date' where it is not associated with a value")
        end
    end;
mret (timeframe, (start_date, end_date)).

(** [__init__(timeframe)] *)
Definition init (w : World) (timeframe : string) : M St scraper :=
'(timeframe, (start_date, end_date)) ← _calculate_timeframe w timeframe;
mret (mkScraper timeframe start_date end_date).

(** [is_article_in_timeframe] *)
Definition is_article_in_timeframe (w : World) (self : scraper) (pub_date_str : string)
  : exc bool :=
if negb (PyStr.nonempty pub_date_str) then Ret true
else
  exc_catch
    (pub_date ← parsedate_to_datetime w pub_date_str;
     let pub_date :=
       match tzinfo pub_date with
       | Some _ => replace_tzinfo_none pub_date
       | None => pub_date
       end in
     datetime_ge pub_date (start_date self))
    (fun _ => Ret true).

(** [clean_text] *)
Definition clean_text (text : pyval) : string :=
match text with
| PNone => EmptyString
| PStr s =>
    if negb (PyStr.nonempty s) then EmptyString
    else PyStr.collapse_spaces false (PyStr.strip s)
end.

(** *** [extract_content_from_url] *)

Definition redirect_domains : list string := [ "news.google.com"; "google.com/url"; "t.co" ].

Definition unwanted_elements : list string :=
  [ "script"; "style"; "nav"; "header"; "footer"; "aside"; "advertisement"; "form"; "button" ].

Definition article_selectors : list selector :=
  [ SelTag "article"; SelClass "article-content"; SelClass "entry-content";
    SelClass "post-content"; SelClass "article-body"; SelClass "story-body";
    SelClass "content"; SelClass "main-content";
    SelAttr "data-module" "ArticleBody"; SelClass "story-text"; SelClass "article-text" ].

Definition boilerplate_markers : list string :=
  [ "subscribe"; "newsletter"; "advertisement"; "cookie"; "privacy" ].

Definition extraction_headers : list (string * string) :=
  [ ("User-Agent",
     "Mozilla/5.0 (Windows NT 10.0; Win64; x64) AppleWebKit/537.36 (KHTML, like Gecko) Chrome/120.0.0.0 Safari/537.36");
    ("Accept", "text/html,application/xhtml+xml,application/xml;q=0.9,*/*;q=0.8");
    ("Accept-Language", "en-US,en;q=0.9");
    ("Connection", "keep-alive") ].

Definition redirect_placeholder : string := "Redirect URL - content extraction skipped".

Definition extraction_failed_placeholder : string :=
  "Content extraction failed - unable to locate article text".

(** [len(text) > 50] *)
Definition long_enough (text : string) : bool := (50 <? String.length text)%nat.

(** The texts a container gives: the inner loop of method 1. *)
Definition container_texts (article_elem : node) : list string :=
List.filter long_enough
  (List.map (fun p => clean_text (PStr (get_text p))) (find_all ["p"; "div"] article_elem)).

(** Method 1: the loop over the selectors, left at the first selector
    after which [content_text] is not empty. *)
Fixpoint method1 (soup : node) (selectors : list selector) (content_text : list string)
  : list string :=
match selectors with
| [] => content_text
| sel :: rest =>
    match select_one sel soup with
    | Some article_elem =>
        let content_text := (content_text ++ container_texts article_elem)%list in
        match content_text with
        | [] => method1 soup rest content_text
        | _ :: _ => content_text
        end
    | None => method1 soup rest content_text
    end
end.

(** Method 2: every paragraph of the document that is long enough and
    carries no boilerplate marker. *)
Definition method2 (soup : node) : list string :=
List.filter
  (fun text =>
     long_enough text
     && negb (existsb (fun unwanted => PyStr.contains unwanted (PyStr.lower text))
                boilerplate_markers))
  (List.map (fun p => clean_text (PStr (get_text p))) (find_all ["p"] soup)).

(** [content_text] as it stands when the function builds its result. *)
Definition content_fragments (soup : node) : list string :=
match method1 soup article_selectors [] with
| [] => method2 soup
| found => found
end.

(** The value returned from the fragments. *)
Definition render_content (content_text : list string) : string :=
match content_text with
| [] => extraction_failed_placeholder
| _ :: _ => PyStr.join (PyStr.nl ++ PyStr.nl) (firstn 15 content_text)
end.

Definition is_redirect_url (url : string) : bool :=
existsb (fun domain => PyStr.contains domain url) redirect_domains.

(** The body of the [try] block. *)
Definition extract_content_body (w : World) (url : string) : M St string :=
if is_redirect_url url then mret redirect_placeholder
else
  response ← session_get w (mkRequest url extraction_headers [] 20 true);
  lift_exc (raise_for_status response) ;;
  soup ← lift_exc (html_parser w (content response));
  let soup := decompose_all unwanted_elements soup in
  mret (render_content (content_fragments soup)).

Definition extract_content_from_url (w : World) (url : string) : M St string :=
try_except (extract_content_body w url)
  (fun e =>
     logger ERROR ("Error extracting content from " ++ url ++ ": " ++ exn_str e) ;;
     mret ("Error extracting content: " ++ exn_str e)).

(** *** [search_direct_rss_feeds] *)

Definition rss_sources : list (string * string) :=
  [ ("Economic Times", "https://economictimes.indiatimes.com/rssfeedsdefault.cms");
    ("Business Standard", "https://www.business-standard.com/rss/latest.rss");
    ("LiveMint", "https://www.livemint.com/rss/companies");
    ("Financial Express", "https://www.financialexpress.com/feed/");
    ("YourStory", "https://yourstory.com/feed");
    ("Inc42", "https://inc42.com/feed/");
    ("MoneyControl", "https://www.moneycontrol.com/rss/business.xml") ].

(** [articles.append(article_data)] on the local list of a harvester. *)
Definition append_article (article_data : gmap string pyval)
  : M (Frame (list (gmap string pyval))) unit :=
articles ← get_locals;
set_locals (articles ++ [article_data])%list.

(** [any(keyword.lower() in title.lower() for keyword in self.keywords)] *)
Definition title_has_keyword (title : string) : bool :=
existsb (fun keyword => PyStr.contains (PyStr.lower keyword) (PyStr.lower title)) keywords.

(** The body of the loop over the items of one feed. *)
Definition rss_item (w : World) (self : scraper) (source_name : string) (item : node)
  : M (Frame (list (gmap string pyval))) unit :=
match find "title" item, find "link" item with
| Some title_elem, Some link_elem =>
    let title := clean_text (PStr (get_text title_elem)) in
    let article_url := get_text link_elem in
    let pub_date :=
      match find "pubDate" item with
      | Some pub_date_elem => get_text pub_date_elem
      | None => EmptyString
      end in
    in_timeframe ← lift_exc (is_article_in_timeframe w self pub_date);
    if negb in_timeframe then mret tt
    else if title_has_keyword title then
      content ← lift (extract_content_from_url w article_url);
      let article_data : gmap string pyval :=
        list_to_map
          [ ("title", PStr title);
            ("url", PStr article_url);
            ("source", PStr source_name);
            ("published_date", PStr pub_date);
            ("description",
             PStr match find "description" item with
                  | Some description_elem => clean_text (PStr (get_text description_elem))
                  | None => EmptyString
                  end);
            ("content", PStr content) ] in
      append_article article_data ;;
      lift (sleep 2)
    else mret tt
| _, _ => mret tt
end.

(** The body of the loop over the feeds, with its [try]. *)
Definition rss_source (w : World) (self : scraper) (source : string * string)
  : M (Frame (list (gmap string pyval))) unit :=
let '(source_name, rss_url) := source in
try_except
  (lift (logger INFO ("Fetching RSS from " ++ source_name ++ "...")) ;;
   response ← lift (session_get w (mkRequest rss_url [] [] 15 true));
   lift_exc (raise_for_status response) ;;
   soup ← lift_exc (xml_parser w (content response));
   let items := find_all ["item"] soup in
   for_each (firstn 30 items) (rss_item w self source_name))
  (fun e => lift (logger ERROR ("Error with RSS from " ++ source_name ++ ": " ++ exn_str e))).

Definition search_direct_rss_feeds (w : World) (self : scraper)
  : M St (list (gmap string pyval)) :=
with_locals []
  (for_each rss_sources (rss_source w self) ;;
   get_locals).

(** *** [search_news_api] *)

Definition truncation_marker : string := "[+".

Definition api_domains : string :=
  "economictimes.indiatimes.com,business-standard.com,livemint.com,yourstory.com,inc42.com".

(** [lst[0]] *)
Definition first_item (l : list string) : exc string :=
match l with
| x :: _ => Ret x
| [] => Raise (mkExn "IndexError" "list index out of range")
end.

(** [article.get('source', {}).get('name', 'NewsAPI')] *)
Definition source_name_of (src : jsource) : exc pyval :=
match src with
| SrcAbsent => Ret (PStr "NewsAPI")
| SrcNull => Raise (mkExn "AttributeError" "'NoneType' object has no attribute 'get'")
| SrcObj name => Ret (jget_default name (PStr "NewsAPI"))
end.

(** The content stored for an API article whose [content] is the
    non-empty string [content]. *)
Definition stored_content (content : string) : exc pyval :=
content ←
  (if PyStr.contains truncation_marker content
   then first_item (PyStr.split truncation_marker content)
   else Ret content);
Ret (py_or (PStr content) (PStr "NewsAPI content not available")).

(** The body of the loop over the articles of the response: the record
    built for an article, [None] for one that is passed over. *)
Definition api_article_data (article : api_article) : exc (option (gmap string pyval)) :=
if truthy (jget (a_url article)) && truthy (jget (a_content article)) then
  content ←
    match jget_default (a_content article) (PStr EmptyString) with
    | PStr content => stored_content content
    | PNone => Raise (mkExn "TypeError" "argument of type 'NoneType' is not iterable")
    end;
  source ← source_name_of (a_source article);
  Ret (Some (list_to_map
    [ ("title", PStr (clean_text (jget_default (a_title article) (PStr EmptyString))));
      ("url", jget (a_url article));
      ("source", source);
      ("published_date", jget_default (a_publishedAt article) (PStr EmptyString));
      ("description", PStr (clean_text (jget_default (a_description article) (PStr EmptyString))));
      ("content", content) ]))
else Ret None.

Definition api_item (article : api_article) : M (Frame (list (gmap string pyval))) unit :=
article_data ← lift_exc (api_article_data article);
match article_data with
| Some article_data => append_article article_data
| None => mret tt
end.

Definition api_request (self : scraper) (query api_key : string) : Request :=
mkRequest "https://newsapi.org/v2/everything" []
  [ ("q", query);
    ("from", strftime_ymd (start_date self));
    ("to", strftime_ymd (end_date self));
    ("sortBy", "publishedAt");
    ("language", "en");
    ("apiKey", api_key);
    ("pageSize", "50");
    ("domains", api_domains) ]
  15 true.

Definition search_news_api (w : World) (self : scraper) (query : string)
  : M St (list (gmap string pyval)) :=
with_locals []
  (match getenv w "NEWS_API_KEY" with
   | Some (String c k) =>
       let api_key := String c k in
       try_except
         (response ← lift (session_get w (api_request self query api_key));
          lift_exc (raise_for_status response) ;;
          data ← lift_exc (json_loads w (content response));
          for_each (default [] (articles data)) api_item)
         (fun e => lift (logger ERROR ("Error with NewsAPI: " ++ exn_str e)))
   | _ => lift (logger WARNING "NEWS_API_KEY not found - skipping NewsAPI")
   end ;;
   get_locals).

(** *** [remove_duplicates] *)

(** The loop of [remove_duplicates], with its two locals [seen_urls]
    and [unique_articles]. *)
Fixpoint remove_duplicates_loop (articles : list (gmap string pyval))
    (seen_urls : gset pyval) (unique_articles : list (gmap string pyval))
  : list (gmap string pyval) :=
match articles with
| [] => unique_articles
| article :: rest =>
    let url := dict_get article "url" (PStr EmptyString) in
    if decide (url ∈ seen_urls)
    then remove_duplicates_loop rest seen_urls unique_articles
    else remove_duplicates_loop rest ({[url]} ∪ seen_urls) (unique_articles ++ [article])
end.

Definition remove_duplicates (articles : list (gmap string pyval))
  : list (gmap string pyval) :=
remove_duplicates_loop articles ∅ [].

(** *** [scrape_all_news] *)

Definition api_keywords : list string :=
  [ "quick commerce india"; "blinkit"; "zepto"; "swiggy instamart" ].

(** [all_articles.extend(more)] and [newsapi_count += n] on the locals
    [(all_articles, newsapi_count)]. *)
Definition extend_all_articles (more : list (gmap string pyval))
  : M (Frame (list (gmap string pyval) * nat)) unit :=
'(all_articles, newsapi_count) ← get_locals;
set_locals ((all_articles ++ more)%list, newsapi_count).

Definition add_newsapi_count (n : nat)
  : M (Frame (list (gmap string pyval) * nat)) unit :=
'(all_articles, newsapi_count) ← get_locals;
set_locals (all_articles, (newsapi_count + n)%nat).

(** The body of the loop over the API keywords, with its [try]. *)
Definition scrape_keyword (w : World) (self : scraper) (keyword : string)
  : M (Frame (list (gmap string pyval) * nat)) unit :=
try_except
  (news_api_articles ← lift (search_news_api w self keyword);
   extend_all_articles news_api_articles ;;
   add_newsapi_count (length news_api_articles) ;;
   lift (sleep 2))
  (fun e => lift (logger ERROR ("NewsAPI error for '" ++ keyword ++ "': " ++ exn_str e))).

Definition scrape_all_news (w : World) (self : scraper) : M St (list (gmap string pyval)) :=
with_locals ([], O)
  (cfg ← lift_exc (options_item (timeframe self));
   lift (logger INFO ("Scraping news for: " ++ description cfg)) ;;
   lift (logger INFO "Searching direct RSS feeds...") ;;
   rss_articles ← lift (search_direct_rss_feeds w self);
   extend_all_articles rss_articles ;;
   lift (logger INFO ("Found " ++ PyStr.of_nat (length rss_articles) ++ " articles from RSS feeds")) ;;
   lift (logger INFO "Searching NewsAPI...") ;;
   for_each api_keywords (scrape_keyword w self) ;;
   '(all_articles, newsapi_count) ← get_locals;
   lift (logger INFO ("Found " ++ PyStr.of_nat newsapi_count ++ " articles from NewsAPI")) ;;
   let unique_articles := remove_duplicates all_articles in
   lift (logger INFO ("Total unique articles: " ++ PyStr.of_nat (length unique_articles))) ;;
   mret unique_articles).

(** ** The documented durations

    The reading of a timeframe token by its own text: a number followed
    by [h] for hours or [d] for days.  It is independent of the option
    table and is what the table is compared with. *)

Fixpoint digits_acc (s : string) (acc : Z) : option Z :=
match s with
| EmptyString => Some acc
| String c s' =>
    match Ascii.is_nat c with
    | Some d => digits_acc s' (10 * acc + Z.of_nat d)
    | None => None
    end
end.

Definition digits_value (s : string) : option Z :=
match s with
| EmptyString => None
| String _ _ => digits_acc s 0
end.

(** A string cut into all but its last character and its last one. *)
Fixpoint unsnoc (s : string) : option (string * ascii) :=
match s with
| EmptyString => None
| String c s' =>
    match unsnoc s' with
    | None => Some (EmptyString, c)
    | Some (init, last) => Some (String c init, last)
    end
end.

Definition documented_duration (token : string) : option Z :=
match unsnoc token with
| Some (number, unit) =>
    match digits_value number with
    | Some n =>
        if Ascii.eqb unit "h" then Some (n * us_per_hour)
        else if Ascii.eqb unit "d" then Some (n * us_per_day)
        else None
    | None => None
    end
| None => None
end.

Definition enumerated_tokens : list string :=
  [ "6h"; "12h"; "24h"; "2d"; "3d"; "7d"; "14d"; "30d"; "60d"; "90d" ].

(** ** A reference date reader

    A reader of the usual form of an RFC 2822 date,
    [Tue, 03 Nov 2026 10:00:00 +0530], to run the model on examples.
    The theorems are proved for every [parsedate_to_datetime]. *)

Module DateReader.

Definition month_names : list string :=
  [ "jan"; "feb"; "mar"; "apr"; "may"; "jun"; "jul"; "aug"; "sep"; "oct"; "nov"; "dec" ].

Fixpoint index_of (x : string) (l : list string) (i : Z) : option Z :=
match l with
| [] => None
| y :: l' => if String.eqb x y then Some i else index_of x l' (i + 1)
end.

Definition month_number (name : string) : option Z :=
index_of (PyStr.lower name) month_names 1.

(** [HH:MM:SS] as seconds of the day. *)
Definition seconds_of_time (t : string) : option Z :=
match PyStr.split ":" t with
| [h; m; s] =>
    h ← digits_value h; m ← digits_value m; s ← digits_value s;
    if (h <? 24) && (m <? 60) && (s <? 60) then Some (h * 3600 + m * 60 + s) else None
| _ => None
end.

(** The zone: [+HHMM], [-HHMM] or [GMT]; [-0000] gives a naive value. *)
Definition zone_offset (z : string) : option (option Z) :=
match z with
| "GMT" => Some (Some 0)
| "-0000" => Some None
| String sign digits =>
    match digits_value digits with
    | Some n =>
        let seconds := (n / 100) * 3600 + (n mod 100) * 60 in
        if negb (String.length digits =? 4)%nat then None
        else if Ascii.eqb sign "+" then Some (Some (seconds * us_per_second))
        else if Ascii.eqb sign "-" then Some (Some (- seconds * us_per_second))
        else None
    | None => None
    end
| EmptyString => None
end.

Definition days_in_month (y m : Z) : Z :=
days_of_civil (if m =? 12 then y + 1 else y) (if m =? 12 then 1 else m + 1) 1
- days_of_civil y m 1.

Definition read_fields (fields : list string) : option datetime :=
match fields with
| [d; mon; y; t; z] =>
    d ← digits_value d; mon ← month_number mon; y ← digits_value y;
    secs ← seconds_of_time t; off ← zone_offset z;
    if (1 <=? y) && (y <=? 9999) && (1 <=? d) && (d <=? days_in_month y mon)
    then Some (mkDatetime ((days_of_civil y mon d * 86400 + secs) * us_per_second) off)
    else None
| _ => None
end.

Definition ends_with_comma (s : string) : bool :=
match unsnoc s with
| Some (_, c) => Ascii.eqb c ","
| None => false
end.

Definition read_date (s : string) : exc datetime :=
let fields :=
  match String.words s with
  | day :: rest => if ends_with_comma day then rest else day :: rest
  | [] => []
  end in
match read_fields fields with
| Some d => Ret d
| None => Raise (mkExn "ValueError" ("Invalid date value or format " ++ s))
end.

End DateReader.

(** ** A small world to run the model in

    One feed answers, with two stories on topic and one off topic; the
    search API knows one of the two stories under the keyword [zepto];
    every story page holds an [article] of three paragraphs. *)

Module Demo.

Definition now_reading : Z := (days_of_civil 2026 11 3 * 86400 + 12 * 3600) * us_per_second.

Definition feed_url : string := "https://economictimes.indiatimes.com/rssfeedsdefault.cms".
Definition zepto_url : string := "https://example.com/zepto-raises-funds".
Definition blinkit_url : string := "https://example.com/blinkit-dark-stores".
Definition cricket_url : string := "https://example.com/cricket-final".

Definition feed_item (title link date summary : string) : node :=
Tag "item" []
  [ Tag "title" [] [Text title]; Tag "link" [] [Text link];
    Tag "pubDate" [] [Text date]; Tag "description" [] [Text summary] ].

Definition feed_tree : node :=
document
  [ Tag "rss" []
      [ Tag "channel" []
          [ feed_item "Zepto raises fresh funds" zepto_url
              "Mon, 02 Nov 2026 09:30:00 +0530" "Funding round";
            feed_item "Blinkit opens more dark stores" blinkit_url
              "Sun, 01 Nov 2026 18:00:00 +0530" "Expansion";
            feed_item "Cricket final tonight" cricket_url
              "Mon, 02 Nov 2026 20:00:00 +0530" "Sport" ] ] ].

Definition para1 : string :=
  "The company said on Monday that the new round values it well above the previous one.".
Definition para2 : string :=
  "Investors expect the number of orders per day to double within the next four quarters.".
Definition para3 : string :=
  "The money will go to new dark stores in the ten largest cities and to faster delivery.".

Definition page_tree : node :=
document
  [ Tag "html" []
      [ Tag "body" []
          [ Tag "nav" [] [Tag "p" [] [Text "Home"]];
            Tag "article" []
              [ Tag "p" [] [Text para1]; Tag "p" [] [Text para2]; Tag "p" [] [Text para3] ];
            Tag "footer" [] [Text "All rights reserved"] ] ] ].

Definition api_story : api_article :=
mkApiArticle (JStr "Zepto raises fresh funds") (JStr zepto_url) (SrcObj (JStr "LiveMint"))
  (JStr "2026-11-02T04:00:00Z") (JStr "Funding round")
  (JStr "Zepto has raised a new round of funding [+120 chars]").

Definition param (key : string) (req : Request) : option string :=
snd <$> List.find (fun kv => String.eqb (fst kv) key) (req_params req).

Definition answer (n : nat) (req : Request) : exc Response :=
if String.eqb (req_url req) feed_url then Ret (mkResponse 200 "OK" (req_url req) "feed")
else if String.prefix "https://example.com/" (req_url req)
then Ret (mkResponse 200 "OK" (req_url req) "page")
else if String.eqb (req_url req) "https://newsapi.org/v2/everything"
then Ret (mkResponse 200 "OK" (req_url req)
            (if decide (param "q" req = Some "zepto") then "one story" else "no story"))
else Raise (mkExn "ConnectionError" "Max retries exceeded").

Definition world : World :=
mkWorld now_reading
  (fun name => if String.eqb name "NEWS_API_KEY" then Some "secret" else None)
  answer
  (fun _ => Ret page_tree)
  (fun _ => Ret feed_tree)
  (fun body =>
     if String.eqb body "one story" then Ret (mkApiData (Some [api_story]))
     else Ret (mkApiData (Some [])))
  DateReader.read_date.

Definition start_state : St := mkSt [] O [].

(** The scraper [QuickCommerceNewsScraper(timeframe='7d')] of this world. *)
Definition week_scraper : scraper :=
mkScraper "7d" (mkDatetime (now_reading - timedelta_days 7) None) (mkDatetime now_reading None).

(** Two articles without a usable URL: one has no [url] key, the other
    an empty one. *)
Definition no_url_article : gmap string pyval := {[ "title" := PStr "first" ]}.
Definition empty_url_article : gmap string pyval :=
<[ "url" := PStr EmptyString ]> {[ "title" := PStr "second" ]}.

(** An API article whose content starts with the truncation marker. *)
Definition marker_first : api_article :=
mkApiArticle (JStr "Short") (JStr "https://example.com/short") SrcAbsent Absent Absent
  (JStr "[+120 chars]").

(** The text the extractor returns for a story page. *)
Definition page_text : string := PyStr.join (PyStr.nl ++ PyStr.nl) [para1; para2; para3].

(** The records the feed harvester builds for the two stories on topic. *)
Definition zepto_record : gmap string pyval :=
list_to_map
  [ ("title", PStr "Zepto raises fresh funds");
    ("url", PStr zepto_url);
    ("source", PStr "Economic Times");
    ("published_date", PStr "Mon, 02 Nov 2026 09:30:00 +0530");
    ("description", PStr "Funding round");
    ("content", PStr page_text) ].

Definition blinkit_record : gmap string pyval :=
list_to_map
  [ ("title", PStr "Blinkit opens more dark stores");
    ("url", PStr blinkit_url);
    ("source", PStr "Economic Times");
    ("published_date", PStr "Sun, 01 Nov 2026 18:00:00 +0530");
    ("description", PStr "Expansion");
    ("content", PStr page_text) ].

(** The records the API harvester builds for the two API articles. *)
Definition api_story_record : gmap string pyval :=
list_to_map
  [ ("title", PStr "Zepto raises fresh funds");
    ("url", PStr zepto_url);
    ("source", PStr "LiveMint");
    ("published_date", PStr "2026-11-02T04:00:00Z");
    ("description", PStr "Funding round");
    ("content", PStr "Zepto has raised a new round of funding ") ].

Definition marker_first_record : gmap string pyval :=
list_to_map
  [ ("title", PStr "Short");
    ("url", PStr "https://example.com/short");
    ("source", PStr "NewsAPI");
    ("published_date", PStr EmptyString);
    ("description", PStr EmptyString);
    ("content", PStr "NewsAPI content not available") ].

End Demo.

(** ** Deduplication, told by its result

    The key under which an article is deduplicated, and the pass itself
    as a function of the keys already seen: an article is kept exactly
    when its key is new.  [remove_duplicates] is compared with it. *)

Definition url_key (article : gmap string pyval) : pyval :=
dict_get article "url" (PStr EmptyString).

Fixpoint first_seen (seen : gset pyval) (articles : list (gmap string pyval))
  : list (gmap string pyval) :=
match articles with
| [] => []
| article :: rest =>
    if decide (url_key article ∈ seen) then first_seen seen rest
    else article :: first_seen ({[url_key article]} ∪ seen) rest
end.

(** An article whose [url] is absent or the empty string. *)
Definition no_usable_url (article : gmap string pyval) : Prop :=
article !! "url" = None \/ article !! "url" = Some (PStr EmptyString).

#[global] Instance no_usable_url_dec (article : gmap string pyval) : Decision (no_usable_url article).
Proof. unfold no_usable_url. apply _. Defined.

(** ** Specifications of computations

    [hoare P m Q E]: started in a state where [P] holds, [m] either
    returns a value [a] in a state where [Q a] holds or raises in a
    state where [E] holds. *)

Definition hoare {S A : Type} (P : S -> Prop) (m : M S A) (Q : A -> S -> Prop)
    (E : S -> Prop) : Prop :=
forall s, P s ->
  match m s with
  | (Ret a, s') => Q a s'
  | (Raise _, s') => E s'
  end.

(** An article whose [content] is a string, and not the empty one. *)
Definition has_content (article : gmap string pyval) : Prop :=
exists c, article !! "content" = Some (PStr c) /\ c <> EmptyString.

(** ** The API harvest, told by its result

    The articles the loop of [search_news_api] appends for a list of
    API articles, and the exception that ends the loop, if any. *)

Fixpoint api_collected (items : list api_article) : list (gmap string pyval) :=
match items with
| [] => []
| item :: rest =>
    match api_article_data item with
    | Ret (Some article_data) => article_data :: api_collected rest
    | Ret None => api_collected rest
    | Raise _ => []
    end
end.

Fixpoint api_failure (items : list api_article) : option Exn :=
match items with
| [] => None
| item :: rest =>
    match api_article_data item with
    | Ret _ => api_failure rest
    | Raise e => Some e
    end
end.

(** The state after the error record of the API harvester. *)
Definition api_error_logged (s : St) (e : Exn) : St :=
mkSt (log s ++ [(ERROR, "Error with NewsAPI: " ++ exn_str e)]) (requests s) (slept s).

(** ** The states of a run between two harvests *)

(** [s] with more log records, and [s] after the pause of two seconds
    that follows each API query. *)
Definition with_log (s : St) (records : list (level * string)) : St :=
mkSt (log s ++ records) (requests s) (slept s).

Definition with_pause (s : St) : St := mkSt (log s) (requests s) (slept s ++ [2]).

(** ** Tidy text

    What [clean_text] aims at: a text without white space at either
    end, in which white space occurs only as single blanks.
    [well_spaced after_blank t] reads [t] knowing whether the character
    before it was a blank. *)

Fixpoint well_spaced (after_blank : bool) (t : string) : bool :=
match t with
| EmptyString => negb after_blank
| String c t' =>
    if PyStr.isspace c
    then negb after_blank && Ascii.eqb c " " && well_spaced true t'
    else well_spaced false t'
end.

Definition is_clean (t : string) : bool :=
match t with
| EmptyString => true
| String c t' => negb (PyStr.isspace c) && well_spaced false t'
end.

(** ** What a harvest leaves, told by its records

    A record as the feed harvester builds it: six string fields, the
    name of a configured feed as its source, a tidy title that carries
    a keyword, a date that passes the check of the window, a tidy
    description and a content that is not empty. *)

Definition feed_record (w : World) (self : scraper) (article : gmap string pyval) : Prop :=
exists title url source date summary content,
  article
  = list_to_map
      [ ("title", PStr title); ("url", PStr url); ("source", PStr source);
        ("published_date", PStr date); ("description", PStr summary);
        ("content", PStr content) ]
  /\ In source (List.map fst rss_sources)
  /\ title_has_keyword title = true
  /\ is_clean title = true
  /\ is_article_in_timeframe w self date = Ret true
  /\ is_clean summary = true
  /\ content <> EmptyString.

(** The state of the feed harvest after some feeds, started in [s0]:
    one pause of two seconds was taken for each record found, the
    records are feed records, they are at most [count], and at least
    [sent] requests went out. *)
Definition rss_inv (w : World) (self : scraper) (s0 : St) (count sent : nat)
    (f : Frame (list (gmap string pyval))) : Prop :=
slept (glob f) = (slept s0 ++ replicate (length (loc f)) 2)%list
/\ Forall (feed_record w self) (loc f)
/\ (length (loc f) <= count)%nat
/\ (requests s0 + sent <= requests (glob f))%nat.

(** A record as the API harvester builds it: a URL and a content that
    are strings and not empty, the content free of the truncation
    marker, a tidy title and description; the source and the date are
    what the API gave, a string or [None]. *)

Definition api_record (article : gmap string pyval) : Prop :=
exists title url source date summary content,
  article
  = list_to_map
      [ ("title", PStr title); ("url", PStr url); ("source", source);
        ("published_date", date); ("description", PStr summary);
        ("content", PStr content) ]
  /\ url <> EmptyString
  /\ is_clean title = true
  /\ is_clean summary = true
  /\ content <> EmptyString
  /\ PyStr.contains truncation_marker content = false.

(** An API article the loop does not pass over: it has a URL and a
    content. *)
Definition usable (item : api_article) : bool :=
truthy (jget (a_url item)) && truthy (jget (a_content item)).

(** ** More worlds to run the model in *)

Module Cases.

(** The world of [Demo] without the API key. *)
Definition world_without_key : World :=
mkWorld Demo.now_reading (fun _ => None) Demo.answer
  (fun _ => Ret Demo.page_tree) (fun _ => Ret Demo.feed_tree)
  (fun _ => Ret (mkApiData (Some [Demo.api_story]))) DateReader.read_date.

(** An API article whose [source] is [null], and a response that holds
    it between two good articles. *)
Definition null_source_story : api_article :=
mkApiArticle (JStr "Blinkit expands") (JStr "https://example.com/blinkit-expands") SrcNull
  (JStr "2026-11-02T05:00:00Z") JNull (JStr "Blinkit is adding stores").

Definition late_story : api_article :=
mkApiArticle (JStr "Instamart grows") (JStr "https://example.com/instamart-grows")
  (SrcObj (JStr "Inc42")) (JStr "2026-11-02T06:00:00Z") Absent (JStr "Instamart grew").

Definition world_with_null_source : World :=
mkWorld Demo.now_reading (fun _ => Some "secret")
  (fun _ req => Ret (mkResponse 200 "OK" (req_url req) "three stories"))
  (fun _ => Ret Demo.page_tree) (fun _ => Ret Demo.feed_tree)
  (fun _ => Ret (mkApiData (Some [Demo.api_story; null_source_story; late_story])))
  DateReader.read_date.

End Cases.

(** ** The report, the command line and [main]

    The marks that open some of the lines printed and written are
    outside the alphabet of the other strings; they are kept as the
    bytes of their UTF-8 encoding, and nothing is done with them but
    concatenation. *)

Module Marks.
Definition bullet : string := "‚Ä¢".
Definition success : string := "‚úÖ".
Definition calendar : string := "üìÖ".
Definition page : string := "üìÑ".
Definition memo : string := "üìù".
Definition failed : string := "‚ùå".
Definition warning : string := "‚ö†Ô∏è".
End Marks.

(** [s.replace(old, new)] for a non-empty [old]: the pieces between the
    occurrences of [old], joined by [new]. *)
Definition str_replace (old new s : string) : string := PyStr.join new (PyStr.split old s).

(** [s * n] *)
Fixpoint str_times (s : string) (n : nat) : string :=
match n with
| O => EmptyString
| S n' => s ++ str_times s n'
end.

(** [f"{v}"] for a value of an article. *)
Definition py_format (v : pyval) : string :=
match v with
| PNone => "None"
| PStr s => s
end.

(** The hour, the minute and the second of a reading. *)
Definition clock_of (d : datetime) : Z * Z * Z :=
let seconds := (wall d mod us_per_day) / us_per_second in
(seconds / 3600, (seconds / 60) mod 60, seconds mod 60).

(** [d.strftime("%Y%m%d_%H%M%S")], [d.strftime('%Y-%m-%d %H:%M:%S')] and
    [d.strftime('%Y-%m-%d %H:%M')]. *)
Definition strftime_stamp (d : datetime) : string :=
let '(y, m, dd) := civil_of_days (wall d / us_per_day) in
let '(hh, mm, ss) := clock_of d in
PyStr.zero_padded 4 y ++ PyStr.zero_padded 2 m ++ PyStr.zero_padded 2 dd ++ "_"
++ PyStr.zero_padded 2 hh ++ PyStr.zero_padded 2 mm ++ PyStr.zero_padded 2 ss.

Definition strftime_seconds (d : datetime) : string :=
let '(hh, mm, ss) := clock_of d in
strftime_ymd d ++ " " ++ PyStr.zero_padded 2 hh ++ ":" ++ PyStr.zero_padded 2 mm ++ ":"
++ PyStr.zero_padded 2 ss.

Definition strftime_minutes (d : datetime) : string :=
let '(hh, mm, ss) := clock_of d in
strftime_ymd d ++ " " ++ PyStr.zero_padded 2 hh ++ ":" ++ PyStr.zero_padded 2 mm.

(** What [argparse] makes of the command line: the value given to
    [--timeframe], which it has checked against the choices; no such
    flag; or [SystemExit], for a value outside the choices, an unknown
    argument or a request for help. *)
Inductive cli_outcome : Type :=
  | CliFlag (value : string)
  | CliNoFlag
  | CliExit.

(** The machine the process runs on, beside the [World]: the command
    line, the two later readings of the clock ([datetime.now()] for the
    name of the file and for its header) and the file system.  Each of
    [open(name, 'w')], [f.write(text)] and the [f.close()] that ends the
    [with] block can fail, with an [OSError] or, for a write, a
    [UnicodeEncodeError]: the host says which, from the name of the file
    and, for a write and for the close, what the file holds so far. *)
Record Host : Type := mkHost {
  cli : cli_outcome;
  clock_at_save : Z;
  clock_at_write : Z;
  open_for_writing : string -> exc unit;
  write_text : string -> string -> string -> exc unit;
  close_file : string -> string -> exc unit
}.

(** What the process leaves outside itself: the files it wrote and the
    lines it printed with [print]; what [argparse] itself prints before
    it gives up is not recorded. *)
Record Out : Type := mkOut { files : gmap string string; stdout : list string }.

(** [print(line)] *)
Definition print (line : string) : M (Frame Out) unit :=
fun f => (Ret tt, mkFrame (glob f) (mkOut (files (loc f)) (stdout (loc f) ++ [line]))).

(** [open(name, 'w', encoding='utf-8')]: the file is emptied. *)
Definition file_open (h : Host) (name : string) : M (Frame Out) unit :=
fun f =>
  match open_for_writing h name with
  | Ret _ =>
      (Ret tt, mkFrame (glob f) (mkOut (<[name := EmptyString]> (files (loc f))) (stdout (loc f))))
  | Raise e => (Raise e, f)
  end.

(** [f.write(text)] on the file opened under [name]: the text is added
    at the end, or the write fails and adds nothing. *)
Definition file_write (h : Host) (name text : string) : M (Frame Out) unit :=
fun f =>
  let written := default EmptyString (files (loc f) !! name) in
  match write_text h name written text with
  | Ret _ =>
      (Ret tt,
       mkFrame (glob f) (mkOut (<[name := written ++ text]> (files (loc f))) (stdout (loc f))))
  | Raise e => (Raise e, f)
  end.

(** [f.close()] *)
Definition file_close (h : Host) (name : string) : M (Frame Out) unit :=
fun f => (close_file h name (default EmptyString (files (loc f) !! name)), f).

(** The block of a [with] statement on an open file.  The file is
    closed when the block is left, by its end or by an exception; an
    exception of the close takes the place of the one that left the
    block. *)
Definition closing (h : Host) (name : string) (body : M (Frame Out) unit)
  : M (Frame Out) unit :=
fun f =>
  match body f with
  | (Ret _, f') => file_close h name f'
  | (Raise e, f') =>
      match file_close h name f' with
      | (Ret _, f'') => (Raise e, f'')
      | (Raise e', f'') => (Raise e', f'')
      end
  end.

(** [with open(name, 'w', encoding='utf-8') as f: body] *)
Definition with_file (h : Host) (name : string) (body : M (Frame Out) unit)
  : M (Frame Out) unit :=
file_open h name ;;
closing h name body.

(** [articles_by_source[key].append(article)] on a [defaultdict(list)],
    whose keys keep the order in which they came. *)
Fixpoint group_append (key : pyval) (article : gmap string pyval)
    (groups : list (pyval * list (gmap string pyval)))
  : list (pyval * list (gmap string pyval)) :=
match groups with
| [] => [(key, [article])]
| (k, members) :: rest =>
    if decide (k = key) then (k, (members ++ [article])%list) :: rest
    else (k, members) :: group_append key article rest
end.

Definition articles_by_source (articles : list (gmap string pyval))
  : list (pyval * list (gmap string pyval)) :=
fold_left (fun groups article =>
             group_append (dict_get article "source" (PStr "Unknown")) article groups)
  articles [].

(** [enumerate(articles, 1)] *)
Definition enumerate_from_1 (articles : list (gmap string pyval))
  : list (nat * gmap string pyval) :=
combine (seq 1 (length articles)) articles.

(** The writes for one article. *)
Definition write_article (h : Host) (name : string) (numbered : nat * gmap string pyval)
  : M (Frame Out) unit :=
let '(i, article) := numbered in
file_write h name (PyStr.nl ++ str_times "=" 80 ++ PyStr.nl) ;;
file_write h name ("ARTICLE " ++ PyStr.of_nat i ++ PyStr.nl) ;;
file_write h name (str_times "=" 80 ++ PyStr.nl ++ PyStr.nl) ;;
file_write h name ("TITLE: " ++ py_format (dict_get article "title" (PStr "No title"))
                 ++ PyStr.nl ++ PyStr.nl) ;;
file_write h name ("SOURCE: " ++ py_format (dict_get article "source" (PStr "Unknown"))
                 ++ PyStr.nl ++ PyStr.nl) ;;
file_write h name ("URL: " ++ py_format (dict_get article "url" (PStr EmptyString))
                 ++ PyStr.nl ++ PyStr.nl) ;;
file_write h name ("PUBLISHED: " ++ py_format (dict_get article "published_date" (PStr "Unknown"))
                 ++ PyStr.nl ++ PyStr.nl) ;;
(if truthy (dict_get article "description" PNone)
 then file_write h name ("DESCRIPTION:" ++ PyStr.nl
                       ++ py_format (dict_get article "description" PNone)
                       ++ PyStr.nl ++ PyStr.nl)
 else mret tt) ;;
file_write h name ("FULL CONTENT:" ++ PyStr.nl) ;;
file_write h name (str_times "-" 40 ++ PyStr.nl) ;;
file_write h name (py_format (dict_get article "content" (PStr "No content available"))
                 ++ PyStr.nl) ;;
file_write h name (str_times "-" 40 ++ PyStr.nl ++ PyStr.nl).

(** The name of the report when none is given. *)
Definition default_filename (h : Host) (self : scraper) : string :=
let timestamp := strftime_stamp (mkDatetime (clock_at_save h) None) in
let timeframe_label := str_replace "d" "days" (str_replace "h" "hours" (timeframe self)) in
"quick_commerce_news_" ++ timeframe_label ++ "_" ++ timestamp ++ ".txt".

(** The writes of the report: the body of the [with] block. *)
Definition report_writes (h : Host) (self : scraper) (articles : list (gmap string pyval))
    (filename : string) : M (Frame Out) unit :=
file_write h filename ("QUICK COMMERCE INDUSTRY NEWS REPORT" ++ PyStr.nl) ;;
file_write h filename (str_times "=" 50 ++ PyStr.nl) ;;
file_write h filename ("Generated on: "
                       ++ strftime_seconds (mkDatetime (clock_at_write h) None) ++ PyStr.nl) ;;
cfg ← lift_exc (options_item (timeframe self));
file_write h filename ("Timeframe: " ++ description cfg ++ PyStr.nl) ;;
file_write h filename ("Date range: " ++ strftime_minutes (start_date self) ++ " to "
                       ++ strftime_minutes (end_date self) ++ PyStr.nl) ;;
file_write h filename ("Total articles: " ++ PyStr.of_nat (length articles)
                       ++ PyStr.nl ++ PyStr.nl) ;;
file_write h filename ("ARTICLES BY SOURCE:" ++ PyStr.nl) ;;
for_each (articles_by_source articles)
  (fun group =>
     file_write h filename (Marks.bullet ++ " " ++ py_format (fst group) ++ ": "
                            ++ PyStr.of_nat (length (snd group)) ++ " articles" ++ PyStr.nl)) ;;
file_write h filename PyStr.nl ;;
for_each (enumerate_from_1 articles) (write_article h filename).

(** The body of the [try] block of [save_to_text_file]. *)
Definition save_body (h : Host) (self : scraper) (articles : list (gmap string pyval))
    (filename : string) : M (Frame Out) (option string) :=
with_file h filename (report_writes h self articles filename) ;;
lift (logger INFO ("Articles saved to " ++ filename)) ;;
mret (Some filename).

(** [save_to_text_file(articles, filename)]: the name of the file, or
    [None]. *)
Definition save_to_text_file (h : Host) (self : scraper)
    (articles : list (gmap string pyval)) (filename : option string)
  : M (Frame Out) (option string) :=
let filename :=
  match filename with
  | Some (String c rest) => String c rest
  | _ => default_filename h self
  end in
try_except (save_body h self articles filename)
  (fun e =>
     lift (logger ERROR ("Error saving file: " ++ exn_str e)) ;;
     mret None).

(** [os.getenv('SCRAPE_TIMEFRAME', '7d')] *)
Definition env_timeframe (w : World) : string :=
default "7d" (getenv w "SCRAPE_TIMEFRAME").

(** [parse_timeframe_argument]: the flag, else the variable of the
    environment, else ["7d"]; a [SystemExit] of the parser is caught and
    answered in the same way. *)
Definition parse_timeframe_argument (w : World) (h : Host) : string :=
match cli h with
| CliFlag value => value
| CliNoFlag => env_timeframe w
| CliExit => env_timeframe w
end.

(** [len([a for a in articles if len(a.get('content', '')) > 100])] *)
Fixpoint count_substantial (articles : list (gmap string pyval)) : exc nat :=
match articles with
| [] => Ret O
| a :: rest =>
    match dict_get a "content" (PStr EmptyString) with
    | PStr text =>
        n ← count_substantial rest;
        Ret (if (100 <? String.length text)%nat then Datatypes.S n else n)
    | PNone => Raise (mkExn "TypeError" "object of type 'NoneType' has no len()")
    end
end.

(** The body of the [try] block of [main]. *)
Definition main_body (w : World) (h : Host) : M (Frame Out) unit :=
let timeframe := parse_timeframe_argument w h in
scraper ← lift (init w timeframe);
lift (logger INFO "Starting quick commerce news scraping...") ;;
cfg ← lift_exc (options_item timeframe);
lift (logger INFO ("Timeframe: " ++ description cfg)) ;;
articles ← lift (scrape_all_news w scraper);
match articles with
| _ :: _ =>
    text_filename ← save_to_text_file h scraper articles None;
    match text_filename with
    | Some name =>
        print (PyStr.nl ++ Marks.success ++ " Successfully scraped "
               ++ PyStr.of_nat (length articles) ++ " articles!") ;;
        cfg ← lift_exc (options_item timeframe);
        print (Marks.calendar ++ " Timeframe: " ++ description cfg) ;;
        print (Marks.page ++ " Text file: " ++ name) ;;
        substantial ← lift_exc (count_substantial articles);
        print (Marks.memo ++ " Articles with substantial content: " ++ PyStr.of_nat substantial)
    | None => print (Marks.failed ++ " Error saving file")
    end
| [] =>
    lift (logger WARNING "No articles found") ;;
    print (Marks.warning ++ " No articles found for the specified timeframe")
end.

(** [main]: [exit(1)] is the exception [SystemExit] with the text [1]. *)
Definition main (w : World) (h : Host) : M (Frame Out) unit :=
try_except (main_body w h)
  (fun e =>
     lift (logger ERROR ("Error: " ++ exn_str e)) ;;
     print (Marks.failed ++ " Error: " ++ exn_str e) ;;
     raise (mkExn "SystemExit" "1")).

(** The state of a save at any time: the process state and the lines
    printed are as they were, and the other files are untouched. *)
Definition save_safe (before : Frame Out) (name : string) (f : Frame Out) : Prop :=
glob f = glob before
/\ stdout (loc f) = stdout (loc before)
/\ forall other, other <> name -> files (loc f) !! other = files (loc before) !! other.

(** The state of a save under way, the file open: moreover the file
    exists. *)
Definition save_inv (before : Frame Out) (name : string) (f : Frame Out) : Prop :=
glob f = glob before
/\ stdout (loc f) = stdout (loc before)
/\ is_Some (files (loc f) !! name)
/\ forall other, other <> name -> files (loc f) !! other = files (loc before) !! other.

(** The name under which [save_to_text_file] writes. *)
Definition resolved_filename (h : Host) (self : scraper) (filename : option string) : string :=
match filename with
| Some (String c rest) => String c rest
| _ => default_filename h self
end.

(** The host never fails a write to the file [name], nor its close. *)
Definition writes_succeed (h : Host) (name : string) : Prop :=
(forall written text, write_text h name written text = Ret tt)
/\ (forall written, close_file h name written = Ret tt).

(** A host on which no file can be opened, one on which everything can
    be written, and one whose disk is full: a file can be created but
    nothing can be written to it. *)
Definition read_only_host : Host :=
mkHost CliNoFlag Demo.now_reading Demo.now_reading
  (fun name => Raise (mkExn "PermissionError" ("[Errno 13] Permission denied: '" ++ name ++ "'")))
  (fun _ _ _ => Ret tt) (fun _ _ => Ret tt).


Definition full_disk_host : Host :=
mkHost (CliFlag "7d") Demo.now_reading Demo.now_reading
  (fun _ => Ret tt)
  (fun _ _ _ => Raise (mkExn "OSError" "[Errno 28] No space left on device"))
  (fun _ _ => Ret tt).

Definition empty_out : Frame Out := mkFrame Demo.start_state (mkOut ∅ []).

(** A world whose environment holds [token] in [SCRAPE_TIMEFRAME], and
    a world cut off from the network. *)
Definition world_with_timeframe (token : string) : World :=
mkWorld Demo.now_reading
  (fun name => if String.eqb name "SCRAPE_TIMEFRAME" then Some token else None)
  Demo.answer (fun _ => Ret Demo.page_tree) (fun _ => Ret Demo.feed_tree)
  (fun _ => Ret (mkApiData (Some []))) DateReader.read_date.


(** ** The normalisation as the specification words it

    "Timezone-aware timestamps are normalized to naive-local": the
    instant of the date read on the local clock, which is
    [d.astimezone().replace(tzinfo=None)] where the local clock is
    [local_offset] ahead of UTC.  A naive date is local already. *)
Definition spec_naive_local (local_offset : Z) (d : datetime) : Z :=
match tzinfo d with
| Some offset => wall d - offset + local_offset
| None => wall d
end.

(** ** The outline of a tree

    What a tree holds below its root, in document order: for every node,
    the names of the tags it lies inside of, the outermost first, and
    the node itself without its children. *)
Inductive label : Type :=
  | LText (s : string)
  | LTag (name : string) (attrs : list (string * string)).

Definition label_of (n : node) : label :=
match n with
| Text s => LText s
| Tag t a _ => LTag t a
end.

(** The tags a child of [c] lies inside of, [c] lying inside of [inside]. *)
Definition below (inside : list string) (c : node) : list string :=
match c with
| Text _ => inside
| Tag t _ _ => (inside ++ [t])%list
end.

Fixpoint outline (inside : list string) (n : node) : list (list string * label) :=
match n with
| Text _ => []
| Tag _ _ cs =>
    (fix go (l : list node) : list (list string * label) :=
       match l with
       | [] => []
       | c :: l' => ((inside, label_of c) :: outline (below inside c) c ++ go l')%list
       end) cs
end.

Definition listed (names : list string) (t : string) : bool := existsb (String.eqb t) names.

(** An entry of an outline that is neither a tag with one of the names
    nor inside of one. *)
Definition outside (names : list string) (entry : list string * label) : bool :=
negb (existsb (listed names) (fst entry))
&& match snd entry with
   | LText _ => true
   | LTag t _ => negb (listed names t)
   end.

(** ** The feed harvest, feed by feed *)

(** A loop told turn by turn: the state after each element is related
    to the state before it. *)
Inductive turns {A S : Type} (R : A -> S -> S -> Prop) : list A -> S -> S -> Prop :=
  | turns_nil (s : S) : turns R [] s s
  | turns_cons (x : A) (xs : list A) (s s' s'' : S) :
      R x s s' -> turns R xs s' s'' -> turns R (x :: xs) s s''.

(** A record whose page the extractor asked for: its URL is no
    redirect URL. *)
Definition page_fetched (article : gmap string pyval) : bool :=
match article !! "url" with
| Some (PStr url) => negb (is_redirect_url url)
| _ => false
end.

(** What the items of one feed do to the harvest: at most [n] records
    of that feed are appended, the log grows at its end, and one
    request is sent for each appended record whose page is fetched. *)
Definition grown (source_name : string) (n : nat)
    (f f' : Frame (list (gmap string pyval))) : Prop :=
exists part extra,
  loc f' = (loc f ++ part)%list
  /\ (length part <= n)%nat
  /\ (forall a, In a part -> a !! "source" = Some (PStr source_name))
  /\ log (glob f') = (log (glob f) ++ extra)%list
  /\ requests (glob f') = (requests (glob f) + length (List.filter page_fetched part))%nat.

(** The two records a feed can leave in the log. *)
Definition fetching (source_name : string) : level * string :=
(INFO, "Fetching RSS from " ++ source_name ++ "...").

Definition feed_error (source_name : string) (e : Exn) : level * string :=
(ERROR, "Error with RSS from " ++ source_name ++ ": " ++ exn_str e).

(** The turn of one feed.  Its name is logged first; its request is the
    next one of the run and is sent once; it appends at most thirty
    records, all under its name; and when the request fails, the feed
    gives nothing and the error is logged under its name. *)
Definition feed_turn (w : World) (self : scraper) (source : string * string)
    (f f' : Frame (list (gmap string pyval))) : Prop :=
exists part rest,
  loc f' = (loc f ++ part)%list
  /\ (length part <= 30)%nat
  /\ (forall a, In a part -> a !! "source" = Some (PStr (fst source)))
  /\ log (glob f') = (log (glob f) ++ fetching (fst source) :: rest)%list
  /\ requests (glob f')
     = Datatypes.S (requests (glob f) + length (List.filter page_fetched part))
  /\ (forall e,
        http_get w (requests (glob f)) (mkRequest (snd source) [] [] 15 true) = Raise e ->
        part = []
        /\ rest = [feed_error (fst source) e]).

(** * Theorems *)

(** ** Running a computation *)

Lemma run_bind {S A B : Type} (m : M S A) (k : A -> M S B) (s : S) :
  (m ≫= k) s =
  match m s with
  | (Ret a, s') => k a s'
  | (Raise e, s') => (Raise e, s')
  end.
Proof. reflexivity. Qed.

Lemma run_bind_ret {S A B : Type} (m : M S A) (k : A -> M S B) (s s' : S) (a : A) :
  m s = (Ret a, s') -> (m ≫= k) s = k a s'.
Proof. intros H. rewrite run_bind, H. reflexivity. Qed.

Lemma run_bind_raise {S A B : Type} (m : M S A) (k : A -> M S B) (s s' : S) (e : Exn) :
  m s = (Raise e, s') -> (m ≫= k) s = (Raise e, s').
Proof. intros H. rewrite run_bind, H. reflexivity. Qed.

Lemma run_lift {L A : Type} (m : M St A) (f : Frame L) :
  lift m f = ((m (glob f)).1, mkFrame (m (glob f)).2 (loc f)).
Proof. unfold lift. destruct (m (glob f)); reflexivity. Qed.

(** ** The time window *)

Lemma options_lookup_dom (token : string) :
  token ∈ dom timeframe_options <-> is_Some (timeframe_options !! token).
Proof. apply elem_of_dom. Qed.

(** The window of a token of the table. *)
Lemma calculate_known (w : World) (token : string) (cfg : timeframe_config) (s : St) :
  timeframe_options !! token = Some cfg ->
  _calculate_timeframe w token s =
  (match
     match hours cfg with
     | Some h => datetime_sub (mkDatetime (clock_now w) None) (timedelta_hours h)
     | None =>
         match days cfg with
         | Some d => datetime_sub (mkDatetime (clock_now w) None) (timedelta_days d)
         | None =>
             Raise (mkExn "UnboundLocalError"
                      "cannot access local variable 'start_date' where it is not associated with a value")
         end
     end
   with
   | Ret start => Ret (token, (start, mkDatetime (clock_now w) None))
   | Raise e => Raise e
   end, s).
Proof.
  intros Hcfg. unfold _calculate_timeframe.
  destruct (decide (token ∈ dom timeframe_options)) as [_ | Hout].
  - rewrite run_bind. cbn. unfold options_item. rewrite Hcfg.
    unfold lift_exc. rewrite run_bind. cbn.
    rewrite run_bind.
    destruct (hours cfg) as [h |]; [| destruct (days cfg) as [d |]];
      match goal with |- context [datetime_sub ?a ?b] => destruct (datetime_sub a b) | _ => idtac end;
      reflexivity.
  - exfalso. apply Hout, options_lookup_dom. rewrite Hcfg. eauto.
Qed.

(** The window of a token outside the table: that of ["7d"], and one
    warning more in the log. *)
Lemma calculate_unknown (w : World) (token : string) (s : St) :
  token ∉ dom timeframe_options ->
  _calculate_timeframe w token s =
  ((_calculate_timeframe w "7d" s).1,
   mkSt (log s ++ [(WARNING, "Invalid timeframe '" ++ token ++ "', defaulting to '7d'")])
     (requests s) (slept s)).
Proof.
  intros Hout.
  rewrite (calculate_known w "7d" (mkConfig None (Some 7) "Last week") s) by reflexivity.
  unfold _calculate_timeframe.
  destruct (decide (token ∈ dom timeframe_options)) as [Hin | _]; [contradiction |].
  cbv [mbind M_bind mret M_ret logger lift_exc options_item].
  change (timeframe_options !! "7d") with (Some (mkConfig None (Some 7) "Last week")).
  cbn [hours days fst].
  destruct (datetime_sub (mkDatetime (clock_now w) None) (timedelta_days 7)); reflexivity.
Qed.

Lemma datetime_sub_in_range (d : datetime) (td : Z) :
  0 <= wall d - td <= MAX_WALL ->
  datetime_sub d td = Ret (mkDatetime (wall d - td) (tzinfo d)).
Proof.
  intros [Hlo Hhi]. unfold datetime_sub.
  apply Z.leb_le in Hlo, Hhi. rewrite Hlo, Hhi. reflexivity.
Qed.

Lemma datetime_sub_value (d d' : datetime) (td : Z) :
  datetime_sub d td = Ret d' -> wall d' = wall d - td /\ tzinfo d' = tzinfo d.
Proof.
  unfold datetime_sub. destruct (_ && _); intros H; inversion H; subst. split; reflexivity.
Qed.

(** Every entry of the table has a positive number of hours or of days. *)
Lemma options_positive (token : string) (cfg : timeframe_config) :
  timeframe_options !! token = Some cfg ->
  (exists h, hours cfg = Some h /\ 0 < h) \/
  (hours cfg = None /\ exists d, days cfg = Some d /\ 0 < d).
Proof.
  intros H. apply elem_of_list_to_map_2 in H.
  repeat (apply elem_of_cons in H as [H | H];
          [inversion H; subst; cbn; first [left; eexists; split; [reflexivity | lia]
                                          | right; split; [reflexivity | eexists; split; [reflexivity | lia]]] |]).
  inversion H.
Qed.

(** What the constructor leaves in a scraper: a token of the table and
    a naive window that ends at the reading of the clock and starts
    before it. *)
Lemma init_window (w : World) (token : string) (s s' : St) (self : scraper) :
  init w token s = (Ret self, s') ->
  is_Some (timeframe_options !! timeframe self)
  /\ tzinfo (start_date self) = None
  /\ end_date self = mkDatetime (clock_now w) None
  /\ wall (start_date self) < wall (end_date self).
Proof.
  assert (Hknown : forall tok cfg st,
    timeframe_options !! tok = Some cfg ->
    forall r, (_calculate_timeframe w tok st).1 = Ret r ->
      r.1 = tok /\ tzinfo r.2.1 = None /\ r.2.2 = mkDatetime (clock_now w) None
      /\ wall r.2.1 < clock_now w).
  { intros tok cfg st Hcfg r. rewrite (calculate_known _ _ _ _ Hcfg). cbn.
    destruct (options_positive _ _ Hcfg) as [(h & -> & Hh) | (-> & d & -> & Hd)].
    - destruct (datetime_sub _ _) eqn:E; intros Hr; inversion Hr; subst; cbn.
      apply datetime_sub_value in E as [E1 E2]. cbn in *.
      unfold timedelta_hours, us_per_hour, us_per_second in *. repeat split; [assumption | lia].
    - destruct (datetime_sub _ _) eqn:E; intros Hr; inversion Hr; subst; cbn.
      apply datetime_sub_value in E as [E1 E2]. cbn in *.
      unfold timedelta_days, us_per_day, us_per_hour, us_per_second in *.
      repeat split; [assumption | lia]. }
  unfold init. rewrite run_bind.
  destruct (_calculate_timeframe w token s) as [[r |] st] eqn:E; [| discriminate].
  destruct r as [tf [st_d en_d]]. cbn. intros H. inversion H; subst; clear H. cbn.
  destruct (timeframe_options !! token) as [cfg |] eqn:Hcfg.
  - destruct (Hknown token cfg s Hcfg (tf, (st_d, en_d))) as (H1 & H2 & H3 & H4).
    { rewrite E. reflexivity. }
    cbn in *. subst. rewrite Hcfg. cbn. repeat split; eauto.
  - assert (Hout : token ∉ dom timeframe_options).
    { rewrite options_lookup_dom, Hcfg. intros [? ?]; discriminate. }
    rewrite (calculate_unknown _ _ _ Hout) in E. inversion E; subst; clear E.
    destruct (Hknown "7d" (mkConfig None (Some 7) "Last week") s eq_refl (tf, (st_d, en_d)))
      as (H1 & H2 & H3 & H4); [assumption |].
    cbn in *. subst. repeat split; eauto.
Qed.

(** Rewrites the window of a literal token with its entry of the table. *)
Ltac known_token :=
  match goal with
  | |- context [_calculate_timeframe ?w ?tok ?s] =>
      let c := eval vm_compute in (timeframe_options !! tok) in
      match c with
      | Some ?cfg => rewrite (calculate_known w tok cfg s) by (vm_compute; reflexivity)
      end
  end.

(** C5.  For every token of the enumerated set the window that
    [_calculate_timeframe] returns has the duration the token documents
    (["24h"]: exactly 24 hours, ["7d"]: exactly 7 days) and starts before
    it ends.  The clock is taken to read a time from which the duration
    can be subtracted, that is at least that long after [datetime.min]. *)
Theorem calculate_timeframe_duration (w : World) (token : string) (s : St) :
  token ∈ enumerated_tokens ->
  exists D,
    documented_duration token = Some D
    /\ (D <= clock_now w <= MAX_WALL ->
        exists start_date end_date,
          _calculate_timeframe w token s = (Ret (token, (start_date, end_date)), s)
          /\ tzinfo start_date = None /\ tzinfo end_date = None
          /\ wall start_date < wall end_date
          /\ datetime_diff end_date start_date = D).
Proof.
  intros H. unfold enumerated_tokens in H.
  repeat (apply elem_of_cons in H as [-> | H]); try (inversion H; fail);
    (eexists; split; [reflexivity |]);
    intros Hclock;
    known_token; cbn [hours days];
    (rewrite datetime_sub_in_range;
       [| cbn [wall]; unfold timedelta_hours, timedelta_days, us_per_day, us_per_hour,
            us_per_second in *; lia]);
    do 2 eexists; (split; [reflexivity |]);
    cbn [wall tzinfo]; unfold datetime_diff; cbn [wall];
    unfold timedelta_hours, timedelta_days, us_per_day, us_per_hour, us_per_second in *;
    repeat split; lia.
Qed.

Lemma calculate_timeframe_duration_witness :
  exists start_date end_date,
    _calculate_timeframe Demo.world "24h" Demo.start_state
    = (Ret ("24h", (start_date, end_date)), Demo.start_state)
    /\ wall start_date < wall end_date
    /\ datetime_diff end_date start_date = 24 * us_per_hour.
Proof.
  destruct (calculate_timeframe_duration Demo.world "24h" Demo.start_state)
    as (D & HD & Hwin).
  { unfold enumerated_tokens. do 2 (apply elem_of_cons; right).
    apply elem_of_cons; left; reflexivity. }
  vm_compute in HD. inversion HD; subst D; clear HD.
  destruct Hwin as (st & en & Hrun & _ & _ & Hlt & Hdiff).
  { vm_compute. split; discriminate. }
  exists st, en. repeat split; assumption.
Defined.

(** The assumption on the clock cannot be dropped: a reading less than
    a day after [datetime.min] makes the subtraction for ["24h"] raise. *)
Lemma calculate_timeframe_overflow (w : World) (s : St) :
  0 <= clock_now w < 24 * us_per_hour ->
  _calculate_timeframe w "24h" s
  = (Raise (mkExn "OverflowError" "date value out of range"), s).
Proof.
  intros Hclock. known_token. cbn [hours days]. unfold datetime_sub. cbn [wall].
  replace (0 <=? clock_now w - timedelta_hours 24) with false; [reflexivity |].
  symmetry. apply Z.leb_gt. unfold timedelta_hours. lia.
Qed.

(** The resolution of an unknown token.  For every token outside the
    option table the resolution
    returns what it returns for ["7d"] under the same clock, leaves
    ["7d"] in [self.timeframe], adds exactly one warning to the log
    (resolving ["7d"] itself logs nothing) and, the clock reading a time
    at least seven days after [datetime.min], raises no exception. *)
Theorem unknown_token_defaults (w : World) (token : string) (s : St) :
  token ∉ dom timeframe_options ->
  (_calculate_timeframe w token s).1 = (_calculate_timeframe w "7d" s).1
  /\ (_calculate_timeframe w "7d" s).2 = s
  /\ (_calculate_timeframe w token s).2
     = mkSt (log s ++ [(WARNING, "Invalid timeframe '" ++ token ++ "', defaulting to '7d'")])
         (requests s) (slept s)
  /\ (timedelta_days 7 <= clock_now w <= MAX_WALL ->
      exists start_date end_date,
        (_calculate_timeframe w token s).1 = Ret ("7d", (start_date, end_date))
        /\ wall start_date < wall end_date
        /\ datetime_diff end_date start_date = timedelta_days 7).
Proof.
  intros Hout. rewrite (calculate_unknown _ _ _ Hout). cbn [fst snd].
  split; [reflexivity |]. split.
  { known_token. reflexivity. }
  split; [reflexivity |].
  intros Hclock. known_token. cbn [hours days fst].
  rewrite datetime_sub_in_range by (cbn [wall]; unfold timedelta_days, us_per_day, us_per_hour,
    us_per_second in *; lia).
  do 2 eexists. split; [reflexivity |]. unfold datetime_diff. cbn [wall].
  unfold timedelta_days, us_per_day, us_per_hour, us_per_second in *. lia.
Qed.

Lemma unknown_token_defaults_witness :
  (_calculate_timeframe Demo.world "fortnight" Demo.start_state).1
  = (_calculate_timeframe Demo.world "7d" Demo.start_state).1
  /\ log (_calculate_timeframe Demo.world "fortnight" Demo.start_state).2
     = [(WARNING, "Invalid timeframe 'fortnight', defaulting to '7d'")]
  /\ exists start_date end_date,
       (_calculate_timeframe Demo.world "fortnight" Demo.start_state).1
       = Ret ("7d", (start_date, end_date)).
Proof.
  destruct (unknown_token_defaults Demo.world "fortnight" Demo.start_state)
    as (Hsame & _ & Hlog & Hok).
  { rewrite options_lookup_dom. vm_compute. intros [cfg Hcfg]. discriminate Hcfg. }
  split; [exact Hsame |]. split; [rewrite Hlog; reflexivity |].
  destruct Hok as (st & en & Hrun & _).
  { vm_compute. split; discriminate. }
  exists st, en. exact Hrun.
Defined.

(** C6.  An unknown token fails the run.  With [SCRAPE_TIMEFRAME=2w] in
    the environment and no flag on the command line, the constructor
    logs its warning and takes ["7d"], as the claim says; [main] then
    looks ["2w"] itself up in the option table, and the [KeyError] ends
    the run with [exit(1)] before anything is harvested. *)
Theorem unknown_token_fails_main :
  main (world_with_timeframe "2w") read_only_host empty_out
  = (Raise (mkExn "SystemExit" "1"),
     mkFrame
       (mkSt [(WARNING, "Invalid timeframe '2w', defaulting to '7d'");
              (INFO, "Starting quick commerce news scraping...");
              (ERROR, "Error: '2w'")] 0 [])
       (mkOut ∅ [Marks.failed ++ " Error: '2w'"])).
Proof. reflexivity. Qed.

(** ** The date check *)

(** The check on a date that was read: the reading of its fields is
    compared with the start of the window, whatever its offset. *)
Lemma in_timeframe_parsed (w : World) (self : scraper) (pub_date_str : string) (d : datetime) :
  pub_date_str <> EmptyString ->
  tzinfo (start_date self) = None ->
  parsedate_to_datetime w pub_date_str = Ret d ->
  is_article_in_timeframe w self pub_date_str = Ret (wall (start_date self) <=? wall d).
Proof.
  intros Hne Hnaive Hparse. unfold is_article_in_timeframe.
  destruct pub_date_str as [| c rest]; [contradiction |]. cbn [PyStr.nonempty negb].
  rewrite Hparse. destruct d as [reading [offset |]];
    cbn; unfold datetime_ge; cbn; rewrite Hnaive; reflexivity.
Qed.

Lemma in_timeframe_unparsed (w : World) (self : scraper) (pub_date_str : string) (e : Exn) :
  parsedate_to_datetime w pub_date_str = Raise e ->
  is_article_in_timeframe w self pub_date_str = Ret true.
Proof.
  intros Hparse. unfold is_article_in_timeframe.
  destruct (negb _); [reflexivity |]. rewrite Hparse. reflexivity.
Qed.

(** The check never raises. *)
Lemma in_timeframe_total (w : World) (self : scraper) (pub_date_str : string) :
  exists b, is_article_in_timeframe w self pub_date_str = Ret b.
Proof.
  unfold is_article_in_timeframe.
  destruct (negb _); [eauto |].
  destruct (parsedate_to_datetime w pub_date_str) as [d | e]; cbn; [| eauto].
  destruct (datetime_ge _ _); cbn; eauto.
Qed.

(** A date that was read is not the empty string, once the reader
    rejects the empty string. *)
Lemma parsed_not_empty (w : World) (pub_date_str : string) (d : datetime) :
  (exists e, parsedate_to_datetime w EmptyString = Raise e) ->
  parsedate_to_datetime w pub_date_str = Ret d ->
  pub_date_str <> EmptyString.
Proof. intros [e He] Hd ->. rewrite He in Hd. discriminate. Qed.

(** C2.  For a scraper built by the constructor and a date reader that
    rejects the empty string, the check is permissive and total: it
    never raises; a string that cannot be read, the empty one among
    them, gives [True]; a date that is read gives [False] when the
    reading of its fields, its offset dropped, is before [start_date],
    and [True] when it is at or after it. *)
Theorem timeframe_check_permissive (w : World) (token : string) (s s' : St) (self : scraper)
    (pub_date_str : string) :
  init w token s = (Ret self, s') ->
  (exists e, parsedate_to_datetime w EmptyString = Raise e) ->
  (exists b, is_article_in_timeframe w self pub_date_str = Ret b)
  /\ is_article_in_timeframe w self EmptyString = Ret true
  /\ (forall e, parsedate_to_datetime w pub_date_str = Raise e ->
        is_article_in_timeframe w self pub_date_str = Ret true)
  /\ (forall d, parsedate_to_datetime w pub_date_str = Ret d ->
        (wall (replace_tzinfo_none d) < wall (start_date self) ->
         is_article_in_timeframe w self pub_date_str = Ret false)
        /\ (wall (start_date self) <= wall (replace_tzinfo_none d) ->
            is_article_in_timeframe w self pub_date_str = Ret true)).
Proof.
  intros Hinit Hempty.
  destruct (init_window _ _ _ _ _ Hinit) as (_ & Hnaive & _ & _).
  split; [apply in_timeframe_total |].
  split; [reflexivity |].
  split; [intros e; apply in_timeframe_unparsed |].
  intros d Hd.
  rewrite (in_timeframe_parsed w self pub_date_str d
             (parsed_not_empty _ _ _ Hempty Hd) Hnaive Hd).
  cbn [replace_tzinfo_none wall]. split; intros Hcmp; f_equal.
  - apply Z.leb_gt. exact Hcmp.
  - apply Z.leb_le. exact Hcmp.
Qed.

Lemma timeframe_check_permissive_witness :
  is_article_in_timeframe Demo.world Demo.week_scraper "Tue, 20 Oct 2026 08:00:00 +0530"
  = Ret false
  /\ is_article_in_timeframe Demo.world Demo.week_scraper "Mon, 02 Nov 2026 09:30:00 +0530"
     = Ret true
  /\ is_article_in_timeframe Demo.world Demo.week_scraper "yesterday" = Ret true.
Proof.
  assert (Hinit : init Demo.world "7d" Demo.start_state = (Ret Demo.week_scraper, Demo.start_state))
    by (vm_compute; reflexivity).
  assert (Hempty : exists e, parsedate_to_datetime Demo.world EmptyString = Raise e)
    by (eexists; vm_compute; reflexivity).
  split; [| split].
  - destruct (timeframe_check_permissive Demo.world "7d" Demo.start_state Demo.start_state
                Demo.week_scraper "Tue, 20 Oct 2026 08:00:00 +0530" Hinit Hempty)
      as (_ & _ & _ & Hread).
    destruct (Hread (mkDatetime 63928080000000000 (Some 19800000000))) as [Hbefore _].
    { vm_compute. reflexivity. }
    apply Hbefore. vm_compute. reflexivity.
  - destruct (timeframe_check_permissive Demo.world "7d" Demo.start_state Demo.start_state
                Demo.week_scraper "Mon, 02 Nov 2026 09:30:00 +0530" Hinit Hempty)
      as (_ & _ & _ & Hread).
    destruct (Hread (mkDatetime 63929208600000000 (Some 19800000000))) as [_ Hafter].
    { vm_compute. reflexivity. }
    apply Hafter. vm_compute. discriminate.
  - destruct (timeframe_check_permissive Demo.world "7d" Demo.start_state Demo.start_state
                Demo.week_scraper "yesterday" Hinit Hempty)
      as (_ & _ & Hfail & _).
    eapply Hfail. vm_compute. reflexivity.
Defined.

(** C2, as stated, fails: the check does not go by the instant of the
    date.  08:00 GMT and 13:30 at +0530 on 27 October 2026 are one
    instant; with a window that starts at 12:00 on that day the first
    string is refused and the second accepted, so whatever the local
    offset, the answer is not the comparison of the instant, normalised
    to the local clock, with [start_date]. *)
Lemma same_instant_two_answers :
  ~ exists local_offset : Z,
      forall pub_date_str d,
        parsedate_to_datetime Demo.world pub_date_str = Ret d ->
        is_article_in_timeframe Demo.world Demo.week_scraper pub_date_str
        = Ret (wall (start_date Demo.week_scraper) <=? spec_naive_local local_offset d).
Proof.
  intros [local_offset H].
  pose proof (H "Tue, 27 Oct 2026 08:00:00 GMT"
                (mkDatetime 63928684800000000 (Some 0)) eq_refl) as Hearly.
  pose proof (H "Tue, 27 Oct 2026 13:30:00 +0530"
                (mkDatetime 63928704600000000 (Some 19800000000)) eq_refl) as Hlate.
  assert (Eearly : is_article_in_timeframe Demo.world Demo.week_scraper
                     "Tue, 27 Oct 2026 08:00:00 GMT" = Ret false) by reflexivity.
  assert (Elate : is_article_in_timeframe Demo.world Demo.week_scraper
                    "Tue, 27 Oct 2026 13:30:00 +0530" = Ret true) by reflexivity.
  rewrite Eearly in Hearly. rewrite Elate in Hlate.
  cbn [spec_naive_local tzinfo wall] in Hearly, Hlate.
  inversion Hearly as [Hbefore]. inversion Hlate as [Hafter].
  symmetry in Hbefore, Hafter.
  apply Z.leb_gt in Hbefore. apply Z.leb_le in Hafter. lia.
Qed.



(** ** Records *)

(** The [content] and the [url] of the record both harvesters build. *)
Lemma record_content (t u s p d c : pyval) :
  (list_to_map [ ("title", t); ("url", u); ("source", s); ("published_date", p);
                 ("description", d); ("content", c) ] : gmap string pyval) !! "content"
  = Some c.
Proof.
  unfold list_to_map. cbn [foldr fst snd uncurry].
  repeat (rewrite lookup_insert_ne by discriminate). apply lookup_insert_eq.
Qed.

Lemma record_url (t u s p d c : pyval) :
  (list_to_map [ ("title", t); ("url", u); ("source", s); ("published_date", p);
                 ("description", d); ("content", c) ] : gmap string pyval) !! "url"
  = Some u.
Proof.
  unfold list_to_map. cbn [foldr fst snd uncurry].
  repeat (rewrite lookup_insert_ne by discriminate). apply lookup_insert_eq.
Qed.

(** ** Deduplication *)

Section Dedup.

Implicit Types (articles : list (gmap string pyval)) (seen : gset pyval).

Lemma loop_first_seen articles seen unique_articles :
  remove_duplicates_loop articles seen unique_articles
  = (unique_articles ++ first_seen seen articles)%list.
Proof.
  revert seen unique_articles.
  induction articles as [| article rest IH]; intros seen unique_articles; cbn.
  - rewrite app_nil_r. reflexivity.
  - fold (url_key article). destruct (decide (url_key article ∈ seen)).
    + apply IH.
    + rewrite IH, <- app_assoc. reflexivity.
Qed.

Lemma remove_duplicates_first_seen articles :
  remove_duplicates articles = first_seen ∅ articles.
Proof. unfold remove_duplicates. apply loop_first_seen. Qed.

(** The pass keeps the order of the input. *)
Lemma first_seen_sublist articles seen : sublist (first_seen seen articles) articles.
Proof.
  revert seen. induction articles as [| article rest IH]; intros seen; cbn.
  - constructor.
  - destruct (decide _); [apply sublist_cons | apply sublist_skip]; apply IH.
Qed.

(** No key of the result was seen before. *)
Lemma first_seen_fresh articles seen article :
  article ∈ first_seen seen articles -> url_key article ∉ seen.
Proof.
  revert seen. induction articles as [| a rest IH]; intros seen; cbn.
  - intros H. inversion H.
  - destruct (decide (url_key a ∈ seen)) as [Hin | Hout].
    + apply IH.
    + intros [-> | H]%elem_of_cons; [assumption |].
      apply IH in H. set_solver.
Qed.

(** Among the articles with key [k], the pass keeps the first and only
    the first, unless [k] was seen before. *)
Lemma first_seen_key articles seen (k : pyval) :
  filter (fun a => url_key a = k) (first_seen seen articles)
  = if decide (k ∈ seen) then [] else take 1 (filter (fun a => url_key a = k) articles).
Proof.
  revert seen. induction articles as [| a rest IH]; intros seen; cbn [first_seen].
  - destruct (decide _); reflexivity.
  - destruct (decide (url_key a ∈ seen)) as [Hin | Hout].
    + rewrite IH. destruct (decide (k ∈ seen)) as [Hk | Hk]; [reflexivity |].
      rewrite (filter_cons_False _ a) by congruence. reflexivity.
    + destruct (decide (url_key a = k)) as [Heq | Hne].
      * rewrite !(filter_cons_True _ a) by assumption. rewrite IH. subst k.
        destruct (decide (url_key a ∈ seen)); [contradiction |].
        destruct (decide (url_key a ∈ {[url_key a]} ∪ seen)); [reflexivity | set_solver].
      * rewrite !(filter_cons_False _ a) by assumption. rewrite IH.
        destruct (decide (k ∈ seen)) as [Hk | Hk],
                 (decide (k ∈ {[url_key a]} ∪ seen)) as [Hk' | Hk'];
          try reflexivity; set_solver.
Qed.

(** A second pass that has seen no more than the first changes nothing. *)
Lemma first_seen_again articles seen seen' :
  seen' ⊆ seen -> first_seen seen' (first_seen seen articles) = first_seen seen articles.
Proof.
  revert seen seen'. induction articles as [| a rest IH]; intros seen seen' Hsub; cbn.
  - reflexivity.
  - destruct (decide (url_key a ∈ seen)) as [Hin | Hout].
    + apply IH, Hsub.
    + cbn. destruct (decide (url_key a ∈ seen')) as [Hin' | _]; [set_solver |].
      f_equal. apply IH. set_solver.
Qed.

(** The keys of the result are pairwise distinct. *)
Lemma first_seen_NoDup articles seen : NoDup (url_key <$> first_seen seen articles).
Proof.
  revert seen. induction articles as [| a rest IH]; intros seen; cbn.
  - constructor.
  - destruct (decide (url_key a ∈ seen)); [apply IH |].
    cbn. constructor; [| apply IH].
    intros (b & Hb & Hin)%list_elem_of_fmap. apply first_seen_fresh in Hin.
    rewrite <- Hb in Hin. set_solver.
Qed.

Lemma no_usable_url_key (article : gmap string pyval) :
  no_usable_url article <-> url_key article = PStr EmptyString.
Proof.
  unfold no_usable_url, url_key, dict_get.
  destruct (article !! "url") as [v |]; split; intros H.
  - destruct H as [H | H]; [discriminate | inversion H; reflexivity].
  - right. f_equal. exact H.
  - reflexivity.
  - left. reflexivity.
Qed.

End Dedup.

(** C1, as stated, fails: of two articles without a usable URL the
    second is dropped. *)
Lemma empty_urls_are_merged :
  no_usable_url Demo.no_url_article
  /\ no_usable_url Demo.empty_url_article
  /\ Demo.empty_url_article ∈ [Demo.no_url_article; Demo.empty_url_article]
  /\ remove_duplicates [Demo.no_url_article; Demo.empty_url_article] = [Demo.no_url_article]
  /\ Demo.empty_url_article ∉ remove_duplicates [Demo.no_url_article; Demo.empty_url_article].
Proof.
  split; [left; vm_compute; reflexivity |].
  split; [right; vm_compute; reflexivity |].
  split; [apply elem_of_cons; right; apply elem_of_cons; left; reflexivity |].
  assert (Hrun : remove_duplicates [Demo.no_url_article; Demo.empty_url_article]
                 = [Demo.no_url_article]) by reflexivity.
  split; [exact Hrun |].
  rewrite Hrun. intros [Heq | Hin]%elem_of_cons; [| inversion Hin].
  assert (Hlook : Demo.empty_url_article !! "url" = Demo.no_url_article !! "url")
    by (rewrite Heq; reflexivity).
  vm_compute in Hlook. discriminate Hlook.
Qed.

(** C1, amended.  The articles whose [url] is absent or empty share the
    key [''] and are deduplicated against each other: of those of the
    input, the output holds the first one and no other. *)
Theorem empty_urls_first_survives (articles : list (gmap string pyval)) :
  filter no_usable_url (remove_duplicates articles)
  = take 1 (filter no_usable_url articles).
Proof.
  rewrite remove_duplicates_first_seen.
  rewrite (list_filter_iff no_usable_url (fun a => url_key a = PStr EmptyString))
    by (intros a; apply no_usable_url_key).
  rewrite (list_filter_iff no_usable_url (fun a => url_key a = PStr EmptyString) articles)
    by (intros a; apply no_usable_url_key).
  rewrite first_seen_key. destruct (decide _) as [Hin | _]; [set_solver | reflexivity].
Qed.

(** C4.  Deduplication is idempotent and keeps the order of its input;
    on [[A; B; C]] where [A] and [C] have the URL [u1] and [B] another
    one, the result is [[A; B]]. *)
Theorem remove_duplicates_idempotent :
  (forall articles : list (gmap string pyval),
     remove_duplicates (remove_duplicates articles) = remove_duplicates articles)
  /\ (forall articles : list (gmap string pyval),
        sublist (remove_duplicates articles) articles)
  /\ (forall (A B C : gmap string pyval) (u1 u2 : pyval),
        A !! "url" = Some u1 -> B !! "url" = Some u2 -> C !! "url" = Some u1 ->
        u1 <> u2 ->
        remove_duplicates [A; B; C] = [A; B]).
Proof.
  split; [| split].
  - intros articles. rewrite !remove_duplicates_first_seen.
    apply first_seen_again. reflexivity.
  - intros articles. rewrite remove_duplicates_first_seen. apply first_seen_sublist.
  - intros A B C u1 u2 HA HB HC Hne.
    rewrite remove_duplicates_first_seen. cbn.
    assert (KA : url_key A = u1) by (unfold url_key, dict_get; rewrite HA; reflexivity).
    assert (KB : url_key B = u2) by (unfold url_key, dict_get; rewrite HB; reflexivity).
    assert (KC : url_key C = u1) by (unfold url_key, dict_get; rewrite HC; reflexivity).
    rewrite KA, KB, KC.
    destruct (decide (u1 ∈ (∅ : gset pyval))) as [H1 | H1]; [set_solver |].
    destruct (decide (u2 ∈ {[u1]} ∪ (∅ : gset pyval))) as [H2 | H2]; [set_solver |].
    destruct (decide (u1 ∈ {[u2]} ∪ ({[u1]} ∪ (∅ : gset pyval)))) as [H3 | H3];
      [reflexivity | set_solver].
Qed.

Lemma remove_duplicates_idempotent_witness :
  remove_duplicates [Demo.zepto_record; Demo.blinkit_record; Demo.api_story_record]
  = [Demo.zepto_record; Demo.blinkit_record].
Proof.
  destruct remove_duplicates_idempotent as (_ & _ & Hfirst).
  apply (Hfirst _ _ _ (PStr Demo.zepto_url) (PStr Demo.blinkit_url));
    [apply record_url | apply record_url | apply record_url |].
  unfold Demo.zepto_url, Demo.blinkit_url. discriminate.
Defined.

(** ** Rules for [hoare] *)

Section Hoare.

Context {S : Type}.

Lemma hoare_ret {A : Type} (a : A) (Q : A -> S -> Prop) (E : S -> Prop) :
  hoare (Q a) (mret a) Q E.
Proof. intros s H. exact H. Qed.

Lemma hoare_bind {A B : Type} (P : S -> Prop) (R : A -> S -> Prop) (Q : B -> S -> Prop)
    (E : S -> Prop) (m : M S A) (k : A -> M S B) :
  hoare P m R E -> (forall a, hoare (R a) (k a) Q E) -> hoare P (m ≫= k) Q E.
Proof.
  intros Hm Hk s HP. specialize (Hm s HP). rewrite run_bind.
  destruct (m s) as [[a | e] s']; [apply Hk, Hm | exact Hm].
Qed.

Lemma hoare_conseq {A : Type} (P P' : S -> Prop) (Q Q' : A -> S -> Prop) (E E' : S -> Prop)
    (m : M S A) :
  hoare P' m Q' E' ->
  (forall s, P s -> P' s) -> (forall a s, Q' a s -> Q a s) -> (forall s, E' s -> E s) ->
  hoare P m Q E.
Proof.
  intros Hm HP HQ HE s Hs. specialize (Hm s (HP s Hs)).
  destruct (m s) as [[a | e] s']; auto.
Qed.

Lemma hoare_try_except {A : Type} (P : S -> Prop) (Q : A -> S -> Prop) (E E' : S -> Prop)
    (body : M S A) (handler : Exn -> M S A) :
  hoare P body Q E' -> (forall e, hoare E' (handler e) Q E) ->
  hoare P (try_except body handler) Q E.
Proof.
  intros Hb Hh s HP. specialize (Hb s HP). unfold try_except.
  destruct (body s) as [[a | e] s']; [exact Hb | apply Hh, Hb].
Qed.

Lemma hoare_for_each {A : Type} (I E : S -> Prop) (xs : list A) (body : A -> M S unit) :
  (forall x, hoare I (body x) (fun _ => I) E) ->
  hoare I (for_each xs body) (fun _ => I) E.
Proof.
  intros Hbody. induction xs as [| x xs IH]; cbn [for_each].
  - apply (hoare_ret tt (fun _ => I)).
  - eapply hoare_bind; [apply Hbody |]. intros u. exact IH.
Qed.

End Hoare.

(** What a body with locals returns is what it computed; its final
    process state is that of its frame. *)
Lemma hoare_with_locals {L A : Type} (init : L) (Q : A -> Prop) (m : M (Frame L) A) :
  hoare (fun f => loc f = init) m (fun a _ => Q a) (fun _ => False) ->
  hoare (fun _ => True) (with_locals init m) (fun a _ => Q a) (fun _ => False).
Proof.
  intros Hm s _. unfold with_locals. specialize (Hm (mkFrame s init) eq_refl).
  destruct (m (mkFrame s init)) as [[a | e] f]; exact Hm.
Qed.

Lemma hoare_total_run {S A : Type} (Q : A -> Prop) (m : M S A) (s : S) :
  hoare (fun _ => True) m (fun a _ => Q a) (fun _ => False) ->
  exists a s', m s = (Ret a, s') /\ Q a.
Proof.
  intros Hm. specialize (Hm s I). destruct (m s) as [[a | e] s']; [eauto | contradiction].
Qed.

(** ** The content extractor *)

Lemma extract_body_redirect (w : World) (url : string) (s : St) :
  is_redirect_url url = true ->
  extract_content_body w url s = (Ret redirect_placeholder, s).
Proof. intros H. unfold extract_content_body. rewrite H. reflexivity. Qed.

(** The body on a URL that is fetched: the request is counted, and the
    first failure among transport, status and parsing is raised. *)
Lemma extract_body_fetch (w : World) (url : string) (s : St) :
  is_redirect_url url = false ->
  extract_content_body w url s =
  (match http_get w (requests s) (mkRequest url extraction_headers [] 20 true) with
   | Raise e => Raise e
   | Ret response =>
       match raise_for_status response with
       | Raise e => Raise e
       | Ret _ =>
           match html_parser w (content response) with
           | Raise e => Raise e
           | Ret soup =>
               Ret (render_content (content_fragments (decompose_all unwanted_elements soup)))
           end
       end
   end, mkSt (log s) (S (requests s)) (slept s)).
Proof.
  intros H. unfold extract_content_body. rewrite H.
  rewrite run_bind. unfold session_get.
  destruct (http_get w (requests s) _) as [response | e]; [| reflexivity].
  rewrite run_bind. unfold lift_exc.
  destruct (raise_for_status response) as [[] | e]; [| reflexivity].
  rewrite run_bind.
  destruct (html_parser w (content response)) as [soup | e]; reflexivity.
Qed.

Lemma extract_returned (w : World) (url : string) (s s' : St) (text : string) :
  extract_content_body w url s = (Ret text, s') ->
  extract_content_from_url w url s = (Ret text, s').
Proof. intros H. unfold extract_content_from_url, try_except. rewrite H. reflexivity. Qed.

Lemma extract_raised (w : World) (url : string) (s s' : St) (e : Exn) :
  extract_content_body w url s = (Raise e, s') ->
  extract_content_from_url w url s =
  (Ret ("Error extracting content: " ++ exn_str e),
   mkSt (log s' ++ [(ERROR, "Error extracting content from " ++ url ++ ": " ++ exn_str e)])
     (requests s') (slept s')).
Proof. intros H. unfold extract_content_from_url, try_except. rewrite H. reflexivity. Qed.

(** Every fragment is longer than 50 characters. *)
Lemma method1_long (soup : node) (selectors : list selector) (content_text : list string) :
  Forall (fun text => long_enough text = true) content_text ->
  Forall (fun text => long_enough text = true) (method1 soup selectors content_text).
Proof.
  revert content_text. induction selectors as [| sel rest IH]; intros content_text Hacc; cbn.
  - exact Hacc.
  - destruct (select_one sel soup) as [article_elem |]; [| apply IH, Hacc].
    assert (Hnew : Forall (fun text => long_enough text = true)
                     (content_text ++ container_texts article_elem)).
    { apply Forall_app. split; [exact Hacc |].
      unfold container_texts. apply List.Forall_forall. intros x Hx.
      apply List.filter_In in Hx. apply Hx. }
    destruct (content_text ++ container_texts article_elem)%list; [apply IH |]; exact Hnew.
Qed.

Lemma content_fragments_long (soup : node) :
  Forall (fun text => long_enough text = true) (content_fragments soup).
Proof.
  unfold content_fragments.
  pose proof (method1_long soup article_selectors [] (Forall_nil _)) as H1.
  destruct (method1 soup article_selectors []); [| exact H1].
  unfold method2. apply List.Forall_forall. intros x Hx.
  apply List.filter_In in Hx. destruct Hx as [_ Hx]. apply andb_true_iff in Hx. apply Hx.
Qed.

Lemma long_enough_nonempty (text : string) : long_enough text = true -> text <> EmptyString.
Proof. intros H ->. discriminate H. Qed.

Lemma join_nonempty (sep first : string) (others : list string) :
  first <> EmptyString -> PyStr.join sep (first :: others) <> EmptyString.
Proof.
  intros Hne. unfold PyStr.join. cbn [String.concat].
  destruct first as [| c first']; [contradiction |].
  destruct others; [discriminate |]. discriminate.
Qed.

Lemma render_content_nonempty (content_text : list string) :
  Forall (fun text => long_enough text = true) content_text ->
  render_content content_text <> EmptyString.
Proof.
  intros Hlong. unfold render_content. destruct content_text as [| x l]; [discriminate |].
  cbn [firstn]. apply join_nonempty, long_enough_nonempty.
  inversion Hlong; assumption.
Qed.

(** The extractor always returns, and what it returns is not empty. *)
Lemma extract_content_spec (w : World) (url : string) :
  hoare (fun _ => True) (extract_content_from_url w url)
    (fun text _ => text <> EmptyString) (fun _ => False).
Proof.
  intros s _.
  destruct (extract_content_body w url s) as [[text | e] s'] eqn:Hbody.
  - rewrite (extract_returned _ _ _ _ _ Hbody).
    destruct (is_redirect_url url) eqn:Hred.
    + rewrite (extract_body_redirect _ _ _ Hred) in Hbody. inversion Hbody. discriminate.
    + rewrite (extract_body_fetch _ _ _ Hred) in Hbody.
      destruct (http_get _ _ _) as [response |]; [| discriminate].
      destruct (raise_for_status response); [| discriminate].
      destruct (html_parser w (content response)) as [soup |]; [| discriminate].
      inversion Hbody. apply render_content_nonempty, content_fragments_long.
  - rewrite (extract_raised _ _ _ _ _ Hbody). discriminate.
Qed.

(** C7.  [extract_content_from_url] always returns a string and never
    raises.  On a URL that is fetched and parsed, it returns the first 15
    fragments joined by a blank line when there is a fragment, and the
    fixed placeholder when there is none; when the transport, the status
    check or the parser raises, or anything else in the body does, it
    returns the placeholder that carries the text of the exception. *)
Theorem extract_content_never_raises (w : World) (url : string) (s : St) :
  (exists text s', extract_content_from_url w url s = (Ret text, s'))
  /\ (forall e s', extract_content_body w url s = (Raise e, s') ->
        (extract_content_from_url w url s).1 = Ret ("Error extracting content: " ++ exn_str e))
  /\ (is_redirect_url url = false ->
      let request := mkRequest url extraction_headers [] 20 true in
      (forall e, http_get w (requests s) request = Raise e ->
         (extract_content_from_url w url s).1
         = Ret ("Error extracting content: " ++ exn_str e))
      /\ (forall response,
            http_get w (requests s) request = Ret response ->
            (forall e, raise_for_status response = Raise e ->
               (extract_content_from_url w url s).1
               = Ret ("Error extracting content: " ++ exn_str e))
            /\ (raise_for_status response = Ret tt ->
                (forall e, html_parser w (content response) = Raise e ->
                   (extract_content_from_url w url s).1
                   = Ret ("Error extracting content: " ++ exn_str e))
                /\ (forall soup, html_parser w (content response) = Ret soup ->
                      let content_text :=
                        content_fragments (decompose_all unwanted_elements soup) in
                      (content_text <> [] ->
                       (extract_content_from_url w url s).1
                       = Ret (PyStr.join (PyStr.nl ++ PyStr.nl) (firstn 15 content_text)))
                      /\ (content_text = [] ->
                          (extract_content_from_url w url s).1
                          = Ret "Content extraction failed - unable to locate article text"))))).
Proof.
  split; [| split].
  - destruct (hoare_total_run _ _ s (extract_content_spec w url)) as (text & s' & Hrun & _).
    eauto.
  - intros e s' Hbody. rewrite (extract_raised _ _ _ _ _ Hbody). reflexivity.
  - intros Hred request. pose proof (extract_body_fetch w url s Hred) as Hbody.
    fold request in Hbody. split.
    + intros e He. rewrite He in Hbody. rewrite (extract_raised _ _ _ _ _ Hbody). reflexivity.
    + intros response Hget. rewrite Hget in Hbody. split.
      * intros e He. rewrite He in Hbody.
        rewrite (extract_raised _ _ _ _ _ Hbody). reflexivity.
      * intros Hstatus. rewrite Hstatus in Hbody. split.
        -- intros e He. rewrite He in Hbody.
           rewrite (extract_raised _ _ _ _ _ Hbody). reflexivity.
        -- intros soup Hsoup content_text. rewrite Hsoup in Hbody.
           rewrite (extract_returned _ _ _ _ _ Hbody). fold content_text. cbn [fst].
           unfold render_content. split.
           ++ intros Hne. destruct content_text; [contradiction | reflexivity].
           ++ intros ->. reflexivity.
Qed.

Lemma extract_content_never_raises_witness :
  (extract_content_from_url Demo.world Demo.zepto_url Demo.start_state).1
  = Ret (PyStr.join (PyStr.nl ++ PyStr.nl) [Demo.para1; Demo.para2; Demo.para3]).
Proof.
  destruct (extract_content_never_raises Demo.world Demo.zepto_url Demo.start_state)
    as (_ & _ & Hfetch).
  destruct Hfetch as [_ Hresp]; [vm_compute; reflexivity |].
  destruct (Hresp (mkResponse 200 "OK" Demo.zepto_url "page")) as [_ Hok];
    [vm_compute; reflexivity |].
  destruct Hok as [_ Hsoup]; [vm_compute; reflexivity |].
  destruct (Hsoup Demo.page_tree) as [Hsome _]; [vm_compute; reflexivity |].
  rewrite Hsome; [vm_compute; reflexivity | vm_compute; discriminate].
Defined.

(** ** Splitting at the truncation marker *)

Lemma append_cons (c : ascii) (x y : string) : String c x ++ y = String c (x ++ y).
Proof. reflexivity. Qed.

Lemma append_empty_r (x : string) : x ++ EmptyString = x.
Proof. induction x as [| c x IH]; [reflexivity |]. rewrite append_cons, IH. reflexivity. Qed.

Lemma append_snoc (x y : string) (c : ascii) :
  (x ++ String c EmptyString) ++ y = x ++ String c y.
Proof.
  induction x as [| a x IH]; [reflexivity |]. rewrite !append_cons, IH. reflexivity.
Qed.

Lemma prefix_append (sep s : string) :
  String.prefix sep s = true <-> exists rest, s = sep ++ rest.
Proof.
  revert s. induction sep as [| a sep IH]; intros s.
  - split; [intros _; exists s; reflexivity | intros _; destruct s; reflexivity].
  - destruct s as [| b s]; cbn [String.prefix].
    + split; [discriminate | intros [rest H]; discriminate H].
    + destruct (ascii_dec a b) as [-> | Hne].
      * rewrite IH. split; intros [rest H]; exists rest.
        -- rewrite append_cons, <- H. reflexivity.
        -- rewrite append_cons in H. inversion H. reflexivity.
      * split; [discriminate |]. intros [rest H]. rewrite append_cons in H.
        inversion H. congruence.
Qed.

(** The first piece of a split: the text before the first occurrence
    of the separator. *)
Lemma split_go_first (sep s cur : string) :
  PyStr.contains sep s = true ->
  exists before after,
    s = before ++ sep ++ after
    /\ (forall before' after', s = before' ++ sep ++ after' ->
          (String.length before <= String.length before')%nat)
    /\ exists pieces, PyStr.split_go sep s O cur = (cur ++ before) :: pieces.
Proof.
  revert cur. induction s as [| c s IH]; intros cur Hin.
  - cbn [PyStr.contains] in Hin. rewrite orb_false_r in Hin.
    apply prefix_append in Hin as [rest Hrest].
    exists EmptyString, rest. split; [exact Hrest |]. split; [intros; cbn; lia |].
    exists []. cbn. rewrite append_empty_r. reflexivity.
  - cbn [PyStr.split_go]. cbn [PyStr.contains] in Hin.
    destruct (String.prefix sep (String c s)) eqn:Hpre.
    + apply prefix_append in Hpre as [rest Hrest].
      exists EmptyString, rest. split; [exact Hrest |]. split; [intros; cbn; lia |].
      eexists. rewrite append_empty_r. reflexivity.
    + cbn in Hin. destruct (IH (cur ++ String c EmptyString) Hin)
        as (before & after & Hs & Hmin & pieces & Hsplit).
      exists (String c before), after. split; [rewrite append_cons, <- Hs; reflexivity |].
      split.
      * intros before' after' Hs'. destruct before' as [| c' before'].
        -- assert (String.prefix sep (String c s) = true) as Habs
             by (apply prefix_append; exists after'; exact Hs').
           rewrite Hpre in Habs. discriminate.
        -- rewrite append_cons in Hs'. inversion Hs' as [[Hc Hrest]].
           specialize (Hmin _ _ Hrest). cbn. lia.
      * exists pieces. rewrite Hsplit, append_snoc. reflexivity.
Qed.

Lemma split_go_not_nil (sep s : string) (skip : nat) (cur : string) :
  PyStr.split_go sep s skip cur <> [].
Proof.
  revert skip cur. induction s as [| c s IH]; intros skip cur; cbn [PyStr.split_go].
  - discriminate.
  - destruct skip; [| apply IH]. destruct (String.prefix _ _); [discriminate | apply IH].
Qed.

(** ** The API harvester *)

(** What is stored for a content string: the string itself when it has
    no marker, else the text before the first marker; the placeholder
    when that would be empty. *)
Lemma stored_content_value (content : string) :
  exists text,
    stored_content content
    = Ret (PStr (if PyStr.nonempty text then text else "NewsAPI content not available"))
    /\ (PyStr.contains truncation_marker content = false -> text = content)
    /\ (PyStr.contains truncation_marker content = true ->
        exists after,
          content = text ++ truncation_marker ++ after
          /\ forall before' after', content = before' ++ truncation_marker ++ after' ->
               (String.length text <= String.length before')%nat).
Proof.
  unfold stored_content. destruct (PyStr.contains truncation_marker content) eqn:Hin.
  - destruct (split_go_first truncation_marker content EmptyString Hin)
      as (before & after & Hc & Hmin & pieces & Hsplit).
    exists before. unfold PyStr.split. rewrite Hsplit. cbn [first_item].
    split; [| split; [discriminate | intros _; exists after; split; assumption]].
    change (EmptyString ++ before) with before.
    destruct before; reflexivity.
  - exists content. split; [| split; [reflexivity | discriminate]].
    destruct content; reflexivity.
Qed.

Lemma placeholder_or_text_nonempty (text : string) :
  (if PyStr.nonempty text then text else "NewsAPI content not available") <> EmptyString.
Proof. destruct text; discriminate. Qed.

(** The record of an API article, when there is one, has the stored
    content of the article's content string. *)
Lemma api_article_content (item : api_article) (article : gmap string pyval) :
  api_article_data item = Ret (Some article) ->
  exists content stored,
    a_content item = JStr content
    /\ stored_content content = Ret stored
    /\ article !! "content" = Some stored.
Proof.
  unfold api_article_data.
  destruct (truthy (jget (a_url item)) && truthy (jget (a_content item))) eqn:Hguard;
    [| discriminate].
  apply andb_true_iff in Hguard as [_ Hc].
  destruct (a_content item) as [| | content]; try discriminate Hc.
  cbn [jget_default]. destruct (stored_content content) as [stored | e] eqn:Hst; [| discriminate].
  cbn. destruct (source_name_of (a_source item)) as [source | e]; [| discriminate].
  cbn. intros H. inversion H; subst; clear H.
  exists content, stored. split; [reflexivity |]. split; [exact Hst |].
  apply record_content.
Qed.

Lemma api_article_has_content (item : api_article) (article : gmap string pyval) :
  api_article_data item = Ret (Some article) -> has_content article.
Proof.
  intros H. destruct (api_article_content _ _ H) as (content & stored & _ & Hst & Hlook).
  destruct (stored_content_value content) as (text & Hval & _).
  rewrite Hval in Hst. inversion Hst; subst.
  eexists. split; [exact Hlook | apply placeholder_or_text_nonempty].
Qed.

(** Every collected record is the record of one of the items. *)
Lemma api_collected_from (items : list api_article) (article : gmap string pyval) :
  article ∈ api_collected items ->
  exists item, item ∈ items /\ api_article_data item = Ret (Some article).
Proof.
  induction items as [| item rest IH]; cbn [api_collected].
  - intros H. inversion H.
  - destruct (api_article_data item) as [[a |] | e] eqn:Hitem.
    + intros [-> | H]%elem_of_cons.
      * exists item. split; [apply elem_of_cons; left; reflexivity | exact Hitem].
      * destruct (IH H) as (it & Hin & Hit). exists it.
        split; [apply elem_of_cons; right; exact Hin | exact Hit].
    + intros H. destruct (IH H) as (it & Hin & Hit). exists it.
      split; [apply elem_of_cons; right; exact Hin | exact Hit].
    + intros H. inversion H.
Qed.

(** The loop over the API articles: the collected records are appended
    to the local list; the first failure, if any, is raised. *)
Lemma api_loop_run (items : list api_article) (f : Frame (list (gmap string pyval))) :
  for_each items api_item f =
  (match api_failure items with
   | None => Ret tt
   | Some e => Raise e
   end, mkFrame (glob f) (loc f ++ api_collected items)%list).
Proof.
  revert f. induction items as [| item rest IH]; intros [g l]; cbn [for_each api_failure api_collected].
  - cbn. rewrite app_nil_r. reflexivity.
  - rewrite run_bind. unfold api_item at 1. rewrite run_bind. unfold lift_exc at 1.
    destruct (api_article_data item) as [[a |] | e].
    + unfold append_article. rewrite run_bind. unfold get_locals, set_locals. cbn [loc glob].
      rewrite IH. cbn [loc glob]. rewrite <- app_assoc. reflexivity.
    + cbn. rewrite IH. reflexivity.
    + cbn. rewrite app_nil_r. reflexivity.
Qed.

(** What [search_news_api] returns and the state it leaves, case by
    case: no key; a failure of the transport, of the status check or of
    the decoder; a decoded response. *)
Lemma search_news_api_run (w : World) (self : scraper) (query : string) (s : St) :
  search_news_api w self query s =
  match getenv w "NEWS_API_KEY" with
  | Some (String c k) =>
      let sent := mkSt (log s) (S (requests s)) (slept s) in
      match http_get w (requests s) (api_request self query (String c k)) with
      | Raise e => (Ret [], api_error_logged sent e)
      | Ret response =>
          match raise_for_status response with
          | Raise e => (Ret [], api_error_logged sent e)
          | Ret _ =>
              match json_loads w (content response) with
              | Raise e => (Ret [], api_error_logged sent e)
              | Ret data =>
                  (Ret (api_collected (default [] (articles data))),
                   match api_failure (default [] (articles data)) with
                   | None => sent
                   | Some e => api_error_logged sent e
                   end)
              end
          end
      end
  | _ =>
      (Ret [], mkSt (log s ++ [(WARNING, "NEWS_API_KEY not found - skipping NewsAPI")])
                 (requests s) (slept s))
  end.
Proof.
  unfold search_news_api, with_locals.
  destruct (getenv w "NEWS_API_KEY") as [[| c k] |]; try reflexivity.
  cbn zeta. rewrite run_bind. unfold try_except. rewrite run_bind, run_lift.
  unfold session_get at 1 2. cbn [glob loc fst snd].
  destruct (http_get w (requests s) _) as [response | e]; [| reflexivity].
  rewrite run_bind. unfold lift_exc at 1.
  destruct (raise_for_status response) as [[] | e]; [| reflexivity].
  rewrite run_bind. unfold lift_exc at 1.
  destruct (json_loads w (content response)) as [data | e]; [| reflexivity].
  rewrite api_loop_run. cbn [loc glob app].
  destruct (api_failure (default [] (articles data))); reflexivity.
Qed.

(** The API harvester always returns, and each record it returns is
    the record of an article of the decoded response. *)
Lemma search_news_api_value (w : World) (self : scraper) (query : string) (s : St) :
  exists found s',
    search_news_api w self query s = (Ret found, s')
    /\ (found = [] \/
        exists api_key response data,
          http_get w (requests s) (api_request self query api_key) = Ret response
          /\ json_loads w (content response) = Ret data
          /\ found = api_collected (default [] (articles data))).
Proof.
  rewrite search_news_api_run.
  destruct (getenv w "NEWS_API_KEY") as [[| c k] |]; try (do 2 eexists; split; [reflexivity | left; reflexivity]).
  cbn zeta.
  destruct (http_get w (requests s) _) as [response | e] eqn:Hget;
    [| do 2 eexists; split; [reflexivity | left; reflexivity]].
  destruct (raise_for_status response) as [[] | e];
    [| do 2 eexists; split; [reflexivity | left; reflexivity]].
  destruct (json_loads w (content response)) as [data | e] eqn:Hjson;
    [| do 2 eexists; split; [reflexivity | left; reflexivity]].
  do 2 eexists. split; [reflexivity |]. right.
  exists (String c k), response, data. auto.
Qed.

(** C8, as stated, fails: when the content starts with the marker the
    text before it is empty, and what is stored is not that text but a
    placeholder. *)
Lemma marker_first_stores_placeholder :
  a_content Demo.marker_first = JStr (EmptyString ++ truncation_marker ++ "120 chars]")
  /\ api_article_data Demo.marker_first = Ret (Some Demo.marker_first_record)
  /\ Demo.marker_first_record !! "content" = Some (PStr "NewsAPI content not available")
  /\ Demo.marker_first_record !! "content" <> Some (PStr EmptyString).
Proof.
  split; [reflexivity |].
  split; [reflexivity |].
  assert (Hlook : Demo.marker_first_record !! "content"
                  = Some (PStr "NewsAPI content not available")) by apply record_content.
  split; [exact Hlook |]. rewrite Hlook. discriminate.
Qed.

(** C8, amended.  The records [search_news_api] returns are those of
    the articles of the response, in their order; and for an article
    whose content string contains the marker, the record stores the text
    before the first occurrence of the marker when that text is not
    empty, and the placeholder ['NewsAPI content not available'] when it
    is empty. *)
Theorem truncation_marker_cut (w : World) (self : scraper) (query : string) (s : St) :
  (exists found s',
     search_news_api w self query s = (Ret found, s')
     /\ (found = [] \/
         exists api_key response data,
           http_get w (requests s) (api_request self query api_key) = Ret response
           /\ json_loads w (content response) = Ret data
           /\ found = api_collected (default [] (articles data))))
  /\ (forall items article,
        article ∈ api_collected items ->
        exists item, item ∈ items /\ api_article_data item = Ret (Some article))
  /\ (forall item content article,
        a_content item = JStr content ->
        PyStr.contains truncation_marker content = true ->
        api_article_data item = Ret (Some article) ->
        exists before after,
          content = before ++ truncation_marker ++ after
          /\ (forall before' after', content = before' ++ truncation_marker ++ after' ->
                (String.length before <= String.length before')%nat)
          /\ article !! "content"
             = Some (PStr (if PyStr.nonempty before then before
                           else "NewsAPI content not available"))).
Proof.
  split; [apply search_news_api_value |]. split; [apply api_collected_from |].
  intros item content article Hcontent Hmarker Hitem.
  destruct (api_article_content _ _ Hitem) as (content' & stored & Hc' & Hst & Hlook).
  rewrite Hcontent in Hc'. inversion Hc'; subst content'; clear Hc'.
  destruct (stored_content_value content) as (text & Hval & _ & Hcut).
  destruct (Hcut Hmarker) as (after & Hsplit & Hmin).
  exists text, after. split; [exact Hsplit |]. split; [exact Hmin |].
  rewrite Hval in Hst. inversion Hst; subst stored. exact Hlook.
Qed.

Lemma truncation_marker_cut_witness :
  exists before after,
    "Zepto has raised a new round of funding [+120 chars]"
    = before ++ truncation_marker ++ after
    /\ (if PyStr.nonempty before then before else "NewsAPI content not available")
       = "Zepto has raised a new round of funding ".
Proof.
  assert (Hcontent : a_content Demo.api_story
                     = JStr "Zepto has raised a new round of funding [+120 chars]")
    by reflexivity.
  assert (Hmarker : PyStr.contains truncation_marker
                      "Zepto has raised a new round of funding [+120 chars]" = true)
    by reflexivity.
  assert (Hrecord : api_article_data Demo.api_story = Ret (Some Demo.api_story_record))
    by reflexivity.
  destruct (truncation_marker_cut Demo.world Demo.week_scraper "zepto" Demo.start_state)
    as (_ & _ & Hcut).
  destruct (Hcut _ _ _ Hcontent Hmarker Hrecord) as (before & after & Hsplit & _ & Hlook).
  exists before, after. split; [exact Hsplit |].
  unfold Demo.api_story_record in Hlook. rewrite record_content in Hlook.
  inversion Hlook as [Htext]. reflexivity.
Defined.

(** ** The feed harvester *)

(** The body of the item loop never raises, and the record it appends,
    if any, has a content. *)
Lemma rss_item_spec (w : World) (self : scraper) (source_name : string) (item : node) :
  hoare (fun f => Forall has_content (loc f)) (rss_item w self source_name item)
    (fun _ f => Forall has_content (loc f)) (fun _ => False).
Proof.
  intros f Hf. unfold rss_item.
  destruct (find "title" item) as [title_elem |]; [| exact Hf].
  destruct (find "link" item) as [link_elem |]; [| exact Hf].
  rewrite run_bind. unfold lift_exc at 1.
  destruct (in_timeframe_total w self
              match find "pubDate" item with
              | Some pub_date_elem => get_text pub_date_elem
              | None => EmptyString
              end) as [in_timeframe Hcheck].
  rewrite Hcheck. destruct in_timeframe; cbn [negb]; [| exact Hf].
  destruct (title_has_keyword _); [| exact Hf].
  rewrite run_bind, run_lift.
  destruct (hoare_total_run _ _ (glob f) (extract_content_spec w (get_text link_elem)))
    as (text & s' & Hrun & Htext).
  rewrite Hrun. cbn [fst snd].
  rewrite run_bind. unfold append_article at 1. rewrite run_bind.
  unfold get_locals, set_locals. cbn [loc glob]. rewrite run_lift. cbn [fst snd sleep loc].
  apply Forall_app. split; [exact Hf |]. constructor; [| constructor].
  exists text. split; [apply record_content | exact Htext].
Qed.

Lemma rss_source_spec (w : World) (self : scraper) (source : string * string) :
  hoare (fun f => Forall has_content (loc f)) (rss_source w self source)
    (fun _ f => Forall has_content (loc f)) (fun _ => False).
Proof.
  destruct source as [source_name rss_url]. unfold rss_source.
  eapply hoare_try_except with (E' := fun f => Forall has_content (loc f)).
  - eapply hoare_bind with (R := fun _ f => Forall has_content (loc f)).
    { intros f Hf. rewrite run_lift. exact Hf. }
    intros _. eapply hoare_bind with (R := fun _ f => Forall has_content (loc f)).
    { intros f Hf. rewrite run_lift. unfold session_get. cbn [fst snd loc].
      destruct (http_get w _ _); exact Hf. }
    intros response. eapply hoare_bind with (R := fun _ f => Forall has_content (loc f)).
    { intros f Hf. unfold lift_exc. destruct (raise_for_status response); exact Hf. }
    intros _. eapply hoare_bind with (R := fun _ f => Forall has_content (loc f)).
    { intros f Hf. unfold lift_exc. destruct (xml_parser w (content response)); exact Hf. }
    intros soup. eapply hoare_conseq.
    + apply (hoare_for_each (fun f => Forall has_content (loc f)) (fun _ => False)).
      intros item. apply rss_item_spec.
    + auto.
    + auto.
    + intros f [].
  - intros e f Hf. rewrite run_lift. exact Hf.
Qed.

(** The feed harvester always returns, and every record it returns has
    a content. *)
Lemma search_direct_rss_feeds_spec (w : World) (self : scraper) :
  hoare (fun _ => True) (search_direct_rss_feeds w self)
    (fun found _ => Forall has_content found) (fun _ => False).
Proof.
  unfold search_direct_rss_feeds. apply hoare_with_locals.
  eapply hoare_bind with (R := fun _ f => Forall has_content (loc f)).
  - eapply hoare_conseq.
    + apply (hoare_for_each (fun f => Forall has_content (loc f)) (fun _ => False)).
      intros source. apply rss_source_spec.
    + intros f Hf. cbn beta. rewrite Hf. constructor.
    + auto.
    + auto.
  - intros _ f Hf. exact Hf.
Qed.

(** C9.  Both harvesters always return, and in every record they
    return the [content] key is present and holds a string, which is
    not empty: the text of the article or a placeholder, never [None]. *)
Theorem content_always_populated (w : World) (self : scraper) (query : string) (s : St) :
  (exists found s',
     search_direct_rss_feeds w self s = (Ret found, s')
     /\ forall article, article ∈ found ->
          exists text, article !! "content" = Some (PStr text) /\ text <> EmptyString)
  /\ (exists found s',
        search_news_api w self query s = (Ret found, s')
        /\ forall article, article ∈ found ->
             exists text, article !! "content" = Some (PStr text) /\ text <> EmptyString).
Proof.
  split.
  - destruct (hoare_total_run _ _ s (search_direct_rss_feeds_spec w self))
      as (found & s' & Hrun & Hall).
    exists found, s'. split; [exact Hrun |].
    intros article Hin. rewrite Forall_forall in Hall.
    apply list_elem_of_In in Hin. apply (Hall article Hin).
  - destruct (search_news_api_value w self query s) as (found & s' & Hrun & Hfound).
    exists found, s'. split; [exact Hrun |].
    intros article Hin. destruct Hfound as [-> | (k & r & d & _ & _ & ->)].
    + inversion Hin.
    + destruct (api_collected_from _ _ Hin) as (item & _ & Hitem).
      apply (api_article_has_content _ _ Hitem).
Qed.

(** ** The aggregator *)

Lemma run_lift_logger {L : Type} (lvl : level) (msg : string) (f : Frame L) :
  lift (logger lvl msg) f = (Ret tt, mkFrame (with_log (glob f) [(lvl, msg)]) (loc f)).
Proof. reflexivity. Qed.

Lemma with_log_twice (s : St) (first second : list (level * string)) :
  with_log (with_log s first) second = with_log s (first ++ second).
Proof. unfold with_log. cbn. rewrite app_assoc. reflexivity. Qed.

(** One turn of the loop over the API keywords: the records found are
    appended, counted, and the pause is taken. *)
Lemma scrape_keyword_run (w : World) (self : scraper) (keyword : string)
    (g : St) (all_articles : list (gmap string pyval)) (newsapi_count : nat)
    (found : list (gmap string pyval)) (t : St) :
  search_news_api w self keyword g = (Ret found, t) ->
  scrape_keyword w self keyword (mkFrame g (all_articles, newsapi_count))
  = (Ret tt, mkFrame (with_pause t)
               ((all_articles ++ found)%list, (newsapi_count + length found)%nat)).
Proof.
  intros Hrun. unfold scrape_keyword, try_except.
  rewrite run_bind, run_lift. cbn [glob loc]. rewrite Hrun. cbn [fst snd].
  reflexivity.
Qed.

(** The run of [scrape_all_news]: the feed harvest, then the API
    harvest of each keyword in the order of the configuration, each
    harvester started in the state the run has reached; the result is
    the deduplicated concatenation, in that order. *)
Lemma scrape_all_news_run (w : World) (self : scraper) (s : St) (cfg : timeframe_config) :
  timeframe_options !! timeframe self = Some cfg ->
  exists rss t1 a1 t2 a2 t3 a3 t4 a4 t5,
    search_direct_rss_feeds w self
      (with_log s [(INFO, "Scraping news for: " ++ description cfg);
                   (INFO, "Searching direct RSS feeds...")]) = (Ret rss, t1)
    /\ search_news_api w self "quick commerce india"
         (with_log t1 [(INFO, "Found " ++ PyStr.of_nat (length rss) ++ " articles from RSS feeds");
                       (INFO, "Searching NewsAPI...")]) = (Ret a1, t2)
    /\ search_news_api w self "blinkit" (with_pause t2) = (Ret a2, t3)
    /\ search_news_api w self "zepto" (with_pause t3) = (Ret a3, t4)
    /\ search_news_api w self "swiggy instamart" (with_pause t4) = (Ret a4, t5)
    /\ (scrape_all_news w self s).1
       = Ret (remove_duplicates (rss ++ a1 ++ a2 ++ a3 ++ a4)).
Proof.
  intros Hcfg.
  destruct (hoare_total_run _ _
              (with_log s [(INFO, "Scraping news for: " ++ description cfg);
                           (INFO, "Searching direct RSS feeds...")])
              (search_direct_rss_feeds_spec w self))
    as (rss & t1 & Hrss & _).
  destruct (search_news_api_value w self "quick commerce india"
              (with_log t1
                 [(INFO, "Found " ++ PyStr.of_nat (length rss) ++ " articles from RSS feeds");
                  (INFO, "Searching NewsAPI...")]))
    as (a1 & t2 & H1 & _).
  destruct (search_news_api_value w self "blinkit" (with_pause t2)) as (a2 & t3 & H2 & _).
  destruct (search_news_api_value w self "zepto" (with_pause t3)) as (a3 & t4 & H3 & _).
  destruct (search_news_api_value w self "swiggy instamart" (with_pause t4))
    as (a4 & t5 & H4 & _).
  exists rss, t1, a1, t2, a2, t3, a3, t4, a4, t5.
  repeat (split; [assumption |]).
  unfold scrape_all_news, with_locals.
  rewrite run_bind. unfold lift_exc at 1, options_item. rewrite Hcfg.
  rewrite run_bind, run_lift_logger. cbn [glob loc].
  rewrite run_bind, run_lift_logger. cbn [glob loc]. rewrite with_log_twice. cbn [app].
  rewrite run_bind, run_lift. cbn [glob loc]. rewrite Hrss. cbn [fst snd].
  rewrite run_bind. unfold extend_all_articles at 1. rewrite run_bind.
  unfold get_locals at 1, set_locals at 1. cbn [loc glob app].
  rewrite run_bind, run_lift_logger. cbn [glob loc].
  rewrite run_bind, run_lift_logger. cbn [glob loc]. rewrite with_log_twice. cbn [app].
  rewrite run_bind. unfold api_keywords. cbn [for_each].
  rewrite run_bind, (scrape_keyword_run _ _ _ _ _ _ _ _ H1).
  rewrite run_bind, (scrape_keyword_run _ _ _ _ _ _ _ _ H2).
  rewrite run_bind, (scrape_keyword_run _ _ _ _ _ _ _ _ H3).
  rewrite run_bind, (scrape_keyword_run _ _ _ _ _ _ _ _ H4).
  cbn [mret M_ret]. rewrite run_bind. unfold get_locals at 1. cbn [loc glob].
  rewrite run_bind, run_lift_logger. rewrite run_bind, run_lift_logger.
  cbn [mret M_ret fst]. rewrite <- !app_assoc. reflexivity.
Qed.

(** In a merge of two harvests, the articles kept under a key of the
    first harvest are its first article with that key, alone. *)
Lemma merge_keeps_first (first second : list (gmap string pyval)) (k : pyval) :
  k ∈ url_key <$> first ->
  exists kept,
    head (filter (fun x => url_key x = k) first) = Some kept
    /\ filter (fun x => url_key x = k) (remove_duplicates (first ++ second)) = [kept].
Proof.
  intros (f & Hk & Hin)%list_elem_of_fmap.
  assert (Hf : f ∈ filter (fun x => url_key x = k) first)
    by (apply list_elem_of_filter; split; [symmetry; exact Hk | exact Hin]).
  rewrite remove_duplicates_first_seen, first_seen_key.
  destruct (decide (k ∈ (∅ : gset pyval))) as [Hempty | _]; [set_solver |].
  rewrite list.filter_app.
  destruct (filter (fun x => url_key x = k) first) as [| kept others].
  - inversion Hf.
  - exists kept. split; reflexivity.
Qed.

(** C3.  [scrape_all_news] returns the deduplication of the feed
    harvest followed by the API harvests in the order of the keyword
    list.  Hence when a feed article and an API article have the same
    URL, the output holds under that URL one article only, the first
    feed article with it; and when the feed harvest has two articles with
    different URLs and the API harvest one article with the URL of one
    of them, the output is the two feed articles. *)
Theorem feed_version_wins (w : World) (self : scraper) (s : St) (cfg : timeframe_config) :
  timeframe_options !! timeframe self = Some cfg ->
  exists rss t1 a1 t2 a2 t3 a3 t4 a4 t5,
    search_direct_rss_feeds w self
      (with_log s [(INFO, "Scraping news for: " ++ description cfg);
                   (INFO, "Searching direct RSS feeds...")]) = (Ret rss, t1)
    /\ search_news_api w self "quick commerce india"
         (with_log t1 [(INFO, "Found " ++ PyStr.of_nat (length rss) ++ " articles from RSS feeds");
                       (INFO, "Searching NewsAPI...")]) = (Ret a1, t2)
    /\ search_news_api w self "blinkit" (with_pause t2) = (Ret a2, t3)
    /\ search_news_api w self "zepto" (with_pause t3) = (Ret a3, t4)
    /\ search_news_api w self "swiggy instamart" (with_pause t4) = (Ret a4, t5)
    /\ (scrape_all_news w self s).1
       = Ret (remove_duplicates (rss ++ a1 ++ a2 ++ a3 ++ a4))
    /\ (forall feed_article api_article,
          feed_article ∈ rss -> api_article ∈ (a1 ++ a2 ++ a3 ++ a4)%list ->
          url_key feed_article = url_key api_article ->
          exists kept,
            head (filter (fun x => url_key x = url_key api_article) rss) = Some kept
            /\ filter (fun x => url_key x = url_key api_article)
                 (remove_duplicates (rss ++ a1 ++ a2 ++ a3 ++ a4)) = [kept])
    /\ (forall f1 f2 a,
          rss = [f1; f2] -> (a1 ++ a2 ++ a3 ++ a4)%list = [a] ->
          url_key f1 <> url_key f2 ->
          url_key a = url_key f1 \/ url_key a = url_key f2 ->
          (scrape_all_news w self s).1 = Ret [f1; f2]).
Proof.
  intros Hcfg.
  destruct (scrape_all_news_run w self s cfg Hcfg)
    as (rss & t1 & a1 & t2 & a2 & t3 & a3 & t4 & a4 & t5 & Hrss & H1 & H2 & H3 & H4 & Hrun).
  exists rss, t1, a1, t2, a2, t3, a3, t4, a4, t5.
  repeat (split; [assumption |]). split.
  - intros feed_article api_article Hfeed _ Hurl.
    apply merge_keeps_first. rewrite <- Hurl. apply list_elem_of_fmap_2. exact Hfeed.
  - intros f1 f2 a Hfeed Hapi Hne Hshared. rewrite Hrun, Hapi, Hfeed. f_equal.
    rewrite remove_duplicates_first_seen. cbn [app first_seen].
    destruct (decide (url_key f1 ∈ (∅ : gset pyval))) as [Hin | _];
      [apply not_elem_of_empty in Hin; contradiction |].
    destruct (decide (url_key f2 ∈ {[url_key f1]} ∪ (∅ : gset pyval))) as [Hin | _].
    { apply elem_of_union in Hin as [Hin | Hin];
        [apply elem_of_singleton in Hin; congruence
        | apply not_elem_of_empty in Hin; contradiction]. }
    destruct (decide (url_key a ∈ {[url_key f2]} ∪ ({[url_key f1]} ∪ (∅ : gset pyval))))
      as [_ | Hout]; [reflexivity |].
    exfalso. apply Hout. rewrite !elem_of_union, !elem_of_singleton.
    destruct Hshared as [-> | ->]; auto.
Qed.

Lemma feed_version_wins_witness :
  exists rss a1 a2 a3 a4,
    (scrape_all_news Demo.world Demo.week_scraper Demo.start_state).1
    = Ret (remove_duplicates (rss ++ a1 ++ a2 ++ a3 ++ a4))
    /\ remove_duplicates (rss ++ a1 ++ a2 ++ a3 ++ a4)
       = [Demo.zepto_record; Demo.blinkit_record].
Proof.
  destruct (feed_version_wins Demo.world Demo.week_scraper Demo.start_state
              (mkConfig None (Some 7) "Last week"))
    as (rss & t1 & a1 & t2 & a2 & t3 & a3 & t4 & a4 & t5
        & _ & _ & _ & _ & _ & Hrun & _);
    [vm_compute; reflexivity |].
  exists rss, a1, a2, a3, a4. split; [exact Hrun |].
  assert (Hdemo : (scrape_all_news Demo.world Demo.week_scraper Demo.start_state).1
                  = Ret [Demo.zepto_record; Demo.blinkit_record])
    by reflexivity.
  rewrite Hrun in Hdemo. inversion Hdemo as [Hlist]. reflexivity.
Defined.

(** * Further properties of the code *)

(** ** [clean_text] *)

Lemma rstrip_again (s : string) : PyStr.rstrip (PyStr.rstrip s) = PyStr.rstrip s.
Proof.
  induction s as [| c s IH]; [reflexivity |]. cbn [PyStr.rstrip].
  destruct (PyStr.isspace c && negb (PyStr.nonempty (PyStr.rstrip s))) eqn:Hdrop;
    [reflexivity |].
  cbn [PyStr.rstrip]. rewrite IH, Hdrop. reflexivity.
Qed.

Lemma lstrip_head (s : string) :
  PyStr.lstrip s = EmptyString
  \/ exists c rest, PyStr.lstrip s = String c rest /\ PyStr.isspace c = false.
Proof.
  induction s as [| c s IH]; [left; reflexivity |]. cbn [PyStr.lstrip].
  destruct (PyStr.isspace c) eqn:Hc; [exact IH |]. right. eauto.
Qed.

(** Collapsing a text without trailing white space gives a well spaced
    text, whatever precedes it, as long as a blank is not the end. *)
Lemma collapse_well_spaced (u : string) (after_blank : bool) :
  PyStr.rstrip u = u -> u <> EmptyString \/ after_blank = false ->
  well_spaced after_blank (PyStr.collapse_spaces after_blank u) = true.
Proof.
  revert after_blank. induction u as [| c u IH]; intros after_blank Hfix Hstart.
  - destruct Hstart as [Hne | ->]; [contradiction | reflexivity].
  - cbn [PyStr.rstrip] in Hfix. cbn [PyStr.collapse_spaces].
    destruct (PyStr.isspace c) eqn:Hc.
    + destruct (PyStr.rstrip u) as [| c' r] eqn:Hr; [discriminate Hfix |].
      cbn [andb negb PyStr.nonempty] in Hfix.
      assert (Hu : PyStr.rstrip u = u) by congruence.
      assert (Hne : u <> EmptyString) by (intros ->; discriminate Hr).
      destruct after_blank.
      * apply IH; [congruence | left; exact Hne].
      * cbn [well_spaced]. change (PyStr.isspace " ") with true.
        cbn [negb andb]. change (Ascii.eqb " " " ") with true. cbn [andb].
        apply IH; [congruence | left; exact Hne].
    + cbn [andb] in Hfix. assert (Hu : PyStr.rstrip u = u) by congruence.
      cbn [well_spaced]. rewrite Hc. apply IH; [exact Hu | right; reflexivity].
Qed.

(** A well spaced text has no white space at its end and is left as it
    is by the collapse. *)
Lemma well_spaced_rstrip (t : string) (after_blank : bool) :
  well_spaced after_blank t = true -> PyStr.rstrip t = t.
Proof.
  revert after_blank. induction t as [| c t IH]; intros after_blank H; [reflexivity |].
  cbn [well_spaced] in H. cbn [PyStr.rstrip]. destruct (PyStr.isspace c).
  - apply andb_true_iff in H as [_ H]. rewrite (IH true H).
    destruct t; [discriminate H | reflexivity].
  - rewrite (IH false H). reflexivity.
Qed.

Lemma well_spaced_collapse (t : string) (after_blank : bool) :
  well_spaced after_blank t = true -> PyStr.collapse_spaces after_blank t = t.
Proof.
  revert after_blank. induction t as [| c t IH]; intros after_blank H; [reflexivity |].
  cbn [well_spaced] in H. cbn [PyStr.collapse_spaces]. destruct (PyStr.isspace c).
  - apply andb_true_iff in H as [H Ht]. apply andb_true_iff in H as [Hb Hc].
    destruct after_blank; [discriminate Hb |].
    apply Ascii.eqb_eq in Hc. subst c. rewrite (IH true Ht). reflexivity.
  - rewrite (IH false H). reflexivity.
Qed.

Lemma clean_text_tidy (text : pyval) :
  is_clean (clean_text text) = true
  /\ clean_text PNone = EmptyString
  /\ clean_text (PStr EmptyString) = EmptyString.
Proof.
  split; [| split; reflexivity].
  destruct text as [| s]; [reflexivity |]. cbn [clean_text].
  destruct s as [| c0 s0]; [reflexivity |]. cbn [PyStr.nonempty negb].
  set (s := String c0 s0). unfold PyStr.strip.
  destruct (lstrip_head s) as [-> | (c & rest & -> & Hc)]; [reflexivity |].
  cbn [PyStr.rstrip]. rewrite Hc. cbn [andb PyStr.collapse_spaces]. rewrite Hc.
  cbn [is_clean]. rewrite Hc. cbn [negb andb].
  apply collapse_well_spaced; [apply rstrip_again | right; reflexivity].
Qed.

(** X1.  What [clean_text] returns is tidy: it has no white space at
    either end, and white space occurs in it only as single blanks, so
    no line break, tab or run of blanks survives.  [None] and the empty
    string give the empty string. *)
Theorem clean_text_is_clean (text : pyval) :
  is_clean (clean_text text) = true
  /\ clean_text PNone = EmptyString
  /\ clean_text (PStr EmptyString) = EmptyString.
Proof. exact (clean_text_tidy text). Qed.

(** X2.  [clean_text] leaves a tidy text as it is; hence cleaning twice
    is cleaning once. *)
Theorem clean_text_idempotent :
  (forall t : string, is_clean t = true -> clean_text (PStr t) = t)
  /\ (forall text : pyval, clean_text (PStr (clean_text text)) = clean_text text).
Proof.
  assert (Hfix : forall t : string, is_clean t = true -> clean_text (PStr t) = t).
  { intros t Ht. destruct t as [| c t]; [reflexivity |].
    cbn [is_clean] in Ht. apply andb_true_iff in Ht as [Hc Ht].
    apply negb_true_iff in Hc. cbn [clean_text PyStr.nonempty negb].
    unfold PyStr.strip. cbn [PyStr.lstrip]. rewrite Hc. cbn [PyStr.rstrip]. rewrite Hc.
    cbn [andb]. rewrite (well_spaced_rstrip _ _ Ht). cbn [PyStr.collapse_spaces].
    rewrite Hc, (well_spaced_collapse _ _ Ht). reflexivity. }
  split; [exact Hfix |].
  intros text. apply Hfix. apply clean_text_tidy.
Qed.

Lemma clean_text_idempotent_witness :
  clean_text (PStr "Zepto raises fresh funds") = "Zepto raises fresh funds".
Proof.
  destruct clean_text_idempotent as [Hfix _]. apply Hfix. reflexivity.
Defined.

(** ** The redirect filter of the extractor *)

Lemma append_assoc' (a b c : string) : (a ++ b) ++ c = a ++ (b ++ c).
Proof. induction a as [| x a IH]; [reflexivity |]. rewrite !append_cons, IH. reflexivity. Qed.

Lemma contains_prefix (sub s : string) :
  String.prefix sub s = true -> PyStr.contains sub s = true.
Proof. intros H. destruct s; cbn [PyStr.contains]; rewrite H; reflexivity. Qed.

(** [sub in s] holds for every [s] that has [sub] somewhere inside. *)
Lemma contains_middle (sub before after : string) :
  PyStr.contains sub (before ++ sub ++ after) = true.
Proof.
  induction before as [| c before IH].
  - apply contains_prefix, prefix_append. exists after. reflexivity.
  - rewrite append_cons. cbn [PyStr.contains]. rewrite IH. apply orb_true_r.
Qed.

Lemma contains_decompose (sub s : string) :
  PyStr.contains sub s = true <-> exists before after, s = before ++ sub ++ after.
Proof.
  split.
  - intros H. destruct (split_go_first sub s EmptyString H) as (before & after & Hs & _).
    eauto.
  - intros (before & after & ->). apply contains_middle.
Qed.

Lemma redirect_url_skipped (w : World) (url : string) (s : St) :
  is_redirect_url url = true ->
  extract_content_from_url w url s = (Ret redirect_placeholder, s).
Proof.
  intros H. apply extract_returned, extract_body_redirect, H.
Qed.

(** X3.  A URL that contains one of the redirect markers anywhere is
    answered with the fixed placeholder at once: no request is sent,
    nothing is logged, the state of the process is unchanged. *)
Theorem redirect_urls_are_not_fetched (w : World) (domain before after : string) (s : St) :
  In domain redirect_domains ->
  extract_content_from_url w (before ++ domain ++ after) s
  = (Ret "Redirect URL - content extraction skipped", s).
Proof.
  intros Hdomain. apply redirect_url_skipped. unfold is_redirect_url.
  apply existsb_exists. exists domain. split; [exact Hdomain | apply contains_middle].
Qed.

Lemma redirect_urls_are_not_fetched_witness :
  extract_content_from_url Demo.world "https://news.google.com/rss/articles/abc" Demo.start_state
  = (Ret "Redirect URL - content extraction skipped", Demo.start_state).
Proof.
  apply (redirect_urls_are_not_fetched Demo.world "news.google.com" "https://"
           "/rss/articles/abc" Demo.start_state).
  left. reflexivity.
Defined.

(** X4.  The markers are matched as substrings of the whole URL, and
    [t.co] occurs in [livemint.com]: every URL of that host, one of the
    configured feeds and API domains, is taken for a redirect, and its
    page is never fetched. *)
Theorem livemint_pages_are_never_fetched (w : World) (before after : string) (s : St) :
  extract_content_from_url w (before ++ "livemint.com" ++ after) s
  = (Ret "Redirect URL - content extraction skipped", s).
Proof.
  apply redirect_url_skipped. unfold is_redirect_url.
  apply existsb_exists. exists "t.co". split; [right; right; left; reflexivity |].
  replace (before ++ "livemint.com" ++ after)
    with ((before ++ "livemin") ++ "t.co" ++ ("m" ++ after)).
  - apply contains_middle.
  - rewrite append_assoc'. reflexivity.
Qed.

(** ** The effects of one extraction *)

Lemma extract_effects (w : World) (url : string) (s : St) :
  let after := (extract_content_from_url w url s).2 in
  requests after = (if is_redirect_url url then requests s else S (requests s))
  /\ slept after = slept s
  /\ match (extract_content_body w url s).1 with
     | Ret text =>
         (extract_content_from_url w url s).1 = Ret text /\ log after = log s
     | Raise e =>
         (extract_content_from_url w url s).1 = Ret ("Error extracting content: " ++ exn_str e)
         /\ log after
            = (log s ++ [(ERROR, ("Error extracting content from " ++ url ++ ": "
                                  ++ exn_str e)%string)])%list
     end.
Proof.
  cbn zeta. destruct (is_redirect_url url) eqn:Hred.
  - assert (Hbody : extract_content_body w url s = (Ret redirect_placeholder, s))
      by (unfold extract_content_body; rewrite Hred; reflexivity).
    rewrite (extract_returned _ _ _ _ _ Hbody), Hbody. cbn. auto.
  - pose proof (extract_body_fetch w url s Hred) as Hbody.
    destruct (extract_content_body w url s) as [[text | e] s'] eqn:Hrun.
    + rewrite (extract_returned _ _ _ _ _ Hrun). inversion Hbody; subst s'. cbn. auto.
    + rewrite (extract_raised _ _ _ _ _ Hrun). inversion Hbody; subst s'. cbn. auto.
Qed.

(** X5.  One call of the extractor sends one request for a URL that is
    fetched and none for a redirect URL; it never retries and never
    pauses.  When its body returns a text, that text is returned and the
    log is left as it was; when its body raises, the text of the error
    is returned behind ["Error extracting content: "] and exactly one
    error record, which names the URL and the error, is added to the
    log. *)
Theorem extract_content_effects (w : World) (url : string) (s : St) :
  let after := (extract_content_from_url w url s).2 in
  requests after = (if is_redirect_url url then requests s else S (requests s))
  /\ slept after = slept s
  /\ match (extract_content_body w url s).1 with
     | Ret text =>
         (extract_content_from_url w url s).1 = Ret text /\ log after = log s
     | Raise e =>
         (extract_content_from_url w url s).1 = Ret ("Error extracting content: " ++ exn_str e)
         /\ log after
            = (log s ++ [(ERROR, ("Error extracting content from " ++ url ++ ": "
                                  ++ exn_str e)%string)])%list
     end.
Proof. exact (extract_effects w url s). Qed.

(** ** The removal of unwanted elements *)

(** Induction on a node with the hypothesis for every child. *)
Lemma node_children_ind (P : node -> Prop) :
  (forall s, P (Text s)) ->
  (forall name attrs children, Forall P children -> P (Tag name attrs children)) ->
  forall n, P n.
Proof.
  intros HText HTag.
  exact (fix IH (n : node) : P n :=
           match n with
           | Text s => HText s
           | Tag name attrs children =>
               HTag name attrs children
                 ((fix go (l : list node) : Forall P l :=
                     match l with
                     | [] => @Forall_nil node P
                     | c :: l' => @Forall_cons node P c l' (IH c) (go l')
                     end) children)
           end).
Qed.

Lemma descendants_tag (name : string) (attrs : list (string * string)) (children : list node) :
  descendants (Tag name attrs children)
  = flat_map (fun c => c :: descendants c) children.
Proof.
  cbn [descendants]. induction children as [| c cs IH]; [reflexivity |].
  cbn [flat_map]. rewrite <- IH. reflexivity.
Qed.

Lemma decompose_all_tag (names : list string) (name : string)
    (attrs : list (string * string)) (children : list node) :
  decompose_all names (Tag name attrs children)
  = Tag name attrs
      (List.map (decompose_all names)
         (List.filter (fun c => negb (tag_named names c)) children)).
Proof.
  cbn [decompose_all]. f_equal. induction children as [| c cs IH]; [reflexivity |].
  cbn [List.filter]. destruct (tag_named names c); cbn [negb List.map]; rewrite IH; reflexivity.
Qed.

Lemma decompose_all_same_name (names : list string) (n : node) :
  tag_named names (decompose_all names n) = tag_named names n.
Proof. destruct n; reflexivity. Qed.

Lemma decompose_all_clears (names : list string) (n d : node) :
  In d (descendants (decompose_all names n)) -> tag_named names d = false.
Proof.
  revert d. induction n as [s | name attrs children IH] using node_children_ind; intros d.
  - intros [].
  - rewrite decompose_all_tag, descendants_tag. intros Hd.
    apply in_flat_map in Hd as (c' & Hc' & Hd).
    apply in_map_iff in Hc' as (c & <- & Hc).
    apply filter_In in Hc as [Hc Hkeep].
    destruct Hd as [<- | Hd].
    + rewrite decompose_all_same_name. apply negb_true_iff, Hkeep.
    + rewrite List.Forall_forall in IH. apply (IH c Hc d Hd).
Qed.

Lemma decompose_all_nothing (names : list string) (n : node) :
  (forall d, In d (descendants n) -> tag_named names d = false) ->
  decompose_all names n = n.
Proof.
  induction n as [s | name attrs children IH] using node_children_ind; intros Hclean.
  - reflexivity.
  - rewrite decompose_all_tag. f_equal. rewrite descendants_tag in Hclean.
    induction children as [| c cs IHcs]; [reflexivity |].
    inversion IH as [| c' cs' Hc Hcs]; subst.
    cbn [List.filter].
    rewrite (Hclean c) by (cbn [flat_map]; left; reflexivity).
    cbn [negb List.map]. f_equal.
    + apply Hc. intros d Hd. apply Hclean. cbn [flat_map]. right.
      apply in_or_app. left. exact Hd.
    + apply IHcs; [exact Hcs |]. intros d Hd. apply Hclean. cbn [flat_map]. right.
      apply in_or_app. right. exact Hd.
Qed.

Lemma filter_none {A : Type} (f : A -> bool) (l : list A) :
  (forall x, In x l -> f x = false) -> List.filter f l = [].
Proof.
  induction l as [| x l IH]; intros H; [reflexivity |]. cbn [List.filter].
  rewrite (H x) by (left; reflexivity). apply IH. intros y Hy. apply H. right. exact Hy.
Qed.

Lemma outline_tag (inside : list string) (name : string) (attrs : list (string * string))
    (children : list node) :
  outline inside (Tag name attrs children)
  = flat_map (fun c => (inside, label_of c) :: outline (below inside c) c) children.
Proof.
  cbn [outline]. induction children as [| c cs IH]; [reflexivity |].
  cbn [flat_map]. rewrite <- IH. reflexivity.
Qed.

(** Every entry of an outline lies inside of what the root lies inside of. *)
Lemma outline_inside (n : node) :
  forall inside entry, In entry (outline inside n) -> exists deeper, fst entry = (inside ++ deeper)%list.
Proof.
  induction n as [s | name attrs children IH] using node_children_ind; intros inside entry.
  - intros [].
  - rewrite outline_tag. intros Hin. apply in_flat_map in Hin as (c & Hc & Hin).
    destruct Hin as [<- | Hin].
    + exists []. cbn [fst]. rewrite app_nil_r. reflexivity.
    + rewrite List.Forall_forall in IH. destruct (IH c Hc _ _ Hin) as (deeper & ->).
      destruct c as [text | t a cs]; cbn [below].
      * exists deeper. reflexivity.
      * exists (t :: deeper). rewrite <- app_assoc. reflexivity.
Qed.

(** Below a tag with one of the names, nothing is outside. *)
Lemma outline_of_unwanted (names : list string) (n : node) (inside : list string) :
  existsb (listed names) inside = true ->
  List.filter (outside names) (outline inside n) = [].
Proof.
  intros Hin. apply filter_none. intros entry Hentry.
  destruct (outline_inside n inside entry Hentry) as (deeper & Hpath).
  unfold outside. rewrite Hpath, existsb_app, Hin. reflexivity.
Qed.

Lemma decompose_all_outline (names : list string) (n : node) :
  forall inside,
    existsb (listed names) inside = false ->
    outline inside (decompose_all names n)
    = List.filter (outside names) (outline inside n).
Proof.
  induction n as [s | name attrs children IH] using node_children_ind; intros inside Hclean.
  - reflexivity.
  - rewrite decompose_all_tag, !outline_tag.
    induction children as [| c cs IHcs]; [reflexivity |].
    inversion IH as [| c' cs' Hc Hcs]; subst.
    cbn [flat_map]. rewrite List.filter_app.
    change (List.filter (outside names) ((inside, label_of c) :: outline (below inside c) c))
      with (if outside names (inside, label_of c)
            then (inside, label_of c)
                 :: List.filter (outside names) (outline (below inside c) c)
            else List.filter (outside names) (outline (below inside c) c)).
    change (List.filter (fun c0 => negb (tag_named names c0)) (c :: cs))
      with (if negb (tag_named names c)
            then c :: List.filter (fun c0 => negb (tag_named names c0)) cs
            else List.filter (fun c0 => negb (tag_named names c0)) cs).
    destruct (tag_named names c) eqn:Hname; cbn [negb List.map flat_map].
    + destruct c as [text | t a grand]; [discriminate Hname |].
      cbn [tag_named] in Hname. fold (listed names t) in Hname.
      assert (Hdrop : outside names (inside, label_of (Tag t a grand)) = false)
        by (unfold outside; cbn [fst snd label_of]; rewrite Hname; apply andb_false_r).
      rewrite Hdrop, outline_of_unwanted.
      * apply (IHcs Hcs).
      * cbn [below]. rewrite existsb_app. cbn [existsb].
        rewrite Hname, orb_true_r. reflexivity.
    + assert (Hlabel : label_of (decompose_all names c) = label_of c)
        by (destruct c; reflexivity).
      assert (Hbelow : below inside (decompose_all names c) = below inside c)
        by (destruct c; reflexivity).
      assert (Hdeeper : existsb (listed names) (below inside c) = false).
      { destruct c as [text | t a grand]; cbn [below]; [exact Hclean |].
        cbn [tag_named] in Hname. fold (listed names t) in Hname.
        rewrite existsb_app, Hclean. cbn [existsb]. rewrite Hname. reflexivity. }
      assert (Hkept : outside names (inside, label_of c) = true).
      { unfold outside. cbn [fst snd]. rewrite Hclean.
        destruct c as [text | t a grand]; cbn [label_of negb andb]; [reflexivity |].
        cbn [tag_named] in Hname. fold (listed names t) in Hname. rewrite Hname. reflexivity. }
      rewrite Hkept, Hlabel, Hbelow, (Hc _ Hdeeper). cbn [app]. f_equal. f_equal.
      apply (IHcs Hcs).
Qed.

(** X6.  The removal loop removes the elements with one of the names,
    with all that is below them, and nothing else.  In the tree it
    leaves, no element at any depth has one of the names; a tree that
    has none of them is left as it is; and the outline of the tree it
    leaves is the outline of the tree given, in the same order, without
    the tags of those names and without what lies inside of them: every
    other tag, with its attributes, and every other text stays where it
    was. *)
Theorem unwanted_elements_removed (names : list string) (soup : node) :
  find_all names (decompose_all names soup) = []
  /\ (find_all names soup = [] -> decompose_all names soup = soup)
  /\ outline [] (decompose_all names soup) = List.filter (outside names) (outline [] soup).
Proof.
  split; [| split].
  - unfold find_all. apply filter_none. intros d. apply decompose_all_clears.
  - unfold find_all. intros Hnone. apply decompose_all_nothing. intros d Hd.
    destruct (tag_named names d) eqn:Hname; [| reflexivity].
    assert (Hin : In d (List.filter (tag_named names) (descendants soup)))
      by (apply filter_In; split; assumption).
    rewrite Hnone in Hin. destruct Hin.
  - apply decompose_all_outline. reflexivity.
Qed.

Lemma unwanted_elements_removed_witness :
  find_all unwanted_elements (decompose_all unwanted_elements Demo.page_tree) = []
  /\ decompose_all ["video"] Demo.page_tree = Demo.page_tree
  /\ outline [] (decompose_all unwanted_elements Demo.page_tree)
     = List.filter (outside unwanted_elements) (outline [] Demo.page_tree).
Proof.
  split; [| split].
  - apply (unwanted_elements_removed unwanted_elements Demo.page_tree).
  - apply (unwanted_elements_removed ["video"] Demo.page_tree). reflexivity.
  - apply (unwanted_elements_removed unwanted_elements Demo.page_tree).
Defined.

(** ** The fragments of the extractor *)

(** Every fragment of method 1 comes from the container of one of the
    selectors, or was there before. *)
Lemma method1_origin (soup : node) (selectors : list selector) (content_text : list string)
    (text : string) :
  In text (method1 soup selectors content_text) ->
  In text content_text
  \/ exists sel article_elem,
       In sel selectors /\ select_one sel soup = Some article_elem
       /\ In text (container_texts article_elem).
Proof.
  revert content_text. induction selectors as [| sel rest IH]; intros content_text Hin.
  - left. exact Hin.
  - cbn [method1] in Hin. destruct (select_one sel soup) as [article_elem |] eqn:Hsel.
    + assert (Hnew : In text (content_text ++ container_texts article_elem) ->
                     In text content_text
                     \/ exists sel0 e, In sel0 (sel :: rest) /\ select_one sel0 soup = Some e
                                       /\ In text (container_texts e)).
      { intros H. apply in_app_or in H as [H | H]; [left; exact H |].
        right. exists sel, article_elem. split; [left; reflexivity | split; assumption]. }
      destruct (content_text ++ container_texts article_elem)%list as [| x l] eqn:Hacc.
      * destruct (IH [] Hin) as [[] | (sel0 & e & H0 & H1 & H2)].
        right. exists sel0, e. split; [right; exact H0 | split; assumption].
      * apply Hnew, Hin.
    + destruct (IH content_text Hin) as [H | (sel0 & e & H0 & H1 & H2)]; [left; exact H |].
      right. exists sel0, e. split; [right; exact H0 | split; assumption].
Qed.

Lemma container_texts_clean (article_elem : node) (text : string) :
  In text (container_texts article_elem) ->
  long_enough text = true /\ is_clean text = true.
Proof.
  unfold container_texts. intros H. apply filter_In in H as [H Hlong].
  split; [exact Hlong |]. apply in_map_iff in H as (p & <- & _). apply clean_text_tidy.
Qed.

Lemma render_content_first15 (content_text : list string) :
  render_content (firstn 15 content_text) = render_content content_text.
Proof.
  unfold render_content. destruct content_text as [| x l]; [reflexivity |].
  change (firstn 15 (x :: l)) with (x :: firstn 14 l) at 1.
  cbv beta iota. rewrite firstn_firstn. reflexivity.
Qed.

(** X7.  Every fragment the extractor keeps is longer than 50
    characters and tidy; the fragments of method 2, used when method 1
    found nothing, carry none of the boilerplate markers in any letter
    case; and the text returned depends on the first 15 fragments only. *)
Theorem fragments_are_long_and_clean (soup : node) :
  (forall text, In text (content_fragments soup) ->
     (50 < String.length text)%nat /\ is_clean text = true)
  /\ (method1 soup article_selectors [] = [] ->
      forall text marker,
        In text (content_fragments soup) -> In marker boilerplate_markers ->
        PyStr.contains marker (PyStr.lower text) = false)
  /\ render_content (firstn 15 (content_fragments soup))
     = render_content (content_fragments soup).
Proof.
  split; [| split; [| apply render_content_first15]].
  - intros text Hin. unfold content_fragments in Hin.
    assert (Hgoal : long_enough text = true /\ is_clean text = true).
    { destruct (method1 soup article_selectors []) as [| x l] eqn:Hm1.
      - unfold method2 in Hin. apply filter_In in Hin as [Hin Hkeep].
        apply andb_true_iff in Hkeep as [Hlong _]. split; [exact Hlong |].
        apply in_map_iff in Hin as (p & <- & _). apply clean_text_tidy.
      - rewrite <- Hm1 in Hin.
        destruct (method1_origin _ _ _ _ Hin) as [[] | (sel & e & _ & _ & Htext)].
        apply (container_texts_clean _ _ Htext). }
    destruct Hgoal as [Hlong Hclean]. split; [| exact Hclean].
    unfold long_enough in Hlong. apply Nat.ltb_lt in Hlong. exact Hlong.
  - intros Hm1 text marker Hin Hmarker. unfold content_fragments in Hin. rewrite Hm1 in Hin.
    unfold method2 in Hin. apply filter_In in Hin as [_ Hkeep].
    apply andb_true_iff in Hkeep as [_ Hclean]. apply negb_true_iff in Hclean.
    destruct (PyStr.contains marker (PyStr.lower text)) eqn:Hc; [| reflexivity].
    assert (Hex : existsb (fun unwanted => PyStr.contains unwanted (PyStr.lower text))
                    boilerplate_markers = true)
      by (apply existsb_exists; exists marker; split; assumption).
    rewrite Hex in Hclean. discriminate Hclean.
Qed.

Lemma fragments_are_long_and_clean_witness :
  (50 < String.length Demo.para1)%nat /\ is_clean Demo.para1 = true.
Proof.
  destruct (fragments_are_long_and_clean (decompose_all unwanted_elements Demo.page_tree))
    as [Hall _].
  apply Hall.
  change (content_fragments (decompose_all unwanted_elements Demo.page_tree))
    with [Demo.para1; Demo.para2; Demo.para3].
  left. reflexivity.
Defined.

Lemma method1_skip (soup : node) (earlier rest : list selector) :
  (forall sel, In sel earlier ->
     match select_one sel soup with
     | Some article_elem => container_texts article_elem = []
     | None => True
     end) ->
  method1 soup (earlier ++ rest) [] = method1 soup rest [].
Proof.
  induction earlier as [| sel earlier IH]; intros Hnone; [reflexivity |].
  cbn [app method1]. pose proof (Hnone sel (or_introl eq_refl)) as Hsel.
  destruct (select_one sel soup) as [article_elem |].
  - rewrite Hsel. cbn [app]. apply IH. intros s Hs. apply Hnone. right. exact Hs.
  - apply IH. intros s Hs. apply Hnone. right. exact Hs.
Qed.

(** X8.  The first selector of the list whose container gives a
    fragment decides the result: the fragments are exactly those of that
    container, in document order; the selectors after it are not tried,
    text outside the container is left out, and method 2 is not used. *)
Theorem first_matching_selector_wins (soup : node) (earlier later : list selector)
    (sel : selector) (article_elem : node) :
  article_selectors = (earlier ++ sel :: later)%list ->
  (forall sel', In sel' earlier ->
     match select_one sel' soup with
     | Some other => container_texts other = []
     | None => True
     end) ->
  select_one sel soup = Some article_elem ->
  container_texts article_elem <> [] ->
  content_fragments soup = container_texts article_elem.
Proof.
  intros Hsplit Hearlier Hsel Hsome. unfold content_fragments.
  rewrite Hsplit, (method1_skip _ _ _ Hearlier). cbn [method1]. rewrite Hsel. cbn [app].
  destruct (container_texts article_elem) as [| x l]; [contradiction | reflexivity].
Qed.

Lemma first_matching_selector_wins_witness :
  content_fragments (decompose_all unwanted_elements Demo.page_tree)
  = [Demo.para1; Demo.para2; Demo.para3].
Proof.
  rewrite (first_matching_selector_wins (decompose_all unwanted_elements Demo.page_tree)
             [] (tl article_selectors) (SelTag "article")
             (Tag "article" []
                [ Tag "p" [] [Text Demo.para1]; Tag "p" [] [Text Demo.para2];
                  Tag "p" [] [Text Demo.para3] ])).
  - reflexivity.
  - reflexivity.
  - intros sel' [].
  - reflexivity.
  - discriminate.
Defined.

(** ** The feed harvest, feed by feed *)

(** A loop whose body takes the invariant from one index to the next. *)
Lemma hoare_for_each_indexed {S A : Type} (I : nat -> S -> Prop) (E : S -> Prop)
    (xs : list A) (body : A -> M S unit) :
  (forall x n, In x xs -> hoare (I n) (body x) (fun _ => I (Datatypes.S n)) E) ->
  forall n, hoare (I n) (for_each xs body) (fun _ => I (n + length xs)%nat) E.
Proof.
  induction xs as [| x xs IH]; intros Hbody n; cbn [for_each length].
  - intros s Hs. cbn. rewrite Nat.add_0_r. exact Hs.
  - eapply hoare_bind; [apply Hbody; left; reflexivity |].
    intros u. eapply hoare_conseq.
    + apply (IH (fun y k Hy => Hbody y k (or_intror Hy)) (Datatypes.S n)).
    + auto.
    + intros a s Hs. cbn beta in *. replace (n + Datatypes.S (length xs))%nat
        with (Datatypes.S n + length xs)%nat by lia. exact Hs.
    + auto.
Qed.

Lemma rss_inv_weaken (w : World) (self : scraper) (s0 : St) (count count' sent sent' : nat)
    (f : Frame (list (gmap string pyval))) :
  (count <= count')%nat -> (sent' <= sent)%nat ->
  rss_inv w self s0 count sent f -> rss_inv w self s0 count' sent' f.
Proof.
  intros Hc Hs (H1 & H2 & H3 & H4). repeat split; [exact H1 | exact H2 | lia | lia].
Qed.

(** A change of the log alone keeps the invariant. *)
Lemma rss_inv_logged (w : World) (self : scraper) (s0 : St) (count sent : nat) (g : St) (records : list (level * string))
    (l : list (gmap string pyval)) :
  rss_inv w self s0 count sent (mkFrame g l) -> rss_inv w self s0 count sent (mkFrame (with_log g records) l).
Proof. intros H. exact H. Qed.

Lemma rss_item_step (w : World) (self : scraper) (source_name : string) (item : node)
    (s0 : St) (count sent : nat) :
  In source_name (List.map fst rss_sources) ->
  hoare (rss_inv w self s0 count sent) (rss_item w self source_name item)
    (fun _ => rss_inv w self s0 (Datatypes.S count) sent) (fun _ => False).
Proof.
  intros Hname f Hf.
  assert (Hsame : rss_inv w self s0 (Datatypes.S count) sent f)
    by (apply (rss_inv_weaken w self s0 count _ sent sent f); [lia | lia | exact Hf]).
  unfold rss_item.
  destruct (find "title" item) as [title_elem |]; [| exact Hsame].
  destruct (find "link" item) as [link_elem |]; [| exact Hsame].
  rewrite run_bind. unfold lift_exc at 1.
  destruct (in_timeframe_total w self
              match find "pubDate" item with
              | Some pub_date_elem => get_text pub_date_elem
              | None => EmptyString
              end) as [in_timeframe Hcheck].
  rewrite Hcheck. destruct in_timeframe; cbn [negb]; [| exact Hsame].
  destruct (title_has_keyword _) eqn:Hkey; [| exact Hsame].
  rewrite run_bind, run_lift.
  destruct (hoare_total_run _ _ (glob f) (extract_content_spec w (get_text link_elem)))
    as (text & s' & Hrun & Htext).
  destruct (extract_effects w (get_text link_elem) (glob f)) as (Hreq & Hslept & _).
  rewrite Hrun in Hreq, Hslept. cbn [snd] in Hreq, Hslept.
  rewrite Hrun. cbn [fst snd].
  rewrite run_bind. unfold append_article at 1. rewrite run_bind.
  unfold get_locals, set_locals. cbn [loc glob]. rewrite run_lift. cbn [fst snd sleep loc glob].
  destruct Hf as (H1 & H2 & H3 & H4). unfold rss_inv. cbn [glob loc slept requests].
  rewrite List.length_app. cbn [length]. repeat split.
  - rewrite Hslept, H1, Nat.add_1_r, replicate_S_end, app_assoc. reflexivity.
  - apply Forall_app. split; [exact H2 |]. constructor; [| constructor].
    eexists _, _, _, _, _, _. split; [reflexivity |].
    split; [exact Hname |]. split; [exact Hkey |].
    split; [apply clean_text_tidy |].
    split; [exact Hcheck |].
    split; [| exact Htext].
    destruct (find "description" item); [apply clean_text_tidy | reflexivity].
  - lia.
  - destruct (is_redirect_url (get_text link_elem)); lia.
Qed.

Lemma rss_source_step (w : World) (self : scraper) (source : string * string)
    (s0 : St) (count sent : nat) :
  In source rss_sources ->
  hoare (rss_inv w self s0 count sent) (rss_source w self source)
    (fun _ => rss_inv w self s0 (count + 30) (Datatypes.S sent)) (fun _ => False).
Proof.
  intros Hsource. destruct source as [source_name rss_url]. unfold rss_source.
  assert (Hname : In source_name (List.map fst rss_sources))
    by (apply in_map_iff; exists (source_name, rss_url); split; [reflexivity | exact Hsource]).
  eapply hoare_try_except with (E' := rss_inv w self s0 (count + 30) (Datatypes.S sent)).
  - eapply hoare_bind with (R := fun _ => rss_inv w self s0 count sent).
    { intros [g l] Hf. rewrite run_lift_logger. apply rss_inv_logged. exact Hf. }
    intros u. eapply hoare_bind with (R := fun _ => rss_inv w self s0 count (Datatypes.S sent)).
    { intros f (H1 & H2 & H3 & H4). rewrite run_lift. unfold session_get. cbn [fst snd loc].
      destruct (http_get w _ _); unfold rss_inv; cbn [glob loc slept requests];
        repeat split; try assumption; lia. }
    intros response. eapply hoare_bind with (R := fun _ => rss_inv w self s0 count (Datatypes.S sent)).
    { intros f Hf. unfold lift_exc. destruct (raise_for_status response);
        [exact Hf | apply (rss_inv_weaken _ _ _ _ _ _ _ _ (Nat.le_add_r _ _) (le_n _) Hf)]. }
    intros u'. eapply hoare_bind with (R := fun _ => rss_inv w self s0 count (Datatypes.S sent)).
    { intros f Hf. unfold lift_exc. destruct (xml_parser w (content response));
        [exact Hf | apply (rss_inv_weaken _ _ _ _ _ _ _ _ (Nat.le_add_r _ _) (le_n _) Hf)]. }
    intros soup. eapply hoare_conseq.
    + apply (hoare_for_each_indexed
               (fun n => rss_inv w self s0 (count + n) (Datatypes.S sent)) (fun _ => False)).
      intros item n _. eapply hoare_conseq.
      * apply (rss_item_step w self source_name item s0 (count + n) (Datatypes.S sent) Hname).
      * auto.
      * intros a f Hf. cbn beta. replace (count + Datatypes.S n)%nat
          with (Datatypes.S (count + n)) by lia. exact Hf.
      * auto.
    + intros f Hf. cbn beta. rewrite Nat.add_0_r. exact Hf.
    + intros a f Hf. cbn beta in Hf. eapply rss_inv_weaken; [| apply le_n | exact Hf].
      pose proof (firstn_le_length 30 (find_all ["item"] soup)). lia.
    + intros f [].
  - intros e [g l] Hf. rewrite run_lift_logger. apply rss_inv_logged. exact Hf.
Qed.

(** The feed harvest as a whole. *)
Lemma search_direct_rss_feeds_full (w : World) (self : scraper) (s : St) :
  exists found s',
    search_direct_rss_feeds w self s = (Ret found, s')
    /\ rss_inv w self s 210 7 (mkFrame s' found).
Proof.
  unfold search_direct_rss_feeds, with_locals.
  pose proof (hoare_for_each_indexed
                (fun n => rss_inv w self s (30 * n) n) (fun _ => False)
                rss_sources (rss_source w self)) as Hloop.
  assert (Hbody : forall x n, In x rss_sources ->
            hoare (rss_inv w self s (30 * n) n) (rss_source w self x)
              (fun _ => rss_inv w self s (30 * Datatypes.S n) (Datatypes.S n)) (fun _ => False)).
  { intros x n Hx. eapply hoare_conseq; [apply (rss_source_step w self x s (30 * n) n Hx) | ..].
    - auto.
    - intros a f Hf. cbn beta. replace (30 * Datatypes.S n)%nat with (30 * n + 30)%nat by lia.
      exact Hf.
    - auto. }
  specialize (Hloop Hbody 0%nat (mkFrame s [])).
  rewrite run_bind.
  destruct (for_each rss_sources (rss_source w self) (mkFrame s [])) as [[u | e] [g l]].
  - exists l, g. split; [reflexivity |]. apply Hloop.
    unfold rss_inv. cbn. rewrite app_nil_r. repeat split; [constructor | lia | lia].
  - exfalso. apply Hloop.
    unfold rss_inv. cbn. rewrite app_nil_r. repeat split; [constructor | lia | lia].
Qed.

Lemma feed_harvest_records (w : World) (self : scraper) (s : St) :
  exists found s',
    search_direct_rss_feeds w self s = (Ret found, s')
    /\ forall article, In article found -> feed_record w self article.
Proof.
  destruct (search_direct_rss_feeds_full w self s) as (found & s' & Hrun & _ & Hall & _).
  exists found, s'. split; [exact Hrun |]. apply List.Forall_forall. exact Hall.
Qed.

(** X9.  Every record the feed harvester returns has the six string
    fields, the name of a configured feed as its source, a tidy title in
    which one of the keywords occurs whatever the letter case, a date
    that passed the check of the window, a tidy description and a
    content that is not empty: an item without a keyword in its title, or
    dated before the window, gives no record. *)
Theorem feed_records_are_on_topic (w : World) (self : scraper) (s : St) :
  exists found s',
    search_direct_rss_feeds w self s = (Ret found, s')
    /\ forall article, In article found -> feed_record w self article.
Proof. exact (feed_harvest_records w self s). Qed.

(** X10.  The feed harvester pauses two seconds once for each record
    it returns, and at no other time. *)
Theorem feed_harvest_pauses (w : World) (self : scraper) (s : St) :
  exists found s',
    search_direct_rss_feeds w self s = (Ret found, s')
    /\ slept s' = (slept s ++ replicate (length found) 2)%list.
Proof.
  destruct (search_direct_rss_feeds_full w self s) as (found & s' & Hrun & Hslept & _).
  exists found, s'. split; [exact Hrun | exact Hslept].
Qed.

Lemma for_each_turns {A S : Type} (R : A -> S -> S -> Prop) (xs : list A)
    (body : A -> M S unit) :
  (forall x s, In x xs -> exists s', body x s = (Ret tt, s') /\ R x s s') ->
  forall s, exists s', for_each xs body s = (Ret tt, s') /\ turns R xs s s'.
Proof.
  induction xs as [| x xs IH]; intros Hbody s.
  - exists s. split; [reflexivity | constructor].
  - destruct (Hbody x s (or_introl eq_refl)) as (s1 & Hrun & Hturn).
    destruct (IH (fun y t Hy => Hbody y t (or_intror Hy)) s1) as (s2 & Hrest & Hturns).
    exists s2. cbn [for_each]. rewrite run_bind, Hrun. split; [exact Hrest |].
    econstructor; eassumption.
Qed.

Lemma grown_refl (source_name : string) (f : Frame (list (gmap string pyval))) :
  grown source_name 0 f f.
Proof.
  exists [], []. rewrite !app_nil_r. cbn. repeat split; [lia | intros a [] | lia].
Qed.

Lemma grown_trans (source_name : string) (n m : nat)
    (f f' f'' : Frame (list (gmap string pyval))) :
  grown source_name n f f' -> grown source_name m f' f'' -> grown source_name (n + m) f f''.
Proof.
  intros (p1 & x1 & Hl1 & Hn1 & Hs1 & Hg1 & Hr1) (p2 & x2 & Hl2 & Hn2 & Hs2 & Hg2 & Hr2).
  exists (p1 ++ p2)%list, (x1 ++ x2)%list.
  rewrite Hl2, Hl1, Hg2, Hg1, Hr2, Hr1, List.filter_app, !List.length_app, <- !app_assoc.
  repeat split; [lia | | lia].
  intros a Ha. apply in_app_or in Ha as [Ha | Ha]; auto.
Qed.

(** One item of a feed. *)
Lemma rss_item_grown (w : World) (self : scraper) (source_name : string) (item : node)
    (f : Frame (list (gmap string pyval))) :
  exists f', rss_item w self source_name item f = (Ret tt, f') /\ grown source_name 1 f f'.
Proof.
  assert (Hsame : exists f', (Ret tt, f) = (Ret tt, f') /\ grown source_name 1 f f').
  { exists f. split; [reflexivity |].
    apply (grown_trans source_name 0 1 f f f (grown_refl _ _)).
    exists [], []. rewrite !app_nil_r. cbn. repeat split; [lia | intros a [] | lia]. }
  unfold rss_item.
  destruct (find "title" item) as [title_elem |]; [| exact Hsame].
  destruct (find "link" item) as [link_elem |]; [| exact Hsame].
  rewrite run_bind. unfold lift_exc at 1.
  destruct (in_timeframe_total w self
              match find "pubDate" item with
              | Some pub_date_elem => get_text pub_date_elem
              | None => EmptyString
              end) as [in_timeframe Hcheck].
  rewrite Hcheck. destruct in_timeframe; cbn [negb]; [| exact Hsame].
  destruct (title_has_keyword _); [| exact Hsame].
  set (url := get_text link_elem).
  pose proof (extract_effects w url (glob f)) as (Hreq & _ & Hout). cbn zeta in Hreq, Hout.
  destruct (extract_content_from_url w url (glob f)) as [r s'] eqn:Hrun.
  cbn [fst snd] in Hreq, Hout.
  assert (Hlog : exists text extra, r = Ret text /\ log s' = (log (glob f) ++ extra)%list).
  { destruct ((extract_content_body w url (glob f)).1) as [text | e];
      destruct Hout as [-> Hlog]; do 2 eexists; split; try reflexivity.
    - rewrite Hlog, app_nil_r. reflexivity.
    - exact Hlog. }
  destruct Hlog as (text & extra & -> & Hlog).
  rewrite run_bind, run_lift, Hrun. cbn [fst snd].
  rewrite run_bind. unfold append_article at 1. rewrite run_bind.
  unfold get_locals, set_locals. cbn [loc glob]. rewrite run_lift. cbn [fst snd sleep loc glob].
  eexists. split; [reflexivity |].
  eexists [_], extra. cbn [loc glob log requests]. split; [reflexivity |].
  split; [cbn; lia |]. split.
  { intros a [<- | []]. unfold list_to_map. cbn [foldr fst snd uncurry].
    repeat (rewrite lookup_insert_ne by discriminate). apply lookup_insert_eq. }
  split; [exact Hlog |].
  rewrite Hreq. cbn [List.filter]. unfold page_fetched. rewrite record_url.
  unfold url. destruct (is_redirect_url (get_text link_elem)); cbn; lia.
Qed.

Lemma rss_items_grown (w : World) (self : scraper) (source_name : string) (items : list node) :
  forall f,
    exists f',
      for_each items (rss_item w self source_name) f = (Ret tt, f')
      /\ grown source_name (length items) f f'.
Proof.
  induction items as [| item items IH]; intros f.
  - exists f. split; [reflexivity | apply grown_refl].
  - destruct (rss_item_grown w self source_name item f) as (f1 & Hrun & Hone).
    destruct (IH f1) as (f2 & Hrest & Hmore).
    exists f2. cbn [for_each]. rewrite run_bind, Hrun. split; [exact Hrest |].
    apply (grown_trans source_name 1 (length items) f f1 f2 Hone Hmore).
Qed.

(** One feed. *)
Lemma rss_source_turn (w : World) (self : scraper) (source : string * string)
    (f : Frame (list (gmap string pyval))) :
  exists f', rss_source w self source f = (Ret tt, f') /\ feed_turn w self source f f'.
Proof.
  destruct source as [source_name rss_url]. unfold rss_source, try_except, feed_turn.
  cbn [fst snd].
  rewrite run_bind, run_lift_logger. rewrite run_bind, run_lift. unfold session_get.
  cbn [fst snd glob loc with_log requests log slept].
  fold (fetching source_name).
  set (f1 := mkFrame
               (mkSt (log (glob f) ++ [fetching source_name])
                  (Datatypes.S (requests (glob f))) (slept (glob f)))
               (loc f)).
  set (request := mkRequest rss_url [] [] 15 true).
  assert (Hfailed : forall e0,
            (forall e, http_get w (requests (glob f)) request = Raise e -> e = e0) ->
            exists f',
              lift (logger ERROR ("Error with RSS from " ++ source_name ++ ": " ++ exn_str e0)) f1
              = (Ret tt, f')
              /\ exists part rest,
                   loc f' = (loc f ++ part)%list
                   /\ (length part <= 30)%nat
                   /\ (forall a, In a part -> a !! "source" = Some (PStr source_name))
                   /\ log (glob f') = (log (glob f) ++ fetching source_name :: rest)%list
                   /\ requests (glob f')
                      = Datatypes.S (requests (glob f) + length (List.filter page_fetched part))
                   /\ (forall e,
                         http_get w (requests (glob f)) request = Raise e ->
                         part = [] /\ rest = [feed_error source_name e])).
  { intros e0 Hsame. rewrite run_lift_logger. eexists. split; [reflexivity |].
    exists [], [feed_error source_name e0].
    cbn [f1 glob loc with_log log requests List.filter length].
    rewrite app_nil_r, <- app_assoc.
    repeat split; [lia | intros a [] | lia |].
    rewrite (Hsame e H). reflexivity. }
  destruct (http_get w (requests (glob f)) request) as [response | e] eqn:Hget.
  2:{ apply (Hfailed e). intros e' He'. congruence. }
  rewrite run_bind. unfold lift_exc at 1.
  destruct (raise_for_status response) as [[] | e].
  2:{ apply (Hfailed e). intros e' He'. discriminate He'. }
  rewrite run_bind. unfold lift_exc at 1.
  destruct (xml_parser w (content response)) as [soup | e].
  2:{ apply (Hfailed e). intros e' He'. discriminate He'. }
  destruct (rss_items_grown w self source_name (firstn 30 (find_all ["item"] soup)) f1)
    as (f' & Hrun & part & extra & Hloc & Hlen & Hsrc & Hlog & Hreq).
  rewrite Hrun. exists f'. split; [reflexivity |].
  exists part, extra. cbn [f1 glob loc log requests] in Hloc, Hlog, Hreq.
  split; [exact Hloc |]. split.
  { pose proof (firstn_le_length 30 (find_all ["item"] soup)). lia. }
  split; [exact Hsrc |]. split; [rewrite Hlog, <- app_assoc; reflexivity |].
  split; [rewrite Hreq; lia |].
  intros e He. discriminate He.
Qed.

(** X11.  The feed harvest is one turn for each of the seven feeds, in
    their order, whatever happened to the feeds before.  In its turn a
    feed has its name logged, is asked for once, with the request that
    comes next in the run, and gives at most thirty records, all under
    its name; beside that request the turn sends one request for each of
    its records whose page is fetched, and no other.  When the request
    for the feed fails, the feed gives no record and the error is logged
    under its name.  Hence a harvest returns at most 210 records and
    sends at least seven requests. *)
Theorem feed_harvest_bounds (w : World) (self : scraper) (s : St) :
  exists found s',
    search_direct_rss_feeds w self s = (Ret found, s')
    /\ turns (feed_turn w self) rss_sources (mkFrame s []) (mkFrame s' found)
    /\ (length found <= 30 * length rss_sources)%nat
    /\ (requests s + length rss_sources <= requests s')%nat.
Proof.
  destruct (search_direct_rss_feeds_full w self s)
    as (found & s' & Hrun & _ & _ & Hcount & Hsent).
  exists found, s'. split; [exact Hrun |]. split; [| split; [exact Hcount | exact Hsent]].
  unfold search_direct_rss_feeds, with_locals in Hrun.
  destruct (for_each_turns (feed_turn w self) rss_sources (rss_source w self)
              (fun x f _ => rss_source_turn w self x f) (mkFrame s []))
    as ([g l] & Hloop & Hturns).
  rewrite run_bind, Hloop in Hrun. cbn in Hrun. inversion Hrun; subst. exact Hturns.
Qed.

(** ** The API harvest *)

Lemma api_harvest_effects (w : World) (self : scraper) (query : string) (s : St) :
  (getenv w "NEWS_API_KEY" = None \/ getenv w "NEWS_API_KEY" = Some EmptyString ->
   search_news_api w self query s
   = (Ret [], with_log s [(WARNING, "NEWS_API_KEY not found - skipping NewsAPI")]))
  /\ (forall c k, getenv w "NEWS_API_KEY" = Some (String c k) ->
        requests (search_news_api w self query s).2 = Datatypes.S (requests s))
  /\ slept (search_news_api w self query s).2 = slept s.
Proof.
  rewrite search_news_api_run. split; [| split].
  - intros [-> | ->]; reflexivity.
  - intros c k ->. cbn zeta.
    destruct (http_get w (requests s) _) as [response |]; [| reflexivity].
    destruct (raise_for_status response); [| reflexivity].
    destruct (json_loads w (content response)) as [data |]; [| reflexivity].
    destruct (api_failure _); reflexivity.
  - destruct (getenv w "NEWS_API_KEY") as [[| c k] |]; try reflexivity. cbn zeta.
    destruct (http_get w (requests s) _) as [response |]; [| reflexivity].
    destruct (raise_for_status response); [| reflexivity].
    destruct (json_loads w (content response)) as [data |]; [| reflexivity].
    destruct (api_failure _); reflexivity.
Qed.

(** X12.  Without an API key, unset or empty, the API harvester returns
    no record, sends no request and logs one warning; with a key it
    sends exactly one request, whatever the answer.  It never pauses. *)
Theorem api_harvest_requests (w : World) (self : scraper) (query : string) (s : St) :
  (getenv w "NEWS_API_KEY" = None \/ getenv w "NEWS_API_KEY" = Some EmptyString ->
   search_news_api w self query s
   = (Ret [], with_log s [(WARNING, "NEWS_API_KEY not found - skipping NewsAPI")]))
  /\ (forall c k, getenv w "NEWS_API_KEY" = Some (String c k) ->
        requests (search_news_api w self query s).2 = Datatypes.S (requests s))
  /\ slept (search_news_api w self query s).2 = slept s.
Proof. exact (api_harvest_effects w self query s). Qed.

Lemma api_harvest_requests_witness :
  search_news_api Cases.world_without_key Demo.week_scraper "zepto" Demo.start_state
  = (Ret [], with_log Demo.start_state
               [(WARNING, "NEWS_API_KEY not found - skipping NewsAPI")])
  /\ requests (search_news_api Demo.world Demo.week_scraper "zepto" Demo.start_state).2 = 1%nat.
Proof.
  split.
  - apply (api_harvest_requests Cases.world_without_key Demo.week_scraper "zepto"
             Demo.start_state).
    left. reflexivity.
  - destruct (api_harvest_requests Demo.world Demo.week_scraper "zepto" Demo.start_state)
      as (_ & Hsent & _).
    apply (Hsent "s"%char "ecret"). reflexivity.
Defined.

Lemma length_append (a b : string) :
  String.length (a ++ b) = (String.length a + String.length b)%nat.
Proof. induction a as [| c a IH]; [reflexivity |]. rewrite append_cons. cbn. rewrite IH. reflexivity. Qed.

(** What is stored never holds the marker. *)
Lemma stored_content_marker_free (content text : string) :
  stored_content content = Ret (PStr text) ->
  text <> EmptyString /\ PyStr.contains truncation_marker text = false.
Proof.
  intros Hst. destruct (stored_content_value content) as (before & Hval & Hnone & Hcut).
  rewrite Hval in Hst. inversion Hst as [Htext]; clear Hst.
  split; [apply placeholder_or_text_nonempty |].
  destruct before as [| c before]; [reflexivity |]. cbn [PyStr.nonempty].
  destruct (PyStr.contains truncation_marker content) eqn:Hin.
  - destruct (Hcut eq_refl) as (after & Hsplit & Hmin).
    destruct (PyStr.contains truncation_marker (String c before)) eqn:Hagain; [| reflexivity].
    apply contains_decompose in Hagain as (b & a & Hb).
    assert (Hc : content = b ++ truncation_marker ++ (a ++ truncation_marker ++ after))
      by (rewrite Hsplit, Hb, !append_assoc'; reflexivity).
    pose proof (Hmin _ _ Hc) as Hle.
    apply (f_equal String.length) in Hb. rewrite !length_append in Hb.
    cbn in Hb, Hle. lia.
  - rewrite (Hnone eq_refl). exact Hin.
Qed.

(** The record of an API article, when there is one. *)
Lemma api_article_record (item : api_article) (article : gmap string pyval) :
  api_article_data item = Ret (Some article) ->
  usable item = true /\ a_source item <> SrcNull /\ api_record article.
Proof.
  unfold api_article_data. fold (usable item).
  destruct (usable item) eqn:Huse; [| discriminate].
  unfold usable in Huse. apply andb_true_iff in Huse as [Hu Hc].
  destruct (a_content item) as [| | content]; try discriminate Hc.
  destruct (a_url item) as [| | url]; try discriminate Hu.
  cbn [jget_default jget].
  destruct (stored_content content) as [stored | e] eqn:Hst; [| discriminate].
  cbn. destruct (a_source item) as [| | name] eqn:Hsrc; cbn; try discriminate;
    intros H; inversion H; subst; clear H;
    (split; [reflexivity |]); (split; [discriminate |]);
    destruct (stored_content_value content) as (text0 & Hval & _);
    rewrite Hval in Hst; inversion Hst; subst stored;
    destruct (stored_content_marker_free content _ Hval) as [Hne Hfree];
    (eexists _, _, _, _, _, _; split; [reflexivity |]);
    (split; [destruct url; [discriminate Hu | discriminate] |]);
    (split; [apply clean_text_tidy |]);
    (split; [apply clean_text_tidy |]);
    (split; [exact Hne | exact Hfree]).
Qed.

Lemma api_harvest_records (w : World) (self : scraper) (query : string) (s : St) :
  exists found s',
    search_news_api w self query s = (Ret found, s')
    /\ forall article, In article found -> api_record article.
Proof.
  destruct (search_news_api_value w self query s) as (found & s' & Hrun & Hfound).
  exists found, s'. split; [exact Hrun |]. intros article Hin.
  destruct Hfound as [-> | (k & r & d & _ & _ & ->)]; [destruct Hin |].
  apply list_elem_of_In in Hin.
  destruct (api_collected_from _ _ Hin) as (item & _ & Hitem).
  apply (api_article_record _ _ Hitem).
Qed.

(** X13.  Every record the API harvester returns has a URL and a
    content that are strings and not empty, a tidy title and
    description, and a content in which the truncation marker does not
    occur: the marker never reaches what is stored. *)
Theorem api_records_are_usable (w : World) (self : scraper) (query : string) (s : St) :
  exists found s',
    search_news_api w self query s = (Ret found, s')
    /\ forall article, In article found -> api_record article.
Proof. exact (api_harvest_records w self query s). Qed.

(** The three outcomes of the loop body on an API article. *)
Lemma api_article_outcome (item : api_article) :
  (usable item = false -> api_article_data item = Ret None)
  /\ (usable item = true -> a_source item = SrcNull ->
      api_article_data item
      = Raise (mkExn "AttributeError" "'NoneType' object has no attribute 'get'"))
  /\ (usable item = true -> a_source item <> SrcNull ->
      exists article, api_article_data item = Ret (Some article)).
Proof.
  unfold api_article_data. fold (usable item). split; [| split].
  - intros ->. reflexivity.
  - intros Huse Hsrc. rewrite Huse, Hsrc.
    unfold usable in Huse. apply andb_true_iff in Huse as [_ Hc].
    destruct (a_content item) as [| | content]; try discriminate Hc. cbn [jget_default].
    destruct (stored_content_value content) as (text & -> & _). reflexivity.
  - intros Huse Hsrc. rewrite Huse.
    unfold usable in Huse. apply andb_true_iff in Huse as [_ Hc].
    destruct (a_content item) as [| | content]; try discriminate Hc. cbn [jget_default].
    destruct (stored_content_value content) as (text & -> & _).
    destruct (a_source item); [| contradiction |]; cbn; eauto.
Qed.

(** Without a [null] source the loop does not fail and gives one record
    for each usable article. *)
Lemma api_collected_complete (items : list api_article) :
  (forall item, In item items -> a_source item <> SrcNull) ->
  api_failure items = None
  /\ length (api_collected items) = length (List.filter usable items).
Proof.
  induction items as [| item rest IH]; intros Hsrc; [split; reflexivity |].
  destruct IH as [IHf IHc]; [intros it Hit; apply Hsrc; right; exact Hit |].
  destruct (api_article_outcome item) as (Hskip & _ & Hok).
  cbn [api_failure api_collected List.filter]. destruct (usable item) eqn:Huse.
  - destruct (Hok eq_refl (Hsrc item (or_introl eq_refl))) as [article ->].
    split; [exact IHf |]. cbn [length]. rewrite IHc. reflexivity.
  - rewrite (Hskip eq_refl). split; [exact IHf | exact IHc].
Qed.

Lemma api_collected_app (before rest : list api_article) :
  api_failure before = None ->
  api_collected (before ++ rest) = (api_collected before ++ api_collected rest)%list
  /\ api_failure (before ++ rest) = api_failure rest.
Proof.
  induction before as [| item before IH]; intros Hok; [split; reflexivity |].
  cbn [app api_collected api_failure] in *.
  destruct (api_article_data item) as [[article |] | e]; [| | discriminate Hok];
    destruct (IH Hok) as [-> ->]; split; reflexivity.
Qed.

(** X14.  An article whose [source] is [null] ends the harvest of its
    response: the records of the articles before it are returned, those
    of the articles after it are lost, one error is logged and nothing
    is raised. *)
Theorem null_source_ends_harvest (w : World) (self : scraper) (query : string) (s : St)
    (c : ascii) (k : string) (response : Response)
    (before after : list api_article) (bad : api_article) :
  getenv w "NEWS_API_KEY" = Some (String c k) ->
  http_get w (requests s) (api_request self query (String c k)) = Ret response ->
  raise_for_status response = Ret tt ->
  json_loads w (content response) = Ret (mkApiData (Some (before ++ bad :: after)%list)) ->
  (forall item, In item before -> a_source item <> SrcNull) ->
  usable bad = true ->
  a_source bad = SrcNull ->
  search_news_api w self query s
  = (Ret (api_collected before),
     api_error_logged (mkSt (log s) (Datatypes.S (requests s)) (slept s))
       (mkExn "AttributeError" "'NoneType' object has no attribute 'get'"))
  /\ length (api_collected before) = length (List.filter usable before).
Proof.
  intros Hkey Hget Hstatus Hjson Hbefore Huse Hnull.
  destruct (api_collected_complete before Hbefore) as [Hok Hlen].
  split; [| exact Hlen].
  rewrite search_news_api_run, Hkey. cbn zeta. rewrite Hget, Hstatus, Hjson.
  cbn [articles default from_option id]. destruct (api_collected_app before (bad :: after) Hok) as [-> ->].
  destruct (api_article_outcome bad) as (_ & Hraise & _).
  cbn [api_collected api_failure]. rewrite (Hraise Huse Hnull), app_nil_r. reflexivity.
Qed.

Lemma null_source_ends_harvest_witness :
  (search_news_api Cases.world_with_null_source Demo.week_scraper "blinkit" Demo.start_state).1
  = Ret [Demo.api_story_record].
Proof.
  assert (Hbefore : forall item, In item [Demo.api_story] -> a_source item <> SrcNull)
    by (intros item [<- | []]; discriminate).
  destruct (null_source_ends_harvest Cases.world_with_null_source Demo.week_scraper "blinkit"
              Demo.start_state "s" "ecret"
              (mkResponse 200 "OK" "https://newsapi.org/v2/everything" "three stories")
              [Demo.api_story] [Cases.late_story] Cases.null_source_story
              eq_refl eq_refl eq_refl eq_refl Hbefore eq_refl eq_refl)
    as [Hrun _].
  rewrite Hrun. reflexivity.
Defined.

(** X15.  When no article of the response has a [null] source, the API
    harvester returns one record for each article that has a URL and a
    content, in the order of the response, and logs no error. *)
Theorem api_harvest_complete (w : World) (self : scraper) (query : string) (s : St)
    (c : ascii) (k : string) (response : Response) (items : list api_article) :
  getenv w "NEWS_API_KEY" = Some (String c k) ->
  http_get w (requests s) (api_request self query (String c k)) = Ret response ->
  raise_for_status response = Ret tt ->
  json_loads w (content response) = Ret (mkApiData (Some items)) ->
  (forall item, In item items -> a_source item <> SrcNull) ->
  exists found,
    search_news_api w self query s
    = (Ret found, mkSt (log s) (Datatypes.S (requests s)) (slept s))
    /\ Forall2 (fun item article => api_article_data item = Ret (Some article))
         (List.filter usable items) found.
Proof.
  intros Hkey Hget Hstatus Hjson Hsrc.
  destruct (api_collected_complete items Hsrc) as [Hok _].
  exists (api_collected items). split.
  - rewrite search_news_api_run, Hkey. cbn zeta. rewrite Hget, Hstatus, Hjson.
    cbn [articles default from_option id]. rewrite Hok. reflexivity.
  - clear Hok Hjson. induction items as [| item rest IH]; [constructor |].
    destruct (api_article_outcome item) as (Hskip & _ & Hgood).
    cbn [List.filter api_collected]. destruct (usable item) eqn:Huse.
    + destruct (Hgood eq_refl (Hsrc item (or_introl eq_refl))) as [article Harticle].
      rewrite Harticle. constructor; [exact Harticle |].
      apply IH. intros it Hit. apply Hsrc. right. exact Hit.
    + rewrite (Hskip eq_refl). apply IH. intros it Hit. apply Hsrc. right. exact Hit.
Qed.

Lemma api_harvest_complete_witness :
  (search_news_api Demo.world Demo.week_scraper "zepto" Demo.start_state).1
  = Ret [Demo.api_story_record].
Proof.
  assert (Hsrc : forall item, In item [Demo.api_story] -> a_source item <> SrcNull)
    by (intros item [<- | []]; discriminate).
  destruct (api_harvest_complete Demo.world Demo.week_scraper "zepto" Demo.start_state
              "s" "ecret" (mkResponse 200 "OK" "https://newsapi.org/v2/everything" "one story")
              [Demo.api_story] eq_refl eq_refl eq_refl eq_refl Hsrc)
    as (found & Hrun & Hall).
  rewrite Hrun. cbn [fst]. f_equal.
  change (List.filter usable [Demo.api_story]) with [Demo.api_story] in Hall.
  inversion Hall as [| item article rest found' Hitem Hrest]; subst.
  inversion Hrest; subst.
  assert (Hrecord : api_article_data Demo.api_story = Ret (Some Demo.api_story_record))
    by reflexivity.
  rewrite Hrecord in Hitem. inversion Hitem. reflexivity.
Defined.

(** ** More on deduplication *)

Lemma take1_nonempty {A : Type} (l : list A) (x : A) : x ∈ l -> exists y, take 1 l = [y].
Proof. destruct l as [| y l]; [intros H; inversion H | eauto]. Qed.

Lemma first_seen_keys (articles : list (gmap string pyval)) (k : pyval) :
  k ∈ url_key <$> first_seen ∅ articles <-> k ∈ url_key <$> articles.
Proof.
  split.
  - intros (b & -> & Hb)%list_elem_of_fmap. apply list_elem_of_fmap_2.
    apply (elem_of_sublist _ _ _ Hb (first_seen_sublist articles ∅)).
  - intros (a & -> & Ha)%list_elem_of_fmap.
    assert (Hf : a ∈ filter (fun x => url_key x = url_key a) articles)
      by (apply list_elem_of_filter; split; [reflexivity | exact Ha]).
    destruct (take1_nonempty _ _ Hf) as [b Hb].
    pose proof (first_seen_key articles ∅ (url_key a)) as Hkey.
    destruct (decide (url_key a ∈ (∅ : gset pyval))) as [Hin | _]; [set_solver |].
    rewrite Hb in Hkey.
    assert (Hbin : b ∈ filter (fun x => url_key x = url_key a) (first_seen ∅ articles))
      by (rewrite Hkey; apply elem_of_cons; left; reflexivity).
    apply list_elem_of_filter in Hbin as [Hbk Hbin].
    rewrite <- Hbk. apply list_elem_of_fmap_2. exact Hbin.
Qed.

Lemma remove_duplicates_keys (articles : list (gmap string pyval)) :
  NoDup (url_key <$> remove_duplicates articles)
  /\ forall k, k ∈ url_key <$> remove_duplicates articles <-> k ∈ url_key <$> articles.
Proof.
  rewrite remove_duplicates_first_seen. split; [apply first_seen_NoDup |].
  intros k. apply first_seen_keys.
Qed.

(** X16.  The output of [remove_duplicates] holds every URL of its
    input, and each of them once: no two records of the output have the
    same URL, and no URL of the input is lost. *)
Theorem remove_duplicates_urls (articles : list (gmap string pyval)) :
  NoDup (url_key <$> remove_duplicates articles)
  /\ forall k, k ∈ url_key <$> remove_duplicates articles <-> k ∈ url_key <$> articles.
Proof. exact (remove_duplicates_keys articles). Qed.

Lemma first_seen_unchanged (articles : list (gmap string pyval)) (seen : gset pyval) :
  NoDup (url_key <$> articles) ->
  (forall a, a ∈ articles -> url_key a ∉ seen) ->
  first_seen seen articles = articles.
Proof.
  revert seen. induction articles as [| a rest IH]; intros seen Hnd Hfresh; [reflexivity |].
  cbn [first_seen]. rewrite fmap_cons in Hnd. apply list.NoDup_cons in Hnd as [Hnotin Hnd].
  destruct (decide (url_key a ∈ seen)) as [Hin | _].
  - exfalso. apply (Hfresh a); [apply elem_of_cons; left; reflexivity | exact Hin].
  - f_equal. apply IH; [exact Hnd |]. intros b Hb Hbin.
    apply elem_of_union in Hbin as [Hbin | Hbin].
    + apply elem_of_singleton in Hbin. apply Hnotin. rewrite <- Hbin.
      apply list_elem_of_fmap_2. exact Hb.
    + apply (Hfresh b); [apply elem_of_cons; right; exact Hb | exact Hbin].
Qed.

(** X17.  [remove_duplicates] returns its input unchanged exactly when
    the URLs of the input are pairwise distinct. *)
Theorem remove_duplicates_fixed_point (articles : list (gmap string pyval)) :
  remove_duplicates articles = articles <-> NoDup (url_key <$> articles).
Proof.
  split.
  - intros Hfix. rewrite <- Hfix. apply remove_duplicates_keys.
  - intros Hnd. rewrite remove_duplicates_first_seen.
    apply first_seen_unchanged; [exact Hnd |]. intros a _. apply not_elem_of_empty.
Qed.

Lemma first_seen_app (first second : list (gmap string pyval)) (seen : gset pyval) :
  first_seen seen (first ++ second)
  = (first_seen seen first
     ++ first_seen (seen ∪ list_to_set (url_key <$> first)) second)%list.
Proof.
  revert seen. induction first as [| a rest IH]; intros seen.
  - cbn. f_equal. set_solver.
  - cbn [app first_seen fmap list_fmap list_to_set].
    destruct (decide (url_key a ∈ seen)) as [Hin | Hout].
    + rewrite IH. f_equal. f_equal. set_solver.
    + rewrite IH. cbn [app]. f_equal. f_equal. f_equal. set_solver.
Qed.

(** X18.  Deduplication can be done in steps: deduplicating a first
    harvest, appending a second one and deduplicating again gives what
    one pass over both gives. *)
Theorem remove_duplicates_in_steps (first second : list (gmap string pyval)) :
  remove_duplicates (remove_duplicates first ++ second)
  = remove_duplicates (first ++ second).
Proof.
  rewrite !remove_duplicates_first_seen, !first_seen_app.
  rewrite first_seen_again by reflexivity. f_equal. f_equal. f_equal.
  apply set_eq. intros k. rewrite !elem_of_list_to_set. apply first_seen_keys.
Qed.

(** ** The whole run of the aggregator *)

(** The run of [scrape_all_news] with the state it ends in. *)
Lemma scrape_all_news_final (w : World) (self : scraper) (s : St) (cfg : timeframe_config) :
  timeframe_options !! timeframe self = Some cfg ->
  exists rss t1 a1 t2 a2 t3 a3 t4 a4 t5,
    search_direct_rss_feeds w self
      (with_log s [(INFO, "Scraping news for: " ++ description cfg);
                   (INFO, "Searching direct RSS feeds...")]) = (Ret rss, t1)
    /\ search_news_api w self "quick commerce india"
         (with_log t1 [(INFO, "Found " ++ PyStr.of_nat (length rss) ++ " articles from RSS feeds");
                       (INFO, "Searching NewsAPI...")]) = (Ret a1, t2)
    /\ search_news_api w self "blinkit" (with_pause t2) = (Ret a2, t3)
    /\ search_news_api w self "zepto" (with_pause t3) = (Ret a3, t4)
    /\ search_news_api w self "swiggy instamart" (with_pause t4) = (Ret a4, t5)
    /\ scrape_all_news w self s
       = (Ret (remove_duplicates (rss ++ a1 ++ a2 ++ a3 ++ a4)),
          with_log (with_pause t5)
            [(INFO, "Found "
                    ++ PyStr.of_nat (0 + length a1 + length a2 + length a3 + length a4)
                    ++ " articles from NewsAPI");
             (INFO, "Total unique articles: "
                    ++ PyStr.of_nat (length (remove_duplicates (rss ++ a1 ++ a2 ++ a3 ++ a4))))]).
Proof.
  intros Hcfg.
  destruct (hoare_total_run _ _
              (with_log s [(INFO, "Scraping news for: " ++ description cfg);
                           (INFO, "Searching direct RSS feeds...")])
              (search_direct_rss_feeds_spec w self))
    as (rss & t1 & Hrss & _).
  destruct (search_news_api_value w self "quick commerce india"
              (with_log t1
                 [(INFO, "Found " ++ PyStr.of_nat (length rss) ++ " articles from RSS feeds");
                  (INFO, "Searching NewsAPI...")]))
    as (a1 & t2 & H1 & _).
  destruct (search_news_api_value w self "blinkit" (with_pause t2)) as (a2 & t3 & H2 & _).
  destruct (search_news_api_value w self "zepto" (with_pause t3)) as (a3 & t4 & H3 & _).
  destruct (search_news_api_value w self "swiggy instamart" (with_pause t4))
    as (a4 & t5 & H4 & _).
  exists rss, t1, a1, t2, a2, t3, a3, t4, a4, t5.
  repeat (split; [assumption |]).
  unfold scrape_all_news, with_locals.
  rewrite run_bind. unfold lift_exc at 1, options_item. rewrite Hcfg.
  rewrite run_bind, run_lift_logger. cbn [glob loc].
  rewrite run_bind, run_lift_logger. cbn [glob loc]. rewrite with_log_twice. cbn [app].
  rewrite run_bind, run_lift. cbn [glob loc]. rewrite Hrss. cbn [fst snd].
  rewrite run_bind. unfold extend_all_articles at 1. rewrite run_bind.
  unfold get_locals at 1, set_locals at 1. cbn [loc glob app].
  rewrite run_bind, run_lift_logger. cbn [glob loc].
  rewrite run_bind, run_lift_logger. cbn [glob loc]. rewrite with_log_twice. cbn [app].
  rewrite run_bind. unfold api_keywords. cbn [for_each].
  rewrite run_bind, (scrape_keyword_run _ _ _ _ _ _ _ _ H1).
  rewrite run_bind, (scrape_keyword_run _ _ _ _ _ _ _ _ H2).
  rewrite run_bind, (scrape_keyword_run _ _ _ _ _ _ _ _ H3).
  rewrite run_bind, (scrape_keyword_run _ _ _ _ _ _ _ _ H4).
  cbn [mret M_ret]. rewrite run_bind. unfold get_locals at 1. cbn [loc glob].
  rewrite run_bind, run_lift_logger. rewrite run_bind, run_lift_logger.
  cbn [mret M_ret glob loc]. rewrite with_log_twice. cbn [app].
  rewrite <- !app_assoc. reflexivity.
Qed.

(** The records of a run, for a scraper whose token is in the table. *)
Lemma scrape_all_news_records (w : World) (self : scraper) (s : St) (cfg : timeframe_config) :
  timeframe_options !! timeframe self = Some cfg ->
  exists found s',
    scrape_all_news w self s = (Ret found, s')
    /\ NoDup (url_key <$> found)
    /\ forall article, In article found -> feed_record w self article \/ api_record article.
Proof.
  intros Hcfg.
  destruct (scrape_all_news_final w self s cfg Hcfg)
    as (rss & t1 & a1 & t2 & a2 & t3 & a3 & t4 & a4 & t5
        & Hrss & H1 & H2 & H3 & H4 & Hrun).
  do 2 eexists. split; [exact Hrun |]. split; [apply remove_duplicates_keys |].
  intros article Hin. apply list_elem_of_In in Hin.
  rewrite remove_duplicates_first_seen in Hin.
  apply (fun H => elem_of_sublist _ _ _ H (first_seen_sublist _ ∅)) in Hin.
  assert (Hapi : forall query st found st',
            search_news_api w self query st = (Ret found, st') ->
            forall a, a ∈ found -> api_record a).
  { intros query st found st' Hq a Ha.
    destruct (api_harvest_records w self query st) as (found' & st'' & Hq' & Hall).
    rewrite Hq in Hq'. inversion Hq'; subst. apply Hall, list_elem_of_In, Ha. }
  apply elem_of_app in Hin as [Hin | Hin].
  - left. destruct (feed_harvest_records w self
                      (with_log s [(INFO, "Scraping news for: " ++ description cfg);
                                   (INFO, "Searching direct RSS feeds...")]))
      as (found' & st'' & Hq' & Hall).
    rewrite Hrss in Hq'. inversion Hq'; subst. apply Hall, list_elem_of_In, Hin.
  - right. repeat (apply elem_of_app in Hin as [Hin | Hin]);
      eauto using Hapi.
Qed.

(** X19.  For a scraper built by the constructor, [scrape_all_news]
    never raises, whatever the feeds and the API answer; the records it
    returns have pairwise distinct URLs, and each of them is a record of
    the feed harvester or of the API harvester. *)
Theorem scrape_all_news_never_raises (w : World) (token : string) (s0 s0' : St)
    (self : scraper) (s : St) :
  init w token s0 = (Ret self, s0') ->
  exists found s',
    scrape_all_news w self s = (Ret found, s')
    /\ NoDup (url_key <$> found)
    /\ forall article, In article found -> feed_record w self article \/ api_record article.
Proof.
  intros Hinit. destruct (init_window _ _ _ _ _ Hinit) as ([cfg Hcfg] & _).
  exact (scrape_all_news_records w self s cfg Hcfg).
Qed.

Lemma scrape_all_news_never_raises_witness :
  exists found s',
    scrape_all_news Demo.world Demo.week_scraper Demo.start_state = (Ret found, s')
    /\ NoDup (url_key <$> found).
Proof.
  destruct (scrape_all_news_never_raises Demo.world "7d" Demo.start_state Demo.start_state
              Demo.week_scraper Demo.start_state eq_refl)
    as (found & s' & Hrun & Hnd & _).
  exists found, s'. split; assumption.
Defined.

(** The API harvester adds to the log at its end. *)
Lemma search_news_api_log (w : World) (self : scraper) (query : string) (s : St) :
  exists extra, log (search_news_api w self query s).2 = (log s ++ extra)%list.
Proof.
  rewrite search_news_api_run.
  assert (Hsame : forall st : St, log st = log s -> exists extra, log st = (log s ++ extra)%list)
    by (intros st ->; exists []; rewrite app_nil_r; reflexivity).
  destruct (getenv w "NEWS_API_KEY") as [[| c k] |]; try (eexists; reflexivity). cbn zeta.
  destruct (http_get w (requests s) _) as [response |]; [| eexists; reflexivity].
  destruct (raise_for_status response); [| eexists; reflexivity].
  destruct (json_loads w (content response)) as [data |]; [| eexists; reflexivity].
  destruct (api_failure _); [eexists; reflexivity | apply Hsame; reflexivity].
Qed.

(** X20.  A run pauses two seconds once for each record that its feed
    harvest returns and once after each of the four API queries, and at
    no other time.  The number of the feed records is the one the run
    itself reports in its log, and is at most 210: so a run pauses at
    least four times, also when the API key is missing and the queries
    send nothing. *)
Theorem scrape_all_news_pauses (w : World) (self : scraper) (s : St)
    (cfg : timeframe_config) :
  timeframe_options !! timeframe self = Some cfg ->
  exists rss t,
    search_direct_rss_feeds w self
      (with_log s [(INFO, "Scraping news for: " ++ description cfg);
                   (INFO, "Searching direct RSS feeds...")]) = (Ret rss, t)
    /\ (length rss <= 210)%nat
    /\ slept (scrape_all_news w self s).2
       = (slept s ++ replicate (length rss + 4) 2)%list
    /\ In (INFO, "Found " ++ PyStr.of_nat (length rss) ++ " articles from RSS feeds")
         (log (scrape_all_news w self s).2).
Proof.
  intros Hcfg.
  destruct (scrape_all_news_final w self s cfg Hcfg)
    as (rss & t1 & a1 & t2 & a2 & t3 & a3 & t4 & a4 & t5
        & Hrss & H1 & H2 & H3 & H4 & Hrun).
  exists rss, t1. split; [exact Hrss |].
  destruct (search_direct_rss_feeds_full w self
              (with_log s [(INFO, "Scraping news for: " ++ description cfg);
                           (INFO, "Searching direct RSS feeds...")]))
    as (found & st & Hq & Hslept & _ & Hcount & _).
  rewrite Hrss in Hq. inversion Hq; subst found st; clear Hq.
  cbn [glob loc with_log slept] in Hslept, Hcount.
  split; [exact Hcount |].
  assert (Hapi : forall query st found st',
            search_news_api w self query st = (Ret found, st') ->
            slept st' = slept st /\ exists extra, log st' = (log st ++ extra)%list).
  { intros query st found st' Hq.
    destruct (api_harvest_effects w self query st) as (_ & _ & Hs).
    rewrite Hq in Hs. split; [exact Hs |].
    pose proof (search_news_api_log w self query st) as Hlog.
    rewrite Hq in Hlog. exact Hlog. }
  rewrite Hrun. cbn [snd with_log with_pause slept log]. split.
  - rewrite (proj1 (Hapi _ _ _ _ H4)). cbn [with_pause slept].
    rewrite (proj1 (Hapi _ _ _ _ H3)). cbn [with_pause slept].
    rewrite (proj1 (Hapi _ _ _ _ H2)). cbn [with_pause slept].
    rewrite (proj1 (Hapi _ _ _ _ H1)). cbn [with_log slept]. rewrite Hslept.
    rewrite replicate_add. cbn [replicate]. rewrite <- !app_assoc. reflexivity.
  - destruct (proj2 (Hapi _ _ _ _ H4)) as (x4 & ->). cbn [with_pause log].
    destruct (proj2 (Hapi _ _ _ _ H3)) as (x3 & ->). cbn [with_pause log].
    destruct (proj2 (Hapi _ _ _ _ H2)) as (x2 & ->). cbn [with_pause log].
    destruct (proj2 (Hapi _ _ _ _ H1)) as (x1 & ->). cbn [with_log log].
    rewrite !in_app_iff. do 5 left. right. left. reflexivity.
Qed.

Lemma scrape_all_news_pauses_witness :
  exists rss t,
    search_direct_rss_feeds Cases.world_without_key Demo.week_scraper
      (with_log Demo.start_state [(INFO, "Scraping news for: Last week");
                                  (INFO, "Searching direct RSS feeds...")]) = (Ret rss, t)
    /\ slept (scrape_all_news Cases.world_without_key Demo.week_scraper Demo.start_state).2
       = replicate (length rss + 4) 2
    /\ In (INFO, "Found " ++ PyStr.of_nat (length rss) ++ " articles from RSS feeds")
         (log (scrape_all_news Cases.world_without_key Demo.week_scraper Demo.start_state).2).
Proof.
  destruct (scrape_all_news_pauses Cases.world_without_key Demo.week_scraper Demo.start_state
              (mkConfig None (Some 7) "Last week") eq_refl)
    as (rss & t & Hrss & _ & Hslept & Hlog).
  exists rss, t. split; [exact Hrss |]. split; [exact Hslept | exact Hlog].
Defined.

(** ** The constructor *)

(** The start of the window for an entry of the table: the clock less a
    duration between six hours and ninety days. *)
Lemma options_duration (token : string) (cfg : timeframe_config) (now : datetime) :
  timeframe_options !! token = Some cfg ->
  exists D,
    timedelta_hours 6 <= D <= timedelta_days 90
    /\ match hours cfg with
       | Some h => datetime_sub now (timedelta_hours h)
       | None =>
           match days cfg with
           | Some d => datetime_sub now (timedelta_days d)
           | None =>
               Raise (mkExn "UnboundLocalError"
                        "cannot access local variable 'start_date' where it is not associated with a value")
           end
       end = datetime_sub now D.
Proof.
  intros H. apply elem_of_list_to_map_2 in H.
  repeat (apply elem_of_cons in H as [H | H];
          [inversion H; subst; cbn [hours days]; eexists; split; [| reflexivity];
           unfold timedelta_hours, timedelta_days, us_per_day, us_per_hour, us_per_second; lia |]).
  inversion H.
Qed.

(** X21.  With a clock that reads at least ninety days after
    [datetime.min], the constructor never fails, whatever token it is
    given.  It leaves a token of the option table in [self.timeframe]:
    the token given when that one is in the table, and then nothing is
    logged, and ["7d"] otherwise.  The window ends at the reading of the
    clock and is between six hours and ninety days long. *)
Theorem constructor_never_fails (w : World) (token : string) (s : St) :
  timedelta_days 90 <= clock_now w <= MAX_WALL ->
  exists self s',
    init w token s = (Ret self, s')
    /\ timeframe self ∈ dom timeframe_options
    /\ (token ∈ dom timeframe_options -> timeframe self = token /\ s' = s)
    /\ (token ∉ dom timeframe_options -> timeframe self = "7d")
    /\ end_date self = mkDatetime (clock_now w) None
    /\ timedelta_hours 6 <= datetime_diff (end_date self) (start_date self)
       <= timedelta_days 90.
Proof.
  intros Hclock.
  assert (Hknown : forall tok cfg st,
            timeframe_options !! tok = Some cfg ->
            exists D,
              timedelta_hours 6 <= D <= timedelta_days 90
              /\ _calculate_timeframe w tok st
                 = (Ret (tok, (mkDatetime (clock_now w - D) None,
                               mkDatetime (clock_now w) None)), st)).
  { intros tok cfg st Hcfg. rewrite (calculate_known _ _ _ _ Hcfg).
    destruct (options_duration tok cfg (mkDatetime (clock_now w) None) Hcfg) as (D & HD & ->).
    exists D. split; [exact HD |]. rewrite datetime_sub_in_range; [reflexivity |].
    cbn [wall]. unfold timedelta_hours, timedelta_days, us_per_day, us_per_hour,
      us_per_second in *. lia. }
  unfold init. destruct (timeframe_options !! token) as [cfg |] eqn:Hcfg.
  - destruct (Hknown token cfg s Hcfg) as (D & HD & Hrun).
    rewrite run_bind, Hrun. do 2 eexists. split; [reflexivity |]. cbn.
    split; [apply options_lookup_dom; rewrite Hcfg; eauto |].
    split; [auto |].
    split; [intros Hout; exfalso; apply Hout, options_lookup_dom; rewrite Hcfg; eauto |].
    split; [reflexivity |]. unfold datetime_diff. cbn. lia.
  - assert (Hout : token ∉ dom timeframe_options).
    { rewrite options_lookup_dom, Hcfg. intros [? ?]; discriminate. }
    destruct (Hknown "7d" (mkConfig None (Some 7) "Last week") s eq_refl) as (D & HD & Hrun).
    rewrite run_bind, (calculate_unknown _ _ _ Hout), Hrun. cbn [fst].
    do 2 eexists. split; [reflexivity |]. cbn.
    split; [apply options_lookup_dom; eexists; reflexivity |].
    split; [intros Hin; contradiction |].
    split; [reflexivity |].
    split; [reflexivity |]. unfold datetime_diff. cbn. lia.
Qed.

Lemma constructor_never_fails_witness :
  exists self s',
    init Demo.world "fortnight" Demo.start_state = (Ret self, s')
    /\ timeframe self ∈ dom timeframe_options.
Proof.
  destruct (constructor_never_fails Demo.world "fortnight" Demo.start_state)
    as (self & s' & Hrun & Hdom & _).
  - vm_compute. split; discriminate.
  - exists self, s'. split; assumption.
Defined.

(** ** The offset of a date *)

(** X22.  The check of the window drops the UTC offset of a date
    without converting it: two dates whose fields read the same get the
    same answer, whatever their offsets, and however far apart the
    instants they denote are. *)
Theorem timeframe_check_ignores_offset (w : World) (token : string) (s s' : St)
    (self : scraper) (first second : string) (d1 d2 : datetime) :
  init w token s = (Ret self, s') ->
  first <> EmptyString -> second <> EmptyString ->
  parsedate_to_datetime w first = Ret d1 ->
  parsedate_to_datetime w second = Ret d2 ->
  wall d1 = wall d2 ->
  is_article_in_timeframe w self first = is_article_in_timeframe w self second.
Proof.
  intros Hinit Hne1 Hne2 Hd1 Hd2 Hwall.
  destruct (init_window _ _ _ _ _ Hinit) as (_ & Hnaive & _).
  rewrite (in_timeframe_parsed w self first d1 Hne1 Hnaive Hd1).
  rewrite (in_timeframe_parsed w self second d2 Hne2 Hnaive Hd2).
  rewrite Hwall. reflexivity.
Qed.

Lemma timeframe_check_ignores_offset_witness :
  is_article_in_timeframe Demo.world Demo.week_scraper "Tue, 27 Oct 2026 11:00:00 +1200"
  = is_article_in_timeframe Demo.world Demo.week_scraper "Tue, 27 Oct 2026 11:00:00 -1100".
Proof.
  apply (timeframe_check_ignores_offset Demo.world "7d" Demo.start_state Demo.start_state
           Demo.week_scraper _ _
           (mkDatetime 63928695600000000 (Some 43200000000))
           (mkDatetime 63928695600000000 (Some (-39600000000))));
    try reflexivity; discriminate.
Defined.

(** ** The report *)

(** The source under which the report counts an article. *)
Lemma group_append_keys (key : pyval) (article : gmap string pyval)
    (groups : list (pyval * list (gmap string pyval))) :
  (In key (List.map fst groups) ->
   List.map fst (group_append key article groups) = List.map fst groups)
  /\ (~ In key (List.map fst groups) ->
      List.map fst (group_append key article groups) = (List.map fst groups ++ [key])%list).
Proof.
  induction groups as [| [k members] rest [IHin IHout]]; cbn [group_append List.map fst].
  - split; [intros [] | reflexivity].
  - destruct (decide (k = key)) as [-> | Hne]; cbn [List.map fst].
    + split; [reflexivity | intros Hout; exfalso; apply Hout; left; reflexivity].
    + split.
      * intros [Heq | Hin]; [congruence |]. rewrite (IHin Hin). reflexivity.
      * intros Hout. rewrite IHout; [reflexivity |]. intros Hin. apply Hout. right. exact Hin.
Qed.

Lemma group_append_members (key : pyval) (article : gmap string pyval)
    (groups : list (pyval * list (gmap string pyval))) (k : pyval)
    (members : list (gmap string pyval)) :
  List.NoDup (List.map fst groups) ->
  In (k, members) (group_append key article groups) ->
  (k = key /\ (exists before, In (k, before) groups /\ members = (before ++ [article])%list))
  \/ (k = key /\ ~ In key (List.map fst groups) /\ members = [article])
  \/ (k <> key /\ In (k, members) groups).
Proof.
  induction groups as [| [k0 m0] rest IH]; intros Hnd Hin; cbn [group_append] in Hin.
  - destruct Hin as [Heq | []]. inversion Heq; subst. right. left. auto.
  - cbn [List.map fst] in Hnd. inversion Hnd as [| x l Hnotin Hnd']; subst.
    destruct (decide (k0 = key)) as [-> | Hne].
    + destruct Hin as [Heq | Hin].
      * inversion Heq; subst. left. split; [reflexivity |]. exists m0.
        split; [left; reflexivity | reflexivity].
      * right. right. split; [| right; exact Hin].
        intros ->. apply Hnotin. apply in_map_iff. exists (key, members). auto.
    + destruct Hin as [Heq | Hin].
      * inversion Heq; subst. right. right. split; [exact Hne | left; reflexivity].
      * destruct (IH Hnd' Hin) as [(-> & before & Hb & ->) | [(-> & Hout & ->) | (Hk & Hm)]].
        -- left. split; [reflexivity |]. exists before. split; [right; exact Hb | reflexivity].
        -- right. left. split; [reflexivity |]. split; [| reflexivity].
           intros [Heq | Hin']; [cbn in Heq; congruence | contradiction].
        -- right. right. split; [exact Hk | right; exact Hm].
Qed.

Lemma NoDup_snoc {A : Type} (l : list A) (x : A) :
  List.NoDup l -> ~ In x l -> List.NoDup (l ++ [x]).
Proof.
  induction l as [| y l IH]; intros Hnd Hout; cbn [app].
  - constructor; [intros [] | constructor].
  - inversion Hnd as [| z l' Hy Hl]; subst. constructor.
    + intros Hin. apply in_app_or in Hin as [Hin | [<- | []]]; [contradiction |].
      apply Hout. left. reflexivity.
    + apply IH; [exact Hl |]. intros Hin. apply Hout. right. exact Hin.
Qed.

(** The groups after a prefix of the articles: distinct keys, each with
    the articles of that source, in their order. *)
Lemma groups_invariant (articles done : list (gmap string pyval))
    (groups : list (pyval * list (gmap string pyval))) :
  let source := fun a => dict_get a "source" (PStr "Unknown") in
  List.NoDup (List.map fst groups) ->
  (forall k members, In (k, members) groups ->
     members = List.filter (fun a => bool_decide (source a = k)) done /\ members <> []) ->
  (forall a, In a done -> In (source a) (List.map fst groups)) ->
  let final := fold_left (fun g a => group_append (source a) a g) articles groups in
  List.NoDup (List.map fst final)
  /\ (forall k members, In (k, members) final ->
        members = List.filter (fun a => bool_decide (source a = k)) (done ++ articles)
        /\ members <> [])
  /\ (forall a, In a (done ++ articles) -> In (source a) (List.map fst final)).
Proof.
  intros source. revert done groups.
  induction articles as [| a rest IH]; intros done groups Hnd Hmem Hall; cbn zeta.
  - cbn [fold_left]. rewrite app_nil_r. auto.
  - cbn [fold_left].
    replace (done ++ a :: rest)%list with ((done ++ [a]) ++ rest)%list
      by (rewrite <- app_assoc; reflexivity).
    apply IH.
    + destruct (group_append_keys (source a) a groups) as [Kin Kout].
      destruct (in_dec pyval_eq_dec (source a) (List.map fst groups)) as [Hin | Hout];
        [rewrite (Kin Hin); exact Hnd |].
      rewrite (Kout Hout). apply NoDup_snoc; assumption.
    + intros k members Hin. rewrite List.filter_app. cbn [List.filter].
      destruct (group_append_members _ _ _ _ _ Hnd Hin)
        as [(-> & before & Hb & ->) | [(-> & Hout & ->) | (Hk & Hm)]].
      * destruct (Hmem _ _ Hb) as [-> _]. rewrite bool_decide_eq_true_2 by reflexivity.
        split; [reflexivity | intros H; apply app_eq_nil in H as [_ H]; discriminate].
      * rewrite bool_decide_eq_true_2 by reflexivity. split; [| discriminate].
        rewrite filter_none; [reflexivity |]. intros x Hx.
        apply bool_decide_eq_false_2. intros Heq. apply Hout. rewrite <- Heq.
        apply Hall, Hx.
      * destruct (Hmem _ _ Hm) as [-> Hne].
        rewrite bool_decide_eq_false_2 by congruence. rewrite app_nil_r.
        split; [reflexivity | exact Hne].
    + intros x Hx. destruct (group_append_keys (source a) a groups) as [Kin Kout].
      destruct (in_dec pyval_eq_dec (source a) (List.map fst groups)) as [Hin | Hout].
      * rewrite (Kin Hin). apply in_app_or in Hx as [Hx | [<- | []]];
          [apply Hall, Hx | exact Hin].
      * rewrite (Kout Hout). apply in_or_app.
        apply in_app_or in Hx as [Hx | [<- | []]];
          [left; apply Hall, Hx | right; left; reflexivity].
Qed.

(** X23.  The summary by source of the report is right: the sources
    listed are pairwise distinct, every article is counted under its
    source (["Unknown"] when it has none), and a source is listed with
    exactly the articles that name it, in their order. *)
Theorem sources_summary_is_exact (articles : list (gmap string pyval)) :
  let source := fun a => dict_get a "source" (PStr "Unknown") in
  List.NoDup (List.map fst (articles_by_source articles))
  /\ (forall k members, In (k, members) (articles_by_source articles) ->
        members = List.filter (fun a => bool_decide (source a = k)) articles
        /\ members <> [])
  /\ (forall a, In a articles -> In (source a) (List.map fst (articles_by_source articles))).
Proof.
  intros source. unfold articles_by_source.
  apply (groups_invariant articles [] []).
  - constructor.
  - intros k members [].
  - intros a [].
Qed.

Section SaveInvariant.

Variables (h : Host) (before : Frame Out) (name : string) (E : Frame Out -> Prop).

(** Either no write to the file fails, or [E] is all that is asked of
    the state in which one fails. *)
Hypothesis HE :
  (forall written text, write_text h name written text = Ret tt)
  \/ (forall f, save_inv before name f -> E f).

Lemma file_write_keeps (text : string) :
  hoare (save_inv before name) (file_write h name text) (fun _ => save_inv before name) E.
Proof.
  intros f Hinv. unfold file_write.
  destruct (write_text h name _ text) as [[] | e] eqn:Hwrite.
  - destruct Hinv as (Hg & Hout & Hfile & Hother). unfold save_inv.
    cbn [glob loc files stdout].
    repeat split; [exact Hg | exact Hout | rewrite lookup_insert_eq; eauto |].
    intros other Hne. rewrite lookup_insert_ne by congruence. apply Hother, Hne.
  - destruct HE as [Hok | Hweak]; [rewrite Hok in Hwrite; discriminate Hwrite |].
    apply Hweak, Hinv.
Qed.

Lemma write_article_keeps (numbered : nat * gmap string pyval) :
  hoare (save_inv before name) (write_article h name numbered) (fun _ => save_inv before name) E.
Proof.
  destruct numbered as [i article]. unfold write_article.
  repeat (eapply hoare_bind; [apply file_write_keeps |]; intros ?).
  eapply hoare_bind.
  { destruct (truthy _); [apply file_write_keeps | apply (hoare_ret tt (fun _ => _))]. }
  intros ?.
  repeat (eapply hoare_bind; [apply file_write_keeps |]; intros ?).
  apply file_write_keeps.
Qed.

End SaveInvariant.

(** The writes of the report keep the state of a save; they fail only
    by a write that fails or by a token that is not in the table. *)
Lemma report_writes_keeps (h : Host) (self : scraper) (articles : list (gmap string pyval))
    (before : Frame Out) (name : string) (E : Frame Out -> Prop) :
  ((forall written text, write_text h name written text = Ret tt)
   /\ is_Some (timeframe_options !! timeframe self))
  \/ (forall f, save_inv before name f -> E f) ->
  hoare (save_inv before name) (report_writes h self articles name)
    (fun _ => save_inv before name) E.
Proof.
  intros HE.
  assert (Hwrites : (forall written text, write_text h name written text = Ret tt)
                    \/ (forall f, save_inv before name f -> E f))
    by (destruct HE as [[Hok _] | Hweak]; [left | right]; assumption).
  unfold report_writes.
  repeat (eapply hoare_bind; [apply (file_write_keeps h before name E Hwrites) |]; intros ?).
  eapply hoare_bind with (R := fun _ => save_inv before name).
  { intros f Hf. unfold lift_exc, options_item.
    destruct (timeframe_options !! timeframe self) as [cfg |] eqn:Hcfg; [exact Hf |].
    destruct HE as [[_ [cfg Hsome]] | Hweak]; [discriminate Hsome | apply Hweak, Hf]. }
  intros ?.
  repeat (eapply hoare_bind; [apply (file_write_keeps h before name E Hwrites) |]; intros ?).
  eapply hoare_bind with (R := fun _ => save_inv before name).
  { apply hoare_for_each. intros group. apply (file_write_keeps h before name E Hwrites). }
  intros ?.
  eapply hoare_bind; [apply (file_write_keeps h before name E Hwrites) |]. intros ?.
  apply hoare_for_each. intros numbered.
  apply (write_article_keeps h before name E Hwrites).
Qed.

Lemma save_inv_safe (before : Frame Out) (name : string) (f : Frame Out) :
  save_inv before name f -> save_safe before name f.
Proof. intros (Hg & Hout & _ & Hother). repeat split; assumption. Qed.

(** The file just opened. *)
Lemma file_opened (h : Host) (name : string) (f : Frame Out) :
  open_for_writing h name = Ret tt ->
  file_open h name f
  = (Ret tt,
     mkFrame (glob f) (mkOut (<[name := EmptyString]> (files (loc f))) (stdout (loc f))))
  /\ save_inv f name
       (mkFrame (glob f) (mkOut (<[name := EmptyString]> (files (loc f))) (stdout (loc f)))).
Proof.
  intros Hopen. unfold file_open. rewrite Hopen. split; [reflexivity |].
  unfold save_inv. cbn [glob loc files stdout].
  repeat split; [rewrite lookup_insert_eq; eauto |].
  intros other Hne. rewrite lookup_insert_ne by congruence. reflexivity.
Qed.

(** The body of the [try] block.  When it returns, the report is
    written under the name and one record is logged; it raises only in
    a state in which nothing but the file has changed, and not at all
    when the file opens, no write and no close fails and the token of
    the scraper is in the table. *)
Lemma save_body_spec (h : Host) (self : scraper) (articles : list (gmap string pyval))
    (name : string) (f : Frame Out) (E : Frame Out -> Prop) :
  (open_for_writing h name = Ret tt /\ writes_succeed h name
   /\ is_Some (timeframe_options !! timeframe self))
  \/ (forall f', save_safe f name f' -> E f') ->
  match save_body h self articles name f with
  | (Ret r, f') =>
      r = Some name
      /\ glob f' = with_log (glob f) [(INFO, "Articles saved to " ++ name)]
      /\ save_inv f name (mkFrame (glob f) (loc f'))
  | (Raise _, f') => E f'
  end.
Proof.
  intros HE. unfold save_body, with_file. rewrite !run_bind.
  destruct (open_for_writing h name) as [[] | e] eqn:Hopen.
  2:{ unfold file_open. rewrite Hopen.
      destruct HE as [(Hopen' & _) | Hweak]; [discriminate Hopen' |].
      apply Hweak. repeat split. }
  destruct (file_opened h name f Hopen) as (-> & Hinv).
  set (f1 := mkFrame (glob f) (mkOut (<[name := EmptyString]> (files (loc f))) (stdout (loc f))))
    in *.
  unfold closing, file_close.
  assert (Hdone : forall f2 : Frame Out,
            save_inv f name f2 ->
            (let (r, f') :=
               (lift (logger INFO ("Articles saved to " ++ name)) ≫= (fun _ => mret (Some name)))
                 f2 in
             match r with
             | Ret r =>
                 r = Some name
                 /\ glob f' = with_log (glob f) [(INFO, "Articles saved to " ++ name)]
                 /\ save_inv f name (mkFrame (glob f) (loc f'))
             | Raise _ => E f'
             end)).
  { intros [g2 out2] (Hg & Hrest). rewrite run_bind, run_lift_logger. cbn [glob loc] in *.
    subst g2. repeat split; try reflexivity; apply Hrest. }
  destruct HE as [(_ & (Hwrites & Hclose) & Hcfg) | Hweak].
  - pose proof (report_writes_keeps h self articles f name (fun _ => False)
                  (or_introl (conj Hwrites Hcfg)) f1 Hinv) as Hbody.
    destruct (report_writes h self articles name f1) as [[[] | e] f2]; [| contradiction].
    rewrite Hclose. apply Hdone, Hbody.
  - pose proof (report_writes_keeps h self articles f name (save_inv f name)
                  (or_intror (fun _ H => H)) f1 Hinv) as Hbody.
    destruct (report_writes h self articles name f1) as [[[] | e] f2];
      destruct (close_file h name _) as [[] | e'];
      try (apply Hweak, save_inv_safe, Hbody).
    apply Hdone, Hbody.
Qed.

(** The file that cannot be opened, and the file to which the first
    write fails. *)
Lemma save_body_not_opened (h : Host) (self : scraper) (articles : list (gmap string pyval))
    (name : string) (f : Frame Out) (e : Exn) :
  open_for_writing h name = Raise e ->
  save_body h self articles name f = (Raise e, f).
Proof.
  intros Hopen. unfold save_body, with_file. rewrite !run_bind. unfold file_open.
  rewrite Hopen. reflexivity.
Qed.

Lemma save_body_not_written (h : Host) (self : scraper) (articles : list (gmap string pyval))
    (name : string) (f : Frame Out) (e : Exn) :
  open_for_writing h name = Ret tt ->
  write_text h name EmptyString ("QUICK COMMERCE INDUSTRY NEWS REPORT" ++ PyStr.nl) = Raise e ->
  exists e',
    save_body h self articles name f
    = (Raise e',
       mkFrame (glob f) (mkOut (<[name := EmptyString]> (files (loc f))) (stdout (loc f)))).
Proof.
  intros Hopen Hwrite. unfold save_body, with_file. rewrite !run_bind.
  destruct (file_opened h name f Hopen) as (-> & _).
  unfold closing, report_writes. rewrite run_bind. unfold file_write at 1.
  cbn [loc files]. rewrite lookup_insert_eq. cbn [default from_option id]. rewrite Hwrite.
  unfold file_close. cbn [loc files]. rewrite lookup_insert_eq. cbn [default from_option id].
  destruct (close_file h name EmptyString) as [[] | e']; eexists; reflexivity.
Qed.

(** X24.  [save_to_text_file] never raises, prints nothing, sends and
    pauses nothing and touches no file but its own, whose name is the
    name given or, for [None] or an empty name,
    [quick_commerce_news_<label>_<stamp>.txt].  It returns that name,
    with one record ["Articles saved to ..."] in the log and the file in
    place, or it returns [None], with one record ["Error saving file:
    ..."] in the log.  It returns [None] when the file cannot be opened,
    and then nothing is written at all, and when the first write to the
    opened file fails, and then the file is left empty.  It returns the
    name when the file opens, no write and no close fails and the token
    of the scraper is in the table. *)
Theorem save_to_text_file_outcome (h : Host) (self : scraper)
    (articles : list (gmap string pyval)) (filename : option string) (f : Frame Out) :
  let name := resolved_filename h self filename in
  exists r f',
    save_to_text_file h self articles filename f = (Ret r, f')
    /\ stdout (loc f') = stdout (loc f)
    /\ requests (glob f') = requests (glob f)
    /\ slept (glob f') = slept (glob f)
    /\ (forall other, other <> name -> files (loc f') !! other = files (loc f) !! other)
    /\ match r with
       | Some written =>
           written = name
           /\ glob f' = with_log (glob f) [(INFO, "Articles saved to " ++ name)]
           /\ is_Some (files (loc f') !! name)
       | None =>
           exists e, glob f' = with_log (glob f) [(ERROR, "Error saving file: " ++ exn_str e)]
       end
    /\ (forall e, open_for_writing h name = Raise e ->
          r = None
          /\ f' = mkFrame (with_log (glob f) [(ERROR, "Error saving file: " ++ exn_str e)])
                    (loc f))
    /\ (forall e,
          open_for_writing h name = Ret tt ->
          write_text h name EmptyString ("QUICK COMMERCE INDUSTRY NEWS REPORT" ++ PyStr.nl)
          = Raise e ->
          r = None /\ files (loc f') !! name = Some EmptyString)
    /\ (open_for_writing h name = Ret tt ->
        writes_succeed h name ->
        is_Some (timeframe_options !! timeframe self) ->
        r = Some name).
Proof.
  cbn zeta. unfold save_to_text_file. fold (resolved_filename h self filename).
  set (name := resolved_filename h self filename). unfold try_except.
  pose proof (save_body_spec h self articles name f (save_safe f name)
                (or_intror (fun _ H => H))) as Hgen.
  pose proof (save_body_not_opened h self articles name f) as Hclosed.
  pose proof (save_body_not_written h self articles name f) as Hfull.
  pose proof (save_body_spec h self articles name f (fun _ => False)) as Hfine.
  destruct (save_body h self articles name f) as [[r | e] f1].
  - destruct Hgen as (-> & Hlog & Hg & Hout & Hfile & Hother). cbn [glob loc] in *.
    exists (Some name), f1. split; [reflexivity |]. split; [exact Hout |].
    rewrite Hlog. split; [reflexivity |]. split; [reflexivity |]. split; [exact Hother |].
    split; [auto |]. split; [| split].
    + intros e Hopen. specialize (Hclosed e Hopen). discriminate Hclosed.
    + intros e Hopen Hwrite. destruct (Hfull e Hopen Hwrite) as (e' & Hrun). discriminate Hrun.
    + reflexivity.
  - destruct Hgen as (Hg & Hout & Hother).
    rewrite run_bind, run_lift_logger. rewrite Hg.
    exists None, (mkFrame (with_log (glob f) [(ERROR, "Error saving file: " ++ exn_str e)])
                    (loc f1)).
    split; [reflexivity |]. cbn [glob loc with_log requests slept].
    split; [exact Hout |]. split; [reflexivity |]. split; [reflexivity |].
    split; [exact Hother |]. split; [exists e; reflexivity |]. split; [| split].
    + intros e0 Hopen. specialize (Hclosed e0 Hopen). inversion Hclosed; subst.
      split; reflexivity.
    + intros e0 Hopen Hwrite. destruct (Hfull e0 Hopen Hwrite) as (e' & Hrun).
      inversion Hrun; subst. split; [reflexivity |]. cbn [loc files].
      apply lookup_insert_eq.
    + intros Hopen Hwrites Hcfg. destruct (Hfine (or_introl (conj Hopen (conj Hwrites Hcfg)))).
Qed.

Lemma save_to_text_file_outcome_witness :
  exists r f',
    save_to_text_file full_disk_host Demo.week_scraper [Demo.zepto_record] None empty_out
    = (Ret r, f')
    /\ r = None
    /\ files (loc f') !! "quick_commerce_news_7days_20261103_120000.txt" = Some EmptyString.
Proof.
  destruct (save_to_text_file_outcome full_disk_host Demo.week_scraper [Demo.zepto_record]
              None empty_out)
    as (r & f' & Hrun & _ & _ & _ & _ & _ & _ & Hfull & _).
  exists r, f'. split; [exact Hrun |].
  apply (Hfull (mkExn "OSError" "[Errno 28] No space left on device")); reflexivity.
Defined.

(** ** The entry point *)

Lemma run_lift_eq {L A : Type} (m : M St A) (f : Frame L) (r : exc A) (s' : St) :
  m (glob f) = (r, s') -> lift m f = (r, mkFrame s' (loc f)).
Proof. intros H. rewrite run_lift, H. reflexivity. Qed.


Lemma init_unknown (w : World) (token : string) (s : St) :
  token ∉ dom timeframe_options ->
  timedelta_days 7 <= clock_now w <= MAX_WALL ->
  init w token s
  = (Ret (mkScraper "7d" (mkDatetime (clock_now w - timedelta_days 7) None)
            (mkDatetime (clock_now w) None)),
     with_log s [(WARNING, "Invalid timeframe '" ++ token ++ "', defaulting to '7d'")]).
Proof.
  intros Hout Hclock. unfold init. rewrite run_bind, (calculate_unknown _ _ _ Hout).
  rewrite (calculate_known w "7d" (mkConfig None (Some 7) "Last week") s) by reflexivity.
  cbn [hours days fst]. rewrite datetime_sub_in_range; [reflexivity |].
  cbn [wall]. unfold timedelta_days, us_per_day, us_per_hour, us_per_second in *. lia.
Qed.

(** X25.  When no flag is given, or the parser gives up, and the
    variable [SCRAPE_TIMEFRAME] holds a token that is not in the option
    table, [main] ends with [exit(1)]: the constructor falls back to
    ["7d"] with a warning, but [main] then looks the unchanged token up
    in the table.  No request is sent and no file is written; the error
    printed and logged is the [repr] of the token, as [str] of a
    [KeyError] gives it: the token between single quotes, or between
    double quotes when it holds a single quote, with its backslashes and
    control characters escaped.  The token is one of ASCII characters,
    on which [PyStr.repr] is exact. *)
Theorem main_exits_on_unknown_environment_token (w : World) (h : Host) (token : string)
    (f : Frame Out) :
  (forall value, cli h <> CliFlag value) ->
  getenv w "SCRAPE_TIMEFRAME" = Some token ->
  token ∉ dom timeframe_options ->
  PyStr.is_ascii token = true ->
  timedelta_days 7 <= clock_now w <= MAX_WALL ->
  main w h f
  = (Raise (mkExn "SystemExit" "1"),
     mkFrame
       (with_log (glob f)
          [(WARNING, "Invalid timeframe '" ++ token ++ "', defaulting to '7d'");
           (INFO, "Starting quick commerce news scraping...");
           (ERROR, "Error: " ++ PyStr.repr token)])
       (mkOut (files (loc f))
          (stdout (loc f) ++ [Marks.failed ++ " Error: " ++ PyStr.repr token]))).
Proof.
  intros Hcli Henv Hout _ Hclock.
  assert (Hparse : parse_timeframe_argument w h = token).
  { unfold parse_timeframe_argument, env_timeframe. rewrite Henv.
    destruct (cli h) as [value | |]; [destruct (Hcli value eq_refl) | reflexivity | reflexivity]. }
  assert (Hnone : timeframe_options !! token = None).
  { destruct (timeframe_options !! token) eqn:E; [| reflexivity].
    exfalso. apply Hout, options_lookup_dom. rewrite E. eauto. }
  unfold main, try_except, main_body. cbn zeta. rewrite Hparse.
  rewrite run_bind, (run_lift_eq _ _ _ _ (init_unknown w token (glob f) Hout Hclock)).
  rewrite run_bind, run_lift_logger. rewrite run_bind.
  unfold lift_exc at 1, options_item. rewrite Hnone.
  rewrite run_bind, run_lift_logger. cbn [glob loc exn_str].
  rewrite !with_log_twice. reflexivity.
Qed.

Lemma main_exits_on_unknown_environment_token_witness :
  main (world_with_timeframe "a week's") read_only_host empty_out
  = (Raise (mkExn "SystemExit" "1"),
     mkFrame
       (with_log Demo.start_state
          [(WARNING, "Invalid timeframe 'a week's', defaulting to '7d'");
           (INFO, "Starting quick commerce news scraping...");
           (ERROR, "Error: " ++ PyStr.repr "a week's")])
       (mkOut ∅ [Marks.failed ++ " Error: " ++ PyStr.repr "a week's"])).
Proof.
  apply (main_exits_on_unknown_environment_token (world_with_timeframe "a week's")
           read_only_host "a week's" empty_out).
  - intros value H. discriminate H.
  - reflexivity.
  - intros H. apply options_lookup_dom in H. destruct H as [cfg H]. discriminate H.
  - reflexivity.
  - vm_compute. split; intros H; discriminate H.
Defined.







